(** * A shallow embedding of [modules/zway.py]

    The module is a Python 2 client for the JSON/HTTP interface of a Z-Way
    server.  A [Server] object holds the request configuration (base URL,
    timeout, session cookie) and a registry of the sensor channels found by
    scanning the server's device tree.

    The embedding follows the source method by method.  A method of
    [Server] becomes a computation in a state-and-exception monad over the
    object's attributes and the list of HTTP requests issued so far; the
    remote server is an oracle that answers each request. *)

From Stdlib Require Import ZArith NArith List String Ascii Bool Lia.
From Stdlib Require Import Permutation Sorted.
From Stdlib Require Import SpecFloat DecimalString.
Import ListNotations.

Set Implicit Arguments.
Local Open Scope string_scope.
Local Open Scope list_scope.
Local Open Scope Z_scope.

(* ================================================================== *)
(** * Strings                                                          *)
(* ================================================================== *)

(** Python 2 has two string types.  [str] is a sequence of bytes: the
    [content] of an HTTP response is one.  [unicode] is a sequence of
    16-bit code units, as in the JSON grammar; the strings of a decoded
    JSON document are [unicode]. *)

Definition bytes := string.

Definition uchar : Type := (ascii * ascii)%type.

Definition text := list uchar.

Definition uchr (c : ascii) : uchar := (zero, c).

(** The text of an ASCII literal. *)
Definition txt (s : string) : text := map uchr (list_ascii_of_string s).

(** A text between quotation marks. *)
Definition quoted (t : text) : text :=
  uchr "034"%char :: t ++ [uchr "034"%char].

Definition uchar_eqb (a b : uchar) : bool :=
  Ascii.eqb (fst a) (fst b) && Ascii.eqb (snd a) (snd b).

Fixpoint text_eqb (s t : text) : bool :=
  match s, t with
  | [], [] => true
  | a :: s', b :: t' => uchar_eqb a b && text_eqb s' t'
  | _, _ => false
  end.

Definition uchar_of_N (n : N) : uchar :=
  (ascii_of_N (n / 256), ascii_of_N (n mod 256)).

Definition N_of_uchar (u : uchar) : N :=
  (N_of_ascii (fst u) * 256 + N_of_ascii (snd u))%N.

(** ** Methods of [str] used by the module *)

(** [c.isspace()] in the C locale: space, \t, \n, \v, \f, \r. *)
Definition isspace (c : ascii) : bool :=
  let n := N_of_ascii c in
  (n =? 32)%N || ((9 <=? n)%N && (n <=? 13)%N).

Fixpoint lstrip (l : list ascii) : list ascii :=
  match l with
  | c :: l' => if isspace c then lstrip l' else l
  | [] => []
  end.

Definition rstrip (l : list ascii) : list ascii := rev (lstrip (rev l)).

(** [s.strip()] *)
Definition strip (s : bytes) : bytes :=
  string_of_list_ascii (rstrip (lstrip (list_ascii_of_string s))).

(** [s.replace(' ', '_')]: both patterns are one character long. *)
Fixpoint replace_space (s : bytes) : bytes :=
  match s with
  | EmptyString => EmptyString
  | String c s' =>
      String (if Ascii.eqb c " " then "_"%char else c) (replace_space s')
  end.

(** ** The UTF-8 codec

    The module calls [sys.setdefaultencoding('UTF8')], so wherever the
    interpreter coerces a [str] to [unicode] it decodes UTF-8.  The decoder
    is the one of CPython 2.7: lead bytes C0, C1 and F5..FF are refused,
    continuation bytes are checked, overlong three- and four-byte forms
    and code points above U+10FFFF are refused, encoded surrogates are
    let through.  A code point above U+FFFF yields a surrogate pair. *)

Definition is_cont (b : N) : bool := ((128 <=? b) && (b <? 192))%N.

Fixpoint utf8_units (l : list N) : option (list N) :=
  match l with
  | [] => Some []
  | b0 :: l1 =>
      if (b0 <? 128)%N then option_map (cons b0) (utf8_units l1)
      else if (b0 <? 194)%N then None
      else if (b0 <? 224)%N then
        match l1 with
        | b1 :: l2 =>
            if is_cont b1
            then option_map (cons ((b0 - 192) * 64 + (b1 - 128))%N)
                            (utf8_units l2)
            else None
        | _ => None
        end
      else if (b0 <? 240)%N then
        match l1 with
        | b1 :: b2 :: l3 =>
            if is_cont b1 && is_cont b2
               && negb ((b0 =? 224)%N && (b1 <? 160)%N)
            then option_map
                   (cons ((b0 - 224) * 4096 + (b1 - 128) * 64 + (b2 - 128))%N)
                   (utf8_units l3)
            else None
        | _ => None
        end
      else if (b0 <? 245)%N then
        match l1 with
        | b1 :: b2 :: b3 :: l4 =>
            if is_cont b1 && is_cont b2 && is_cont b3
               && negb ((b0 =? 240)%N && (b1 <? 144)%N)
               && negb ((b0 =? 244)%N && (143 <? b1)%N)
            then
              let cp := ((b0 - 240) * 262144 + (b1 - 128) * 4096
                         + (b2 - 128) * 64 + (b3 - 128) - 65536)%N in
              option_map
                (fun r => (55296 + cp / 1024)%N :: (56320 + cp mod 1024)%N :: r)
                (utf8_units l4)
            else None
        | _ => None
        end
      else None
  end.

(** [unicode(s)] under the default encoding; [None] is
    [UnicodeDecodeError]. *)
Definition decode (s : bytes) : option text :=
  option_map (map uchar_of_N)
             (utf8_units (map N_of_ascii (list_ascii_of_string s))).

(** ** Numbers as text *)

(** ["{}".format(n)] for an integer. *)
Definition dec (n : Z) : text := txt (NilZero.string_of_int (Z.to_int n)).

(** The ASCII characters of a text; [None] when a code unit is outside
    ASCII. *)
Fixpoint ascii_of_text (t : text) : option (list ascii) :=
  match t with
  | [] => Some []
  | (hi, lo) :: t' =>
      if Ascii.eqb hi zero && (N_of_ascii lo <? 128)%N
      then option_map (cons lo) (ascii_of_text t')
      else None
  end.

(* ================================================================== *)
(** * Floating-point numbers                                           *)
(* ================================================================== *)

(** A Python [float] is an IEEE 754 binary64 number. *)

Definition float := spec_float.

Definition prec : Z := 53.
Definition emax : Z := 1024.

(** The decimal number [(-1)^neg * m * 10^e], correctly rounded. *)
Definition float_of_decimal (neg : bool) (m : Z) (e : Z) : float :=
  match m with
  | Zpos p =>
      if 0 <=? e
      then binary_round prec emax neg (Z.to_pos (Zpos p * 10 ^ e)) 0
      else
        let '(q, e', l) := SFdiv_core_binary prec emax (Zpos p) 0 (10 ^ (- e)) 0 in
        binary_round_aux prec emax neg q e' l
  | _ => S754_zero neg
  end.

(** [float(n)] for an integer. *)
Definition float_of_Z (n : Z) : float := binary_normalize prec emax n 0 false.

Definition float_lt (x y : float) : bool := SFltb x y.
Definition float_le (x y : float) : bool := SFleb x y.

(** ** [float(s)] for a [str]

    Surrounding white space is dropped.  What remains is an optional sign
    followed by [inf], [infinity] or [nan] in any letter case, or by a
    decimal numeral with an optional fraction and an optional exponent. *)

Definition is_digit (c : ascii) : bool :=
  let n := N_of_ascii c in ((48 <=? n) && (n <=? 57))%N.

Definition digit_val (c : ascii) : Z := Z.of_N (N_of_ascii c) - 48.

Fixpoint span_digits (l : list ascii) : list ascii * list ascii :=
  match l with
  | c :: l' =>
      if is_digit c
      then let '(ds, r) := span_digits l' in (c :: ds, r)
      else ([], l)
  | [] => ([], [])
  end.

Definition digits_val (ds : list ascii) : Z :=
  fold_left (fun acc c => 10 * acc + digit_val c) ds 0.

Definition lower (c : ascii) : ascii :=
  let n := N_of_ascii c in
  if ((65 <=? n) && (n <=? 90))%N then ascii_of_N (n + 32) else c.

Definition ascii_list_eqb (a b : list ascii) : bool :=
  String.eqb (string_of_list_ascii a) (string_of_list_ascii b).

Definition split_sign (l : list ascii) : bool * list ascii :=
  match l with
  | "-"%char :: l' => (true, l')
  | "+"%char :: l' => (false, l')
  | _ => (false, l)
  end.

(** The exponent part: [None] when the characters are no exponent. *)
Definition parse_exponent (l : list ascii) : option Z :=
  match l with
  | [] => Some 0
  | c :: l' =>
      if Ascii.eqb (lower c) "e" then
        let '(neg, l'') := split_sign l' in
        match span_digits l'' with
        | ((_ :: _) as ds, []) =>
            Some (if neg then - digits_val ds else digits_val ds)
        | _ => None
        end
      else None
  end.

Definition parse_numeral (neg : bool) (l : list ascii) : option float :=
  let '(ip, r) := span_digits l in
  let '(fp, r') :=
    match r with
    | "."%char :: r1 => span_digits r1
    | _ => ([], r)
    end in
  match ip ++ fp with
  | [] => None
  | ds =>
      match parse_exponent r' with
      | Some ex =>
          Some (float_of_decimal neg (digits_val ds)
                                 (ex - Z.of_nat (List.length fp)))
      | None => None
      end
  end.

Definition float_of_str (s : list ascii) : option float :=
  let '(neg, l) := split_sign (rstrip (lstrip s)) in
  let w := map lower l in
  if ascii_list_eqb w (list_ascii_of_string "inf")
     || ascii_list_eqb w (list_ascii_of_string "infinity")
  then Some (S754_infinity neg)
  else if ascii_list_eqb w (list_ascii_of_string "nan") then Some S754_nan
  else parse_numeral neg l.

(** [float(t)] where [t] is the text of a [str]: a character outside
    ASCII is never part of a numeral. *)
Definition float_of_text (t : text) : option float :=
  match ascii_of_text t with
  | Some l => float_of_str l
  | None => None
  end.

(* ================================================================== *)
(** * Exceptions and results                                           *)
(* ================================================================== *)

(** The exceptions that the module raises, catches or lets through.
    [ConnectTimeout] derives from both [ConnectionError] and [Timeout] in
    the [requests] library; [ReadTimeout] derives from [Timeout] only.
    [OtherError] stands for every other exception that [requests.get] or
    [requests.post] can raise. *)
Inductive exn : Type :=
| ConnectionError
| ConnectTimeout
| ReadTimeout
| OtherError (tag : string)
| Exception (msg : string)
| RuntimeError (msg : string)
| KeyError (key : text)
| ValueError
| OverflowError
| AttributeError.

(** [isinstance(e, requests.exceptions.ConnectionError)] *)
Definition is_ConnectionError (e : exn) : bool :=
  match e with
  | ConnectionError | ConnectTimeout => true
  | _ => false
  end.

(** [isinstance(e, requests.exceptions.Timeout)] *)
Definition is_Timeout (e : exn) : bool :=
  match e with
  | ConnectTimeout | ReadTimeout => true
  | _ => false
  end.

(** [isinstance(e, ValueError)] *)
Definition is_ValueError (e : exn) : bool :=
  match e with
  | ValueError => true
  | _ => false
  end.

Inductive result (A : Type) : Type :=
| Ret (a : A)
| Raise (e : exn).

Arguments Ret {A} a.
Arguments Raise {A} e.

(** [int(x)] for a float truncates towards zero; it raises on an
    infinity and on NaN. *)
Definition int_of_float (x : float) : result Z :=
  match x with
  | S754_zero _ => Ret 0
  | S754_finite s m e =>
      let a := Z.shiftl (Zpos m) e in
      Ret (if s then - a else a)
  | S754_infinity _ => Raise OverflowError
  | S754_nan => Raise ValueError
  end.

(** [float(n)] for an integer raises when [n] is beyond the largest
    float. *)
Definition float_of_int (n : Z) : result float :=
  match float_of_Z n with
  | S754_infinity _ => Raise OverflowError
  | x => Ret x
  end.

(* ================================================================== *)
(** * Dictionaries                                                     *)
(* ================================================================== *)

(** A [dict] with string keys is a list of bindings with distinct keys;
    the order of the list is the order in which the interpreter iterates
    over the dictionary. *)

Section Dict.
Variable V : Type.

Definition dict := list (text * V).

Fixpoint dict_get (d : dict) (k : text) : option V :=
  match d with
  | [] => None
  | (k', v) :: d' => if text_eqb k' k then Some v else dict_get d' k
  end.

(** [d[k] = v] *)
Fixpoint dict_set (d : dict) (k : text) (v : V) : dict :=
  match d with
  | [] => [(k, v)]
  | (k', v') :: d' =>
      if text_eqb k' k then (k', v) :: d' else (k', v') :: dict_set d' k v
  end.

(** [d.keys()] *)
Definition keys (d : dict) : list text := map fst d.

Definition values (d : dict) : list V := map snd d.
End Dict.

Arguments dict_get {V} d k.
Arguments dict_set {V} d k v.
Arguments keys {V} d.
Arguments values {V} d.

(* ================================================================== *)
(** * The device registry                                              *)
(* ================================================================== *)

(** [data_dict]: the coordinates of one data channel in the device tree
    and the way its value is read. *)
Record data_dict : Type := Build_data_dict {
  instance_num : text;
  command_class : text;
  data_num : text;
  url_suffix : text;
  type : text
}.

(** An entry of [self.devices].  The scan stores ['data'] first and
    ['name'] later, so an entry can be without a name. *)
Record device : Type := Build_device {
  data : data_dict;
  name : option text
}.

Definition registry := dict device.

(* ================================================================== *)
(** * JSON text                                                        *)
(* ================================================================== *)

(** The fragment of JSON in which a registry is written: strings and
    objects. *)
#[local] Set Warnings "-register-all".

Inductive jsonval : Type :=
| JStr (s : text)
| JObj (fields : list (text * jsonval)).

Definition dquote : ascii := "034"%char.
Definition backslash : ascii := "092"%char.

(** ** [json.dump]

    With the default options the encoder writes ASCII only: a quotation
    mark, a backslash and the usual control characters get their
    two-character escapes, every other character outside the printable
    ASCII range is written as [\uXXXX] with lower-case digits; items are
    separated by [", "] and a key from its value by [": "]. *)

Definition hex_digit (n : N) : ascii :=
  if (n <? 10)%N then ascii_of_N (48 + n) else ascii_of_N (87 + n).

Definition hex_of_byte (b : ascii) : list ascii :=
  let n := N_of_ascii b in [hex_digit (n / 16); hex_digit (n mod 16)].

Definition escape_unit (u : uchar) : list ascii :=
  let '(hi, lo) := u in
  let n := N_of_ascii lo in
  if Ascii.eqb hi zero then
    if (n =? 34)%N then [backslash; dquote]
    else if (n =? 92)%N then [backslash; backslash]
    else if (n =? 10)%N then [backslash; "n"%char]
    else if (n =? 13)%N then [backslash; "r"%char]
    else if (n =? 9)%N then [backslash; "t"%char]
    else if (n =? 8)%N then [backslash; "b"%char]
    else if (n =? 12)%N then [backslash; "f"%char]
    else if ((32 <=? n) && (n <=? 126))%N then [lo]
    else backslash :: "u"%char :: hex_of_byte hi ++ hex_of_byte lo
  else backslash :: "u"%char :: hex_of_byte hi ++ hex_of_byte lo.

Definition encode_string (s : text) : list ascii :=
  dquote :: flat_map escape_unit s ++ [dquote].

Fixpoint dumps (j : jsonval) : list ascii :=
  match j with
  | JStr s => encode_string s
  | JObj fs =>
      "{"%char ::
      (fix members (fs : list (text * jsonval)) : list ascii :=
         match fs with
         | [] => []
         | (k, v) :: fs' =>
             encode_string k ++ ":"%char :: " "%char :: dumps v
               ++ match fs' with
                  | [] => []
                  | _ :: _ => ","%char :: " "%char :: members fs'
                  end
         end) fs
      ++ ["}"%char]
  end.

(** ** A JSON parser

    An independent reader of the same fragment: white space between
    tokens, strings with every escape of the JSON grammar, objects. *)











(** ** A registry as a JSON value, and back *)

Definition json_of_data (d : data_dict) : jsonval :=
  JObj [(txt "instance_num", JStr (instance_num d));
        (txt "command_class", JStr (command_class d));
        (txt "data_num", JStr (data_num d));
        (txt "url_suffix", JStr (url_suffix d));
        (txt "type", JStr (type d))].

Definition json_of_device (d : device) : jsonval :=
  JObj ((txt "data", json_of_data (data d))
          :: match name d with
             | Some n => [(txt "name", JStr n)]
             | None => []
             end).

Definition json_of_registry (r : registry) : jsonval :=
  JObj (map (fun kd => (fst kd, json_of_device (snd kd))) r).

(** Reading a parsed document as a mapping from device ids to records
    of fields. *)
Definition field_str (fs : list (text * jsonval)) (k : string) : option text :=
  match dict_get fs (txt k) with
  | Some (JStr s) => Some s
  | _ => None
  end.

Definition data_of_json (j : jsonval) : option data_dict :=
  match j with
  | JObj fs =>
      match field_str fs "instance_num", field_str fs "command_class",
            field_str fs "data_num", field_str fs "url_suffix",
            field_str fs "type" with
      | Some a, Some b, Some c, Some d, Some e =>
          if Nat.eqb (List.length fs) 5
          then Some (Build_data_dict a b c d e) else None
      | _, _, _, _, _ => None
      end
  | JStr _ => None
  end.




(* ================================================================== *)
(** * The HTTP interface                                               *)
(* ================================================================== *)

Definition cookiejar := list (text * text).

Inductive request : Type :=
| GET (url : text) (timeout : float) (cookies : option cookiejar)
| POST (url : text) (headers : list (text * text)) (body : text).

(** The device tree served at [Run/devices], as far as the scan looks at
    it: device ids, their instances, the command classes of an instance
    and the keys of the [data] object of a command class, each in
    iteration order.  Trees of another shape are outside this type. *)
Definition data_keys := list text.
Definition commandClasses := list (text * data_keys).
Definition instances := list (text * commandClasses).
Definition devices_page := list (text * instances).

(** A JSON document of the server: the device tree, or the [Data]
    document with the value at
    [controller.data.softwareRevisionVersion]. *)
Inductive document : Type :=
| DevicesDoc (tree : devices_page)
| DataDoc (softwareRevisionVersion : text).

(** An HTTP response: its body, the body as JSON when it is JSON, and the
    cookies it sets. *)
Record response : Type := Build_response {
  content : bytes;
  json : option document;
  cookies : cookiejar
}.

Inductive outcome : Type :=
| Responds (r : response)
| Fails (e : exn).

(** The remote server and the network in front of it: the outcome of the
    [n]-th request of a run. *)
Definition network := nat -> request -> outcome.

(* ================================================================== *)
(** * The state of a run                                               *)
(* ================================================================== *)

(** The attributes of a [Server] object. *)
Record Server : Type := Build_Server {
  timeout : float;
  base_url : text;
  cookie : option cookiejar;
  devices : registry
}.

(** What the module prints. *)
Inductive line : Type :=
| TimedOut (attempt : nat)
| ErrorText
| IgnoringDeviceAttr (device_type : bytes).

Record world : Type := Build_world {
  self : Server;
  sent : list request;
  stdout : list line
}.

Definition set_self (w : world) (s : Server) : world :=
  Build_world s (sent w) (stdout w).

(** A computation of the module: it ends in a value or an exception, and
    in both cases leaves a state behind. *)
Definition M (A : Type) : Type := world -> result A * world.

Definition ret {A} (a : A) : M A := fun w => (Ret a, w).

Definition raise {A} (e : exn) : M A := fun w => (Raise e, w).

Definition bind {A B} (m : M A) (k : A -> M B) : M B :=
  fun w =>
    match m w with
    | (Ret a, w') => k a w'
    | (Raise e, w') => (Raise e, w')
    end.

Notation "x <- m ;; k" := (bind m (fun x => k))
  (at level 61, m at next level, right associativity).
Notation "m ;; k" := (bind m (fun _ => k))
  (at level 61, right associativity).

(** [try: m  except: h] *)
Definition try_except {A} (m : M A) (h : exn -> M A) : M A :=
  fun w =>
    match m w with
    | (Ret a, w') => (Ret a, w')
    | (Raise e, w') => h e w'
    end.

Definition lift {A} (r : result A) : M A := fun w => (r, w).

Definition get_self : M Server := fun w => (Ret (self w), w).

Definition put_self (s : Server) : M unit := fun w => (Ret tt, set_self w s).

Definition print (l : line) : M unit :=
  fun w => (Ret tt, Build_world (self w) (sent w) (stdout w ++ [l])).

(** [for x in l: body], with the local variables that the body updates
    passed along. *)
Fixpoint for_in {A S} (l : list A) (body : S -> A -> M S) (s : S) : M S :=
  match l with
  | [] => ret s
  | x :: l' => s' <- body s x ;; for_in l' body s'
  end.

(** [None] where Python raises. *)
Definition or_raise {A} (o : option A) (e : exn) : M A :=
  match o with
  | Some a => ret a
  | None => raise e
  end.

(* ================================================================== *)
(** * Built-ins of the interpreter                                     *)
(* ================================================================== *)

(** Two built-ins are taken as given: [u.isdigit()] on a [unicode]
    string, which depends on the interpreter's Unicode tables, and
    [int(s)] on a [str] ([None] is [ValueError]). *)
Class Interp : Type := Build_Interp {
  unicode_isdigit : text -> bool;
  int_of_str : bytes -> option Z
}.

(** The values that a caller passes where the module applies [float]. *)
Inductive pyvalue : Type :=
| PyInt (n : Z)
| PyFloat (x : float)
| PyStr (s : bytes).

(** [float(v)] *)
Definition float_of_value (v : pyvalue) : result float :=
  match v with
  | PyInt n => float_of_int n
  | PyFloat x => Ret x
  | PyStr s =>
      match float_of_str (list_ascii_of_string s) with
      | Some x => Ret x
      | None => Raise ValueError
      end
  end.

(** ** [sorted(l, key=float)]

    The keys are computed first; the sort is stable and compares keys
    with [<] only.  The strings sorted are the keys of the registry,
    read by [float_of_text]: this is [float] on the [str] keys that a
    scan makes, and on any string of printable ASCII characters; on a
    [unicode] key with other characters, which only a registry given by
    the caller can hold, [float] also reads Unicode digits and white
    space. *)

Fixpoint decorate (l : list text) : result (list (float * text)) :=
  match l with
  | [] => Ret []
  | k :: l' =>
      match float_of_text k with
      | None => Raise ValueError
      | Some x =>
          match decorate l' with
          | Ret r => Ret ((x, k) :: r)
          | Raise e => Raise e
          end
      end
  end.

Fixpoint insert_sorted (a : float * text) (l : list (float * text))
  : list (float * text) :=
  match l with
  | [] => [a]
  | b :: l' =>
      if float_lt (fst b) (fst a) then b :: insert_sorted a l' else a :: b :: l'
  end.

Definition sort_decorated (l : list (float * text)) : list (float * text) :=
  fold_right insert_sorted [] l.

Definition sorted_key_float (l : list text) : result (list text) :=
  match decorate l with
  | Ret d => Ret (map snd (sort_decorated d))
  | Raise e => Raise e
  end.

(* ================================================================== *)
(** * class Server                                                     *)
(* ================================================================== *)

Definition with_timeout (s : Server) (t : float) : Server :=
  Build_Server t (base_url s) (cookie s) (devices s).

Definition with_base_url (s : Server) (u : text) : Server :=
  Build_Server (timeout s) u (cookie s) (devices s).

Definition with_cookie (s : Server) (c : option cookiejar) : Server :=
  Build_Server (timeout s) (base_url s) c (devices s).

Definition with_devices (s : Server) (d : registry) : Server :=
  Build_Server (timeout s) (base_url s) (cookie s) d.

(** A string object given to the constructor as a user name or as a
    password.  [generate_session] compares these objects with the empty
    string literal by [is], which is identity: the test holds of one
    object, the empty [str] that the literal denotes, which is also the
    default of both arguments of [__init__].  Of every other object it
    does not hold, whatever its characters: a string that is not empty,
    the empty [unicode] string, an empty [str] that is another
    object. *)
Inductive strobj : Type :=
| empty_str_literal
| string_object (chars : text).

(** The characters of a string object. *)
Definition chars_of (s : strobj) : text :=
  match s with
  | empty_str_literal => []
  | string_object t => t
  end.

(** [s] is the object of the empty string literal. *)
Definition is_empty_literal (s : strobj) : bool :=
  match s with
  | empty_str_literal => true
  | string_object _ => false
  end.

Definition acceptedClasses : list text := [txt "48"; txt "49"; txt "50"].

Definition num_attempts : nat := 10.

Section Methods.
Context {interp : Interp}.
Variable net : network.

(** A call of [requests.get] or [requests.post]: the request goes out
    and the network decides what comes back. *)
Definition http (req : request) : M response :=
  fun w =>
    let w' := Build_world (self w) (sent w ++ [req]) (stdout w) in
    match net (List.length (sent w)) req with
    | Responds r => (Ret r, w')
    | Fails e => (Raise e, w')
    end.

(** The body of the [try] in [_make_request]. *)
Definition requests_get (command : text) : M response :=
  s <- get_self ;;
  match cookie s with
  | None => http (GET (base_url s ++ command) (timeout s) None)
  | Some c => http (GET (base_url s ++ command) (timeout s) (Some c))
  end.

(** The loop of [_make_request] over the attempts that remain.  [None]
    is the value of a call that falls off the end of the loop. *)
Fixpoint request_loop (command : text) (attempts : list nat)
  : M (option response) :=
  match attempts with
  | [] => ret None
  | attempt :: rest =>
      r <- try_except
             (page <- requests_get command ;; ret (Some page))
             (fun e =>
                if is_ConnectionError e then
                  if Nat.eqb attempt (num_attempts - 1)
                  then raise (Exception
                                "server did not respond, connection is lost")
                  else ret None
                else if is_Timeout e then
                  print (TimedOut attempt) ;;
                  if Nat.eqb attempt (num_attempts - 1)
                  then raise (Exception "server Timeout")
                  else ret None
                else raise e) ;;
      match r with
      | Some page => ret (Some page)
      | None => request_loop command rest
      end
  end.

Definition _make_request (command : text) : M (option response) :=
  request_loop command (seq 0 num_attempts).

(** [page.content] and [page.json()] *)
Definition page_content (page : option response) : M bytes :=
  match page with
  | Some r => ret (content r)
  | None => raise AttributeError
  end.

Definition page_json (page : option response) : M document :=
  match page with
  | Some r => or_raise (json r) ValueError
  | None => raise AttributeError
  end.

Definition generate_session (host : text) (port : Z)
           (username password : strobj) : M unit :=
  if is_empty_literal username && is_empty_literal password then
    s <- get_self ;; put_self (with_cookie s None)
  else
    let loginpage :=
      txt "http://" ++ host ++ txt ":" ++ dec port
          ++ txt "/ZAutomation/api/v1/login" in
    let headers :=
      [(txt "Accept", txt "application/json");
       (txt "Content-Type", txt "application/json")] in
    let data :=
      txt "{" ++ quoted (txt "form") ++ txt ":true, "
          ++ quoted (txt "login") ++ txt ":" ++ quoted (chars_of username)
          ++ txt ", " ++ quoted (txt "password") ++ txt ":"
          ++ quoted (chars_of password) ++ txt ", " ++ quoted (txt "keepme")
          ++ txt ":false, " ++ quoted (txt "default_ui") ++ txt ":1}" in
    r <- http (POST loginpage headers data) ;;
    s <- get_self ;;
    put_self (with_cookie s (Some (cookies r))).

Definition set_timeout (timeout : pyvalue) : M unit :=
  t <- lift (float_of_value timeout) ;;
  s <- get_self ;;
  put_self (with_timeout s t).

(** [self.devices[device_id]] *)
Definition lookup_device (device_id : text) : M device :=
  s <- get_self ;;
  or_raise (dict_get (devices s) device_id) (KeyError device_id).

(** [int(float(device_id))] *)
Definition device_number (device_id : text) : M Z :=
  x <- or_raise (float_of_text device_id) ValueError ;;
  lift (int_of_float x).

Definition device_type (device_id : text) : M bytes :=
  device <- device_number device_id ;;
  d <- lookup_device device_id ;;
  let command :=
    txt "Run/devices[" ++ dec device
        ++ txt "].instances[" ++ instance_num (data d)
        ++ txt "].commandClasses[" ++ command_class (data d)
        ++ txt "].data[" ++ data_num (data d)
        ++ txt "].sensorTypeString.value" in
  page <- _make_request command ;;
  page_content page.

(** [self.devices[device_id]['name'] = name] *)
Definition set_name (device_id : text) (name : text) : M unit :=
  d <- lookup_device device_id ;;
  s <- get_self ;;
  put_self (with_devices s
              (dict_set (devices s) device_id
                        (Build_device (data d) (Some name)))).

(** The body of the innermost loop of [update_devices]; the value
    passed along is [device_count]. *)
Definition scan_data (device_id_base instance_num commandClass : text)
           (device_count : nat) (data_num : text) : M nat :=
  if unicode_isdigit data_num then
    let bool_class := text_eqb commandClass (txt "48") in
    let data_dict :=
      Build_data_dict instance_num commandClass data_num
        (if bool_class then txt "level.value" else txt "val.value")
        (if bool_class then txt "bool" else txt "double") in
    let device_id :=
      device_id_base ++ txt "." ++ dec (Z.of_nat device_count) in
    s <- get_self ;;
    put_self (with_devices s
                (dict_set (devices s) device_id
                          (Build_device data_dict None))) ;;
    let device_count := S device_count in
    device_type <- device_type device_id ;;
    let device_type := replace_space (strip device_type) in
    match decode device_type with
    | Some u =>
        set_name device_id (device_id_base ++ txt "_" ++ u) ;;
        ret device_count
    | None =>
        print ErrorText ;;
        print (IgnoringDeviceAttr device_type) ;;
        ret device_count
    end
  else ret device_count.

Definition scan_class (device_id_base instance_num : text)
           (device_count : nat) (cc : text * data_keys) : M nat :=
  let '(commandClass, data) := cc in
  if existsb (text_eqb commandClass) acceptedClasses
  then for_in data (scan_data device_id_base instance_num commandClass)
              device_count
  else ret device_count.

Definition scan_instance (device_id_base : text) (device_count : nat)
           (inst : text * commandClasses) : M nat :=
  let '(instance_num, commandClasses) := inst in
  for_in commandClasses (scan_class device_id_base instance_num)
         device_count.

Definition scan_device (_ : unit) (dev : text * instances) : M unit :=
  let '(device_id_base, instances) := dev in
  for_in instances (scan_instance device_id_base) 0%nat ;;
  ret tt.

Definition update_devices : M registry :=
  s <- get_self ;;
  put_self (with_devices s []) ;;
  page <- _make_request (txt "Run/devices") ;;
  doc <- page_json page ;;
  match doc with
  | DevicesDoc devices_page =>
      for_in devices_page scan_device tt ;;
      s <- get_self ;;
      ret (devices s)
  | DataDoc _ => raise (KeyError (txt "instances"))
  end.

Definition device_IDs : M (list text) :=
  s <- get_self ;;
  lift (sorted_key_float (keys (devices s))).

Definition software_version : M text :=
  s <- get_self ;;
  let command := base_url s ++ txt "Data" in
  page <- _make_request command ;;
  Data_dict <- page_json page ;;
  match Data_dict with
  | DataDoc v => ret v
  | DevicesDoc _ => raise (KeyError (txt "controller"))
  end.

Definition battery_level (device_id : text) : M Z :=
  _ <- lookup_device device_id ;;
  let command :=
    txt "Run/devices[" ++ device_id
        ++ txt "].instances[0].Battery.data.last.value" in
  page <- _make_request command ;;
  battery_percent <- page_content page ;;
  or_raise (int_of_str battery_percent) ValueError.

Definition get_data (device_id : text) : M float :=
  d <- lookup_device device_id ;;
  let instance_num := instance_num (data d) in
  let command_class := command_class (data d) in
  let data_num := data_num (data d) in
  let data_type := type (data d) in
  let suffix := url_suffix (data d) in
  device <- device_number device_id ;;
  let command :=
    txt "Run/devices[" ++ dec device
        ++ txt "].instances[" ++ instance_num
        ++ txt "].commandClasses[" ++ command_class
        ++ txt "].Get(sensorType=-1)" in
  _make_request command ;;
  let command :=
    txt "Run/devices[" ++ dec device
        ++ txt "].instances[" ++ instance_num
        ++ txt "].commandClasses[" ++ command_class
        ++ txt "].data[" ++ data_num
        ++ txt "]." ++ suffix in
  page <- _make_request command ;;
  data <- page_content page ;;
  let data :=
    if text_eqb data_type (txt "bool")
    then PyInt (if String.eqb data "true" then 1 else 0)
    else PyStr data in
  lift (float_of_value data).

Definition device_name (device_id : text) : M text :=
  d <- lookup_device device_id ;;
  or_raise (name d) (KeyError (txt "name")).

(** The file-like object is the text written to it so far. *)
Definition save_devices_to_file (fh : list ascii) : M (list ascii) :=
  s <- get_self ;;
  ret (fh ++ dumps (json_of_registry (devices s))).

Definition __init__ (host : text) (port : Z) (device_dict : registry)
           (username password : strobj) : M unit :=
  s <- get_self ;;
  put_self (with_timeout s (float_of_Z 5)) ;;
  s <- get_self ;;
  put_self (with_base_url s
              (txt "http://" ++ host ++ txt ":" ++ dec port
                   ++ txt "/ZWaveAPI/")) ;;
  try_except
    (generate_session host port username password ;;
     page <- _make_request (txt "Data") ;;
     page_json page ;;
     ret tt)
    (fun e =>
       if is_ConnectionError e then
         raise (RuntimeError
                  "Connection could not be established: destination host unreachable")
       else if is_ValueError e then
         raise (RuntimeError
                  "Connection could not be established: authentication required")
       else raise (RuntimeError "Connection could not be established")) ;;
  match device_dict with
  | [] => update_devices ;; ret tt
  | _ => s <- get_self ;; put_self (with_devices s device_dict)
  end.

End Methods.

(* ================================================================== *)
(** * A concrete interpreter and concrete servers                      *)
(* ================================================================== *)

(** The built-ins on ASCII input, where they do not depend on Unicode
    tables: a string of decimal digits is a digit string, and [int]
    reads an optional sign followed by decimal digits. *)

Definition ascii_isdigit (t : text) : bool :=
  match ascii_of_text t with
  | Some ((_ :: _) as l) => forallb is_digit l
  | _ => false
  end.

Definition ascii_int (s : bytes) : option Z :=
  let '(neg, l) := split_sign (rstrip (lstrip (list_ascii_of_string s))) in
  match span_digits l with
  | ((_ :: _) as ds, []) => Some (if neg then - digits_val ds else digits_val ds)
  | _ => None
  end.

Definition ascii_interp : Interp := Build_Interp ascii_isdigit ascii_int.

(** A new object, before [__init__] has assigned its attributes. *)
Definition new_object : world :=
  Build_world (Build_Server (S754_zero false) [] None []) [] [].

(** A world around an object with the given attributes, nothing sent or
    printed yet. *)
Definition world_of (s : Server) : world := Build_world s [] [].

Definition page_of (body : bytes) : response := Build_response body None [].

Definition json_page (doc : document) : response :=
  Build_response EmptyString (Some doc) [].

(* ================================================================== *)
(** * Vocabulary of the specifications                                 *)
(* ================================================================== *)

(** The request that [_make_request] sends for a command. *)
Definition get_request (s : Server) (command : text) : request :=
  GET (base_url s ++ command) (timeout s) (cookie s).

(** The errors that [_make_request] retries. *)
Definition retried (e : exn) : bool := is_ConnectionError e || is_Timeout e.

(** The message of the terminal error after the last attempt. *)
Definition terminal_error (e : exn) : exn :=
  if is_ConnectionError e
  then Exception "server did not respond, connection is lost"
  else Exception "server Timeout".

Definition sending (w : world) (req : request) : world :=
  Build_world (self w) (sent w ++ [req]) (stdout w).

Definition printing (w : world) (l : line) : world :=
  Build_world (self w) (sent w) (stdout w ++ [l]).

(** A server that times out nine times and then answers. *)
Definition nine_timeouts (p : response) : network :=
  fun n _ => if Nat.ltb n 9 then Fails ReadTimeout else Responds p.

(** ** Outcomes of a computation

    [wp m Q E w]: run from [w], the computation [m] ends in a value [a]
    and a state that satisfy [Q], or in an exception [e] and a state that
    satisfy [E]. *)
Definition wp {A} (m : M A) (Q : A -> world -> Prop)
           (E : exn -> world -> Prop) (w : world) : Prop :=
  match m w with
  | (Ret a, w') => Q a w'
  | (Raise e, w') => E e w'
  end.


(** [keeps R m]: a run of [m] that starts in a state related by [R] to
    some earlier state [w0] ends, with a value or with an exception, in a
    state related to [w0]. *)
Definition keeps (R : world -> world -> Prop) {A} (m : M A) : Prop :=
  forall w0 w, R w0 w ->
    wp m (fun _ w' => R w0 w') (fun _ w' => R w0 w') w.

(** The object is the same. *)
Definition same_object (w w' : world) : Prop := self w' = self w.

(** The timeout, the base URL and the cookie are the same. *)
Definition same_config (w w' : world) : Prop :=
  timeout (self w') = timeout (self w) /\
  base_url (self w') = base_url (self w) /\
  cookie (self w') = cookie (self w).

(** A method call on a [Server] object. *)
Inductive call : Type :=
| call_set_timeout (timeout : pyvalue)
| call_update_devices
| call_device_IDs
| call_software_version
| call_battery_level (device_id : text)
| call_get_data (device_id : text)
| call_device_type (device_id : text)
| call_device_name (device_id : text)
| call_save_devices_to_file (fh : list ascii)
| call_make_request (command : text).

Section Calls.
Context {interp : Interp}.
Variable net : network.

(** The state after a call, whether it returned or raised; an
    exception goes to the caller, who keeps the object. *)
Definition run_call (c : call) (w : world) : world :=
  match c with
  | call_set_timeout t => snd (set_timeout t w)
  | call_update_devices => snd (update_devices net w)
  | call_device_IDs => snd (device_IDs w)
  | call_software_version => snd (software_version net w)
  | call_battery_level id => snd (battery_level net id w)
  | call_get_data id => snd (get_data net id w)
  | call_device_type id => snd (device_type net id w)
  | call_device_name id => snd (device_name id w)
  | call_save_devices_to_file fh => snd (save_devices_to_file fh w)
  | call_make_request command => snd (_make_request net command w)
  end.

Definition run_calls (cs : list call) (w : world) : world :=
  fold_left (fun w c => run_call c w) cs w.
End Calls.

(** A GET request that carries no cookies. *)
Definition cookieless (req : request) : Prop :=
  exists url t, req = GET url t None.

(** [unauthenticated w w']: if the object has no cookie in [w], it has
    none in [w'] and every request sent in between was a GET request
    without cookies. *)
Definition unauthenticated (w w' : world) : Prop :=
  cookie (self w) = None ->
  cookie (self w') = None /\
  exists l, sent w' = sent w ++ l /\ Forall cookieless l.

(** [x > 0] on floats. *)
Definition positive (x : float) : bool := float_lt (S754_zero false) x.

(** An object as the constructor leaves it when given a registry. *)
Definition constructed (d : registry) : world :=
  world_of (Build_Server (float_of_Z 5) (txt "http://localhost:8083/ZWaveAPI/")
                         None d).

(** The timeout is the same. *)
Definition same_timeout (w w' : world) : Prop :=
  timeout (self w') = timeout (self w).

(** The two commands of [get_data] for device number [device] and the
    coordinates [d]: the one that makes the server refresh the value and
    the one that reads it. *)
Definition refresh_command (device : Z) (d : data_dict) : text :=
  txt "Run/devices[" ++ dec device
      ++ txt "].instances[" ++ instance_num d
      ++ txt "].commandClasses[" ++ command_class d
      ++ txt "].Get(sensorType=-1)".

Definition value_command (device : Z) (d : data_dict) : text :=
  txt "Run/devices[" ++ dec device
      ++ txt "].instances[" ++ instance_num d
      ++ txt "].commandClasses[" ++ command_class d
      ++ txt "].data[" ++ data_num d
      ++ txt "]." ++ url_suffix d.

(** [float(s)] for the body of a response. *)
Definition parse_float (s : bytes) : result float :=
  match float_of_str (list_ascii_of_string s) with
  | Some x => Ret x
  | None => Raise ValueError
  end.

(** A server that answers every request with the same body. *)
Definition always (body : bytes) : network := fun _ _ => Responds (page_of body).

Definition switch_48 : device :=
  Build_device (Build_data_dict (txt "0") (txt "48") (txt "1")
                                (txt "level.value") (txt "bool")) None.

Definition meter_49 : device :=
  Build_device (Build_data_dict (txt "0") (txt "49") (txt "3")
                                (txt "val.value") (txt "double")) None.

(** ** What a scan writes

    [discovered tree] lists, in the order of the scan, the device id and
    the coordinates of every data channel that the scan of [tree] writes
    into the registry. *)

Fixpoint spec_fold {A S X} (step : S -> A -> list X * S) (l : list A) (s : S)
  : list X * S :=
  match l with
  | [] => ([], s)
  | x :: l' =>
      let '(e1, s1) := step s x in
      let '(e2, s2) := spec_fold step l' s1 in
      (e1 ++ e2, s2)
  end.

Section Discovered.
Context {interp : Interp}.

Definition data_step (base inst cc : text) (count : nat) (dn : text)
  : list (text * data_dict) * nat :=
  if unicode_isdigit dn then
    ([(base ++ txt "." ++ dec (Z.of_nat count),
       Build_data_dict inst cc dn
         (if text_eqb cc (txt "48") then txt "level.value" else txt "val.value")
         (if text_eqb cc (txt "48") then txt "bool" else txt "double"))],
     S count)
  else ([], count).

Definition class_step (base inst : text) (count : nat) (c : text * data_keys)
  : list (text * data_dict) * nat :=
  if existsb (text_eqb (fst c)) acceptedClasses
  then spec_fold (data_step base inst (fst c)) (snd c) count
  else ([], count).

Definition instance_step (base : text) (count : nat)
           (i : text * commandClasses) : list (text * data_dict) * nat :=
  spec_fold (class_step base (fst i)) (snd i) count.

Definition device_step (u : unit) (dev : text * instances)
  : list (text * data_dict) * unit :=
  (fst (spec_fold (instance_step (fst dev)) (snd dev) 0%nat), tt).

Definition discovered (tree : devices_page) : list (text * data_dict) :=
  fst (spec_fold device_step tree tt).
End Discovered.

(** The coordinates stored in a registry, names left out. *)
Definition coordinates (r : registry) : dict data_dict :=
  map (fun kd => (fst kd, data (snd kd))) r.

(** The dictionary after the assignments [d[k] = v] for the bindings of
    [es], in order. *)
Definition add_all {V} (es : list (text * V)) (d : dict V) : dict V :=
  fold_left (fun d e => dict_set d (fst e) (snd e)) es d.

Definition Prefix {X} (p full : list X) : Prop := exists q, full = p ++ q.

(** A device id that [int(float(id))] accepts. *)
Definition key_ok (k : text) : Prop :=
  exists x n, float_of_text k = Some x /\ int_of_float x = Ret n.

Definition numbered (r : registry) : Prop := Forall key_ok (keys r).

(** [scans m es s']: when [m] returns, it returns [s'] and has made the
    assignments [es] to the registry; when it raises, it has made the
    first few of them.  A registry whose ids are all numbers is still one
    when [m] returns. *)
Definition scans {S} (m : M S) (es : list (text * data_dict)) (s' : S) : Prop :=
  forall w,
    wp m
       (fun s'' w' =>
          s'' = s' /\
          coordinates (devices (self w'))
          = add_all es (coordinates (devices (self w))) /\
          (numbered (devices (self w)) -> numbered (devices (self w'))))
       (fun _ w' =>
          exists p, Prefix p es /\
            coordinates (devices (self w'))
            = add_all p (coordinates (devices (self w))))
       w.

Definition is_nan (x : float) : bool :=
  match x with
  | S754_nan => true
  | _ => false
  end.

(** The order in which [device_IDs] lists ids: by their value as
    floats. *)
Definition numeric_le (a b : text) : Prop :=
  match float_of_text a, float_of_text b with
  | Some x, Some y => float_le x y = true
  | _, _ => False
  end.

Definition key_le (a b : float * text) : Prop :=
  float_le (fst a) (fst b) = true.

(** The state in which a scan sends its first request: the registry has
    been emptied. *)
Definition cleared (w : world) : world :=
  set_self w (with_devices (self w) []).

(** [serves net w tree]: the scan started in [w] gets [tree] as the
    device tree. *)
Definition serves (net : network) (w : world) (tree : devices_page) : Prop :=
  exists page w1,
    _make_request net (txt "Run/devices") (cleared w) = (Ret (Some page), w1)
    /\ json page = Some (DevicesDoc tree).

(** The tree of the scenario: device [48] with instance [0], whose
    command class [48] has the data index [1]. *)
Definition tree_48 : devices_page :=
  [(txt "48", [(txt "0", [(txt "48", [txt "1"])])])].

(** Value type and suffix follow the command class. *)
Definition classified (d : data_dict) : Prop :=
  (command_class d = txt "48" /\ type d = txt "bool"
   /\ url_suffix d = txt "level.value")
  \/ ((command_class d = txt "49" \/ command_class d = txt "50")
      /\ type d = txt "double" /\ url_suffix d = txt "val.value").

(** ** Concrete servers *)

(** A server that answers the first request with a device tree and each
    later one as [later] says, by the number of the request. *)
Definition tree_server (tree : devices_page) (later : nat -> outcome) : network :=
  fun n _ =>
    match n with
    | O => Responds (json_page (DevicesDoc tree))
    | S n' => later n'
    end.

(** Three devices with one multilevel channel each. *)
Definition tree_three : devices_page :=
  [(txt "49", [(txt "0", [(txt "49", [txt "1"])])]);
   (txt "5", [(txt "0", [(txt "49", [txt "1"])])]);
   (txt "48", [(txt "0", [(txt "50", [txt "0"])])])].

(** One device with two channels of class 49. *)
Definition tree_two : devices_page :=
  [(txt "48", [(txt "0", [(txt "49", [txt "1"; txt "2"])])])].

(** A body that is not UTF-8: the single byte FF. *)
Definition not_utf8 : bytes := String (ascii_of_nat 255) EmptyString.

(** The sensor type of the first channel is not UTF-8, the next one
    is. *)
Definition undecodable_first : nat -> outcome :=
  fun n =>
    match n with
    | O => Responds (page_of not_utf8)
    | S _ => Responds (page_of "Power")
    end.

(** The sensor type of the first channel is served; every later request
    times out. *)
Definition fails_after_first : nat -> outcome :=
  fun n =>
    match n with
    | O => Responds (page_of "Power")
    | S _ => Fails ReadTimeout
    end.

Definition data_49 (dn : string) : data_dict :=
  Build_data_dict (txt "0") (txt "49") (txt dn) (txt "val.value") (txt "double").

(** The scan of [tree_three] by a new client. *)
Definition scan_three : result registry * world :=
  update_devices (interp:=ascii_interp)
    (tree_server tree_three (fun _ => Responds (page_of "Power")))
    (constructed []).

(** The entry of the scenario. *)
Definition data_48_0 : data_dict :=
  Build_data_dict (txt "0") (txt "48") (txt "1")
                  (txt "level.value") (txt "bool").

(** The scan of [tree_48] by a new client. *)
Definition scan_48 : result registry * world :=
  update_devices (interp:=ascii_interp)
    (tree_server tree_48 (fun _ => Responds (page_of "General purpose")))
    (constructed []).

(** A client whose registry holds one device, and two scans of its:
    one in which no request gets through, one in which the requests fail
    after the first channel of [tree_two] has been named. *)
Definition one_device : world := constructed [(txt "48.0", switch_48)].

Definition scan_offline : result registry * world :=
  update_devices (interp:=ascii_interp) (fun _ _ => Fails ConnectionError)
                 one_device.

Definition scan_interrupted : result registry * world :=
  update_devices (interp:=ascii_interp) (tree_server tree_two fails_after_first)
                 one_device.

(** A scan in which the sensor type of the first channel cannot be
    decoded. *)
Definition scan_undecodable : result registry * world :=
  update_devices (interp:=ascii_interp) (tree_server tree_two undecodable_first)
                 (constructed []).

(** The device id and the coordinates that [scan_data] writes. *)
Definition new_device_id (device_id_base : text) (device_count : nat) : text :=
  device_id_base ++ txt "." ++ dec (Z.of_nat device_count).

Definition new_data_dict (instance_num commandClass data_num : text) : data_dict :=
  Build_data_dict instance_num commandClass data_num
    (if text_eqb commandClass (txt "48") then txt "level.value" else txt "val.value")
    (if text_eqb commandClass (txt "48") then txt "bool" else txt "double").

(** ** Vocabulary for the round trip of the registry *)

(** The text of the members of an object, as [dumps] writes it between
    the braces. *)
Fixpoint members_text (fs : list (text * jsonval)) : list ascii :=
  match fs with
  | [] => []
  | (k, v) :: fs' =>
      encode_string k ++ ":"%char :: " "%char :: dumps v
        ++ match fs' with
           | [] => []
           | _ :: _ => ","%char :: " "%char :: members_text fs'
           end
  end.

(** The nesting depth of a value. *)
Fixpoint height (j : jsonval) : nat :=
  match j with
  | JStr _ => 1
  | JObj fs => S (fold_right (fun kv n => Nat.max (height (snd kv)) n) 0%nat fs)
  end.


(** The command of [battery_level] and the command of [device_type] for
    device number [device] and the coordinates [d]. *)
Definition battery_command (device_id : text) : text :=
  txt "Run/devices[" ++ device_id
      ++ txt "].instances[0].Battery.data.last.value".

Definition sensor_type_command (device : Z) (d : data_dict) : text :=
  txt "Run/devices[" ++ dec device
      ++ txt "].instances[" ++ instance_num d
      ++ txt "].commandClasses[" ++ command_class d
      ++ txt "].data[" ++ data_num d
      ++ txt "].sensorTypeString.value".

(** [answers net w command p]: the first attempt at [command] from the
    state [w] is answered with the page [p]. *)
Definition answers (net : network) (w : world) (command : text)
           (p : response) : Prop :=
  net (List.length (sent w)) (get_request (self w) command) = Responds p.

(** ** Vocabulary for the constructor and the session *)

(** The request of [generate_session]. *)
Definition login_request (host : text) (port : Z) (username password : text)
  : request :=
  POST (txt "http://" ++ host ++ txt ":" ++ dec port
            ++ txt "/ZAutomation/api/v1/login")
       [(txt "Accept", txt "application/json");
        (txt "Content-Type", txt "application/json")]
       (txt "{" ++ quoted (txt "form") ++ txt ":true, "
            ++ quoted (txt "login") ++ txt ":" ++ quoted username
            ++ txt ", " ++ quoted (txt "password") ++ txt ":"
            ++ quoted password ++ txt ", " ++ quoted (txt "keepme")
            ++ txt ":false, " ++ quoted (txt "default_ui") ++ txt ":1}").

(** The state after the first two assignments of [__init__]. *)
Definition configured (host : text) (port : Z) (w : world) : world :=
  set_self w
    (Build_Server (float_of_Z 5)
       (txt "http://" ++ host ++ txt ":" ++ dec port ++ txt "/ZWaveAPI/")
       (cookie (self w)) (devices (self w))).

(** The error that [__init__] raises for an exception caught by its
    [try]. *)
Definition startup_error (e : exn) : exn :=
  if is_ConnectionError e then
    RuntimeError
      "Connection could not be established: destination host unreachable"
  else if is_ValueError e then
    RuntimeError
      "Connection could not be established: authentication required"
  else RuntimeError "Connection could not be established".

(** A GET request that carries the cookies [c]. *)
Definition carries (c : option cookiejar) (req : request) : Prop :=
  exists url t, req = GET url t c.

(** [in_session c w w']: if the cookie of the object is [c] in [w], it
    is [c] in [w'] and every request sent in between was a GET request
    with [c]. *)
Definition in_session (c : option cookiejar) (w w' : world) : Prop :=
  cookie (self w) = c ->
  cookie (self w') = c /\
  exists l, sent w' = sent w ++ l /\ Forall (carries c) l.

(** A server that accepts every login and hands out one cookie, and
    answers every GET with the [Data] document. *)
Definition session_cookie : cookiejar := [(txt "ZWAYSession", txt "abc")].

Definition login_server : network :=
  fun _ req =>
    match req with
    | POST _ _ _ =>
        Responds (Build_response EmptyString None session_cookie)
    | GET _ _ _ => Responds (json_page (DataDoc (txt "v2.3.0")))
    end.

(** The request with which [__init__] checks the connection when it was
    given no credentials. *)
Definition data_request (host : text) (port : Z) : request :=
  GET ((txt "http://" ++ host ++ txt ":" ++ dec port ++ txt "/ZWaveAPI/")
         ++ txt "Data")
      (float_of_Z 5) None.

(** A host that refuses every connection. *)
Definition unreachable : network := fun _ _ => Fails ConnectionError.

(** The state in which an [__init__] without credentials has checked the
    connection with one answered request. *)
Definition checked (host : text) (port : Z) (w : world) : world :=
  Build_world
    (Build_Server (float_of_Z 5)
       (txt "http://" ++ host ++ txt ":" ++ dec port ++ txt "/ZWaveAPI/")
       None (devices (self w)))
    (sent w ++ [data_request host port]) (stdout w).

(** ** Vocabulary for the numbering of the ids *)

Section Channels.
Context {interp : Interp}.

(** The data indices of a command class that a scan turns into entries:
    the digit strings, when the class is an accepted one. *)
Definition channels_of_class (c : text * data_keys) : nat :=
  if existsb (text_eqb (fst c)) acceptedClasses
  then List.length (filter unicode_isdigit (snd c))
  else 0%nat.

Definition channels_of_instance (i : text * commandClasses) : nat :=
  list_sum (map channels_of_class (snd i)).

(** The number of entries that a scan makes for a device of the tree. *)
Definition channels (dev : text * instances) : nat :=
  list_sum (map channels_of_instance (snd dev)).

End Channels.

(** A tree whose device has a base id that is no number. *)
Definition tree_named : devices_page :=
  [(txt "hall", [(txt "0", [(txt "49", [txt "1"])])])].

(** ** Vocabulary for the configuration of the requests *)

(** A GET request for some command under the base URL [b], with the
    timeout [t]. *)
Definition governed (t : float) (b : text) (req : request) : Prop :=
  exists command c, req = GET (b ++ command) t c.

(** [under_config t b w w']: if the timeout and the base URL of the
    object are [t] and [b] in [w], they are in [w'], and every request
    sent in between was a GET request under [b] with the timeout [t]. *)
Definition under_config (t : float) (b : text) (w w' : world) : Prop :=
  timeout (self w) = t -> base_url (self w) = b ->
  timeout (self w') = t /\ base_url (self w') = b /\
  exists l, sent w' = sent w ++ l /\ Forall (governed t b) l.

(** No call of [set_timeout]. *)
Definition not_set_timeout (c : call) : bool :=
  match c with
  | call_set_timeout _ => false
  | _ => true
  end.

(** ** Vocabulary for the output of [_make_request] *)

(** The lines that [_make_request] prints when its attempts from the
    attempt [a] on fail with the errors [es]: one line for each error
    that the second handler catches, a timeout that is no connection
    error. *)
Fixpoint timeout_lines (a : nat) (es : list exn) : list line :=
  match es with
  | [] => []
  | e :: es' =>
      (if is_ConnectionError e then []
       else if is_Timeout e then [TimedOut a] else [])
        ++ timeout_lines (S a) es'
  end.

(** The attempts from the [n]-th request on fail with the errors [es],
    in this order. *)
Definition fails_with (net : network) (n : nat) (req : request)
           (es : list exn) : Prop :=
  forall i e, nth_error es i = Some e -> net (n + i)%nat req = Fails e.

(** An outcome that ends the loop of [_make_request]: a response, or an
    error that is not retried. *)
Definition final (o : outcome) : Prop :=
  match o with
  | Responds _ => True
  | Fails e => retried e = false
  end.

(** Three timeouts, the second one while connecting, then an answer. *)
Definition three_timeouts (p : response) : network :=
  fun n _ =>
    match n with
    | 0%nat => Fails ReadTimeout
    | 1%nat => Fails ConnectTimeout
    | 2%nat => Fails ReadTimeout
    | _ => Responds p
    end.

(** A printable ASCII character: a code from 32 to 126. *)
Definition printable (c : ascii) : Prop :=
  (32 <= N_of_ascii c <= 126)%N.

(** ** Vocabulary for the requests of a scan *)

(** [int(float(id))], and 0 where Python raises. *)
Definition number_of_id (id : text) : Z :=
  match float_of_text id with
  | Some x =>
      match int_of_float x with
      | Ret n => n
      | Raise _ => 0
      end
  | None => 0
  end.

(** The request for the sensor type of a channel: the id and the
    coordinates are those of the entry [e]. *)
Definition type_request (s : Server) (e : text * data_dict) : request :=
  get_request s (sensor_type_command (number_of_id (fst e)) (snd e)).

(** A server that answers every request. *)
Definition responsive (net : network) : Prop :=
  forall n req, exists p, net n req = Responds p.

(** [asks m es s']: when [m] returns, it returns [s'], it has sent the
    requests for the sensor types of the entries [es] and nothing else,
    and the timeout, the base URL and the cookie are as before. *)
Definition asks {S} (m : M S) (es : list (text * data_dict)) (s' : S) : Prop :=
  forall w,
    wp m
       (fun s'' w' =>
          s'' = s' /\ same_config w w' /\
          sent w' = sent w ++ map (type_request (self w)) es)
       (fun _ _ => True)
       w.

(** A character of 7-bit ASCII. *)
Definition seven_bit (c : ascii) : Prop := (N_of_ascii c < 128)%N.

(** A text of printable ASCII characters.  On such a text [float] reads
    the same numerals whether the string is a [str] or a [unicode]
    string. *)
Definition printable_text (t : text) : bool :=
  forallb (fun u =>
             Ascii.eqb (fst u) zero
             && (32 <=? N_of_ascii (snd u))%N
             && (N_of_ascii (snd u) <=? 126)%N) t.

(* ================================================================== *)
(** * Properties of the monad and of the request loop                  *)
(* ================================================================== *)


Section RequestLoop.
Context {interp : Interp}.
Variable net : network.

Lemma request_loop_step (command : text) (a : nat) (rest : list nat) (w : world) :
  request_loop net command (a :: rest) w =
  let req := get_request (self w) command in
  match net (List.length (sent w)) req with
  | Responds p => (Ret (Some p), sending w req)
  | Fails e =>
      if is_ConnectionError e then
        if Nat.eqb a 9
        then (Raise (Exception "server did not respond, connection is lost"),
              sending w req)
        else request_loop net command rest (sending w req)
      else if is_Timeout e then
        if Nat.eqb a 9
        then (Raise (Exception "server Timeout"),
              printing (sending w req) (TimedOut a))
        else request_loop net command rest
                          (printing (sending w req) (TimedOut a))
      else (Raise e, sending w req)
  end.
Proof.
  unfold get_request. cbn [request_loop].
  unfold bind, try_except, requests_get, bind, get_self, http.
  destruct (cookie (self w)) eqn:Hc; cbn;
    destruct (net _ _) as [p | e]; cbn; try reflexivity;
    destruct (is_ConnectionError e); cbn;
    try (destruct (Nat.eqb a 9); reflexivity);
    destruct (is_Timeout e); cbn; try reflexivity;
    destruct (Nat.eqb a 9); reflexivity.
Qed.

(** Every run of the loop over the last [n] attempts sends the same
    request between one and [n] times, leaves the object alone, and
    does not fall off the end. *)
Lemma request_loop_bound (command : text) (n : nat) :
  forall (a : nat) (w : world),
    (a + S n = 10)%nat ->
    self (snd (request_loop net command (seq a (S n)) w)) = self w /\
    fst (request_loop net command (seq a (S n)) w) <> Ret None /\
    exists k, (1 <= k <= S n)%nat /\
      sent (snd (request_loop net command (seq a (S n)) w))
      = sent w ++ repeat (get_request (self w) command) k.
Proof.
  induction n as [| n IH]; intros a w Ha.
  - assert (a = 9%nat) by lia. subst a.
    cbn [seq]. rewrite request_loop_step. cbv zeta.
    destruct (net _ _) as [p | e]; cbn.
    + split; [reflexivity|]. split; [discriminate|]. exists 1%nat. split; [lia|reflexivity].
    + destruct (is_ConnectionError e); cbn.
      * split; [reflexivity|]. split; [discriminate|]. exists 1%nat. split; [lia|reflexivity].
      * destruct (is_Timeout e); cbn;
          (split; [reflexivity|]; split; [discriminate|]; exists 1%nat; split; [lia|reflexivity]).
  - change (seq a (S (S n))) with (a :: seq (S a) (S n)).
    rewrite request_loop_step. cbv zeta.
    assert (Hne : Nat.eqb a 9 = false) by (apply Nat.eqb_neq; lia).
    rewrite Hne.
    set (req := get_request (self w) command).
    destruct (net _ _) as [p | e]; cbn [fst snd].
    + split; [reflexivity|]. split; [discriminate|]. exists 1%nat. split; [lia|reflexivity].
    + destruct (is_ConnectionError e).
      * destruct (IH (S a) (sending w req) ltac:(lia)) as (Hs & Hr & k & Hk & Hsent).
        split; [exact Hs|]. split; [exact Hr|].
        exists (S k). split; [lia|].
        rewrite Hsent. cbn [sending self sent]. fold req.
        rewrite <- app_assoc. reflexivity.
      * destruct (is_Timeout e).
        -- destruct (IH (S a) (printing (sending w req) (TimedOut a)) ltac:(lia))
             as (Hs & Hr & k & Hk & Hsent).
           split; [exact Hs|]. split; [exact Hr|].
           exists (S k). split; [lia|].
           rewrite Hsent. cbn [printing sending self sent]. fold req.
           rewrite <- app_assoc. reflexivity.
        -- cbn. split; [reflexivity|]. split; [discriminate|].
           exists 1%nat. split; [lia|reflexivity].
Qed.

Lemma seq_attempts (a : nat) :
  (a < 10)%nat -> seq a (10 - a) = a :: seq (S a) (10 - S a).
Proof.
  intros Ha. replace (10 - a)%nat with (S (10 - S a)) by lia. reflexivity.
Qed.

(** Attempts that fail with a retried error are followed by the next
    attempt, on the same object. *)
Lemma request_loop_retry (command : text) (n : nat) :
  forall (a : nat) (w : world),
    (a + n < 10)%nat ->
    (forall i, (i < n)%nat ->
       exists e, net (List.length (sent w) + i)%nat
                     (get_request (self w) command) = Fails e
                 /\ retried e = true) ->
    exists w1,
      request_loop net command (seq a (10 - a)) w
      = request_loop net command (seq (a + n) (10 - (a + n))) w1
      /\ self w1 = self w
      /\ sent w1 = sent w ++ repeat (get_request (self w) command) n.
Proof.
  induction n as [| n IH]; intros a w Ha Hfail.
  - exists w. rewrite Nat.add_0_r, app_nil_r. auto.
  - destruct (Hfail 0%nat ltac:(lia)) as (e & He & Hre).
    rewrite Nat.add_0_r in He.
    rewrite seq_attempts by lia. rewrite request_loop_step. cbv zeta.
    rewrite He.
    assert (Hne : Nat.eqb a 9 = false) by (apply Nat.eqb_neq; lia).
    rewrite Hne.
    set (req := get_request (self w) command) in *.
    assert (Hnext : forall w0, self w0 = self w -> sent w0 = sent w ++ [req] ->
              exists w1,
                request_loop net command (seq (S a) (10 - S a)) w0
                = request_loop net command
                               (seq (a + S n) (10 - (a + S n))) w1
                /\ self w1 = self w
                /\ sent w1 = sent w ++ repeat req (S n)).
    { intros w0 Hs0 Hsent0.
      destruct (IH (S a) w0 ltac:(lia)) as (w1 & Heq & Hs1 & Hsent1).
      - intros i Hi. rewrite Hs0, Hsent0, length_app. cbn [List.length].
        destruct (Hfail (S i) ltac:(lia)) as (e' & He' & Hre').
        exists e'. split; [|exact Hre'].
        rewrite <- He'. f_equal. lia.
      - exists w1. split; [|split].
        + rewrite Heq. replace (S a + n)%nat with (a + S n)%nat by lia. reflexivity.
        + congruence.
        + rewrite Hsent1, Hs0, Hsent0, <- app_assoc. reflexivity. }
    unfold retried in Hre.
    destruct (is_ConnectionError e).
    + apply Hnext; reflexivity.
    + cbn in Hre. rewrite Hre. apply Hnext; reflexivity.
Qed.

End RequestLoop.

(* ================================================================== *)
(** * The retry policy of [_make_request]                              *)
(* ================================================================== *)

(** C3.  For every command, [_make_request] sends the GET request at
    least once and at most ten times.  When the first [n] attempts
    ([n < 10]) fail with a connection error or a timeout, the next
    attempt is made at once: if it succeeds its response is returned, and
    if it fails with any other exception that exception propagates with
    no further attempt.  When a connection error or a timeout also ends
    the tenth attempt, a terminal error is raised whose message tells a
    lost connection from a timeout. *)
Theorem make_request_retry_policy (net : network) (command : text) (w : world) :
  let req := get_request (self w) command in
  let answer := fun i => net (List.length (sent w) + i)%nat req in
  let run := _make_request net command w in
  (exists k, (1 <= k <= 10)%nat /\ sent (snd run) = sent w ++ repeat req k) /\
  (forall n, (n < 10)%nat ->
     (forall i, (i < n)%nat -> exists e, answer i = Fails e /\ retried e = true) ->
     (forall p, answer n = Responds p ->
        fst run = Ret (Some p) /\ sent (snd run) = sent w ++ repeat req (S n)) /\
     (forall e, answer n = Fails e -> retried e = false ->
        fst run = Raise e /\ sent (snd run) = sent w ++ repeat req (S n)) /\
     (forall e, n = 9%nat -> answer n = Fails e -> retried e = true ->
        fst run = Raise (terminal_error e) /\
        sent (snd run) = sent w ++ repeat req 10)).
Proof.
  intros req answer run. split.
  - destruct (@request_loop_bound net command 9%nat 0%nat w eq_refl)
      as (_ & _ & k & Hk & Hsent).
    exists k. split; [exact Hk | exact Hsent].
  - intros n Hn Hfail.
    destruct (@request_loop_retry net command n 0%nat w Hn Hfail)
      as (w1 & Heq & Hs1 & Hsent1).
    assert (Hrun : run = request_loop net command (n :: seq (S n) (10 - S n)) w1).
    { unfold run, _make_request, num_attempts.
      change (seq 0 10) with (seq 0 (10 - 0)). rewrite Heq. cbn [Nat.add].
      rewrite seq_attempts by lia. reflexivity. }
    rewrite request_loop_step in Hrun. cbv zeta in Hrun.
    rewrite Hs1, Hsent1, length_app, repeat_length in Hrun.
    fold req in Hrun. fold (answer n) in Hrun.
    assert (Hlast : forall w2, sent w2 = sent w1 ++ [req] ->
              sent w2 = sent w ++ repeat req (S n)).
    { intros w2 H2. rewrite H2, Hsent1. fold req. rewrite <- app_assoc.
      f_equal. change [req] with (repeat req 1). rewrite <- repeat_app.
      f_equal. lia. }
    split; [|split].
    + intros p Hp. rewrite Hp in Hrun. rewrite Hrun. cbn [fst snd].
      split; [reflexivity|]. apply Hlast. reflexivity.
    + intros e He Hre. rewrite He in Hrun. unfold retried in Hre.
      apply orb_false_elim in Hre. destruct Hre as [Hc Ht].
      rewrite Hc, Ht in Hrun. rewrite Hrun. cbn [fst snd].
      split; [reflexivity|]. apply Hlast. reflexivity.
    + intros e Hn9 He Hre. subst n. rewrite He in Hrun.
      unfold retried in Hre. unfold terminal_error.
      cbn [Nat.eqb] in Hrun.
      destruct (is_ConnectionError e).
      * rewrite Hrun. cbn [fst snd]. split; [reflexivity|].
        apply Hlast. reflexivity.
      * cbn in Hre. rewrite Hre in Hrun. rewrite Hrun. cbn [fst snd].
        split; [reflexivity|]. apply Hlast. reflexivity.
Qed.


Lemma make_request_retry_policy_witness :
  fst (_make_request (nine_timeouts (page_of "true")) (txt "Data")
                     (world_of (Build_Server (float_of_Z 5) (txt "http://h/") None [])))
  = Ret (Some (page_of "true")).
Proof.
  refine (proj1 (proj1 (proj2 (make_request_retry_policy
            (nine_timeouts (page_of "true")) (txt "Data")
            (world_of (Build_Server (float_of_Z 5) (txt "http://h/") None [])))
            9%nat _ _) (page_of "true") _)).
  - lia.
  - intros i Hi. exists ReadTimeout. split; [|reflexivity].
    unfold nine_timeouts. cbn [world_of sent List.length Nat.add].
    destruct (Nat.ltb_spec i 9); [reflexivity | lia].
  - reflexivity.
Defined.

(** Ten timeouts in a row end in the terminal timeout error, ten refused
    connections in the terminal connection error. *)
Example ten_timeouts :
  fst (_make_request (fun _ _ => Fails ReadTimeout) (txt "Data") new_object)
  = Raise (Exception "server Timeout").
Proof. reflexivity. Qed.

Example ten_refusals :
  fst (_make_request (fun _ _ => Fails ConnectionError) (txt "Data") new_object)
  = Raise (Exception "server did not respond, connection is lost").
Proof. reflexivity. Qed.

(* ================================================================== *)
(** * Reasoning about computations                                     *)
(* ================================================================== *)

Section WP.
Context {A B : Type}.

Lemma wp_ret (a : A) Q E w : Q a w -> wp (ret a) Q E w.
Proof. intros H; exact H. Qed.

Lemma wp_raise (e : exn) (Q : A -> world -> Prop) E w :
  E e w -> wp (raise e) Q E w.
Proof. intros H; exact H. Qed.

Lemma wp_bind (m : M A) (k : A -> M B) Q E w :
  wp m (fun a w' => wp (k a) Q E w') E w -> wp (bind m k) Q E w.
Proof.
  unfold wp, bind. destruct (m w) as [[a | e] w']; intros H; exact H.
Qed.

Lemma wp_try_except (m : M A) (h : exn -> M A) Q E w :
  wp m Q (fun e w' => wp (h e) Q E w') w -> wp (try_except m h) Q E w.
Proof.
  unfold wp, try_except. destruct (m w) as [[a | e] w']; intros H; exact H.
Qed.

Lemma wp_mono (m : M A) (Q Q' : A -> world -> Prop)
      (E E' : exn -> world -> Prop) w :
  wp m Q E w ->
  (forall a w', Q a w' -> Q' a w') ->
  (forall e w', E e w' -> E' e w') ->
  wp m Q' E' w.
Proof.
  unfold wp. destruct (m w) as [[a | e] w']; intros H HQ HE; auto.
Qed.

Lemma wp_lift (r : result A) Q E w :
  (forall a, r = Ret a -> Q a w) ->
  (forall e, r = Raise e -> E e w) ->
  wp (lift r) Q E w.
Proof. unfold wp, lift. destruct r; intros HQ HE; auto. Qed.

Lemma wp_or_raise (o : option A) (e : exn) Q E w :
  (forall a, o = Some a -> Q a w) ->
  (o = None -> E e w) ->
  wp (or_raise o e) Q E w.
Proof. unfold wp, or_raise. destruct o; intros HQ HE; cbn; auto. Qed.

Lemma wp_snd (m : M A) (P : world -> Prop) w :
  wp m (fun _ => P) (fun _ => P) w -> P (snd (m w)).
Proof.
  unfold wp. destruct (m w) as [[a | e] w']; cbn; tauto.
Qed.
End WP.

Lemma wp_get_self {B} (k : Server -> M B) Q E w :
  wp (k (self w)) Q E w -> wp (bind get_self k) Q E w.
Proof. intros H; exact H. Qed.

Lemma wp_put_self {B} (s : Server) (k : unit -> M B) Q E w :
  wp (k tt) Q E (set_self w s) -> wp (bind (put_self s) k) Q E w.
Proof. intros H; exact H. Qed.

Lemma wp_print {B} (l : line) (k : unit -> M B) Q E w :
  wp (k tt) Q E (printing w l) -> wp (bind (print l) k) Q E w.
Proof. intros H; exact H. Qed.

Lemma wp_put_self_end (s : Server) (Q : unit -> world -> Prop) E w :
  Q tt (set_self w s) -> wp (put_self s) Q E w.
Proof. intros H; exact H. Qed.

Lemma wp_print_end (l : line) (Q : unit -> world -> Prop) E w :
  Q tt (printing w l) -> wp (print l) Q E w.
Proof. intros H; exact H. Qed.

(** The rule of the [for] loop: an invariant of the body is an invariant
    of the loop. *)
Lemma wp_for_in {A S} (l : list A) (body : S -> A -> M S)
      (I : S -> world -> Prop) (E : exn -> world -> Prop) :
  (forall s x w, In x l -> I s w -> wp (body s x) I E w) ->
  forall s w, I s w -> wp (for_in l body s) I E w.
Proof.
  induction l as [| x l IH]; intros Hbody s w HI.
  - exact HI.
  - cbn [for_in]. apply wp_bind.
    eapply wp_mono.
    + apply Hbody; [left; reflexivity | exact HI].
    + intros s' w' HI'. apply IH; [|exact HI'].
      intros s0 x0 w0 Hin. apply Hbody. right; exact Hin.
    + auto.
Qed.

Ltac wp_step :=
  lazymatch goal with
  | |- wp (bind get_self _) _ _ _ => apply wp_get_self
  | |- wp (bind (put_self _) _) _ _ _ => apply wp_put_self
  | |- wp (bind (print _) _) _ _ _ => apply wp_print
  | |- wp (bind _ _) _ _ _ => apply wp_bind
  | |- wp (put_self _) _ _ _ => apply wp_put_self_end
  | |- wp (print _) _ _ _ => apply wp_print_end
  | |- wp (ret _) _ _ _ => apply wp_ret
  | |- wp (raise _) _ _ _ => apply wp_raise
  | |- wp (or_raise _ _) _ _ _ => apply wp_or_raise; [intros ? ? | intros ?]
  | |- wp (lift _) _ _ _ => apply wp_lift; [intros ? ? | intros ? ?]
  | |- wp (page_content (Some _)) _ _ _ => cbn [page_content]
  | |- wp (page_json (Some _)) _ _ _ => cbn [page_json]
  | |- wp (page_content None) _ _ _ => cbn [page_content]
  | |- wp (page_json None) _ _ _ => cbn [page_json]
  end.

Ltac wp_go := repeat (cbv beta zeta; wp_step).

Lemma wp_http (net : network) (req : request) Q E (w : world) :
  (forall r, net (List.length (sent w)) req = Responds r -> Q r (sending w req)) ->
  (forall e, net (List.length (sent w)) req = Fails e -> E e (sending w req)) ->
  wp (http net req) Q E w.
Proof.
  intros HQ HE. unfold wp, http, sending in *.
  destruct (net _ _); auto.
Qed.

Lemma wp_requests_get (net : network) (command : text) Q E (w : world) :
  (forall r, Q r (sending w (get_request (self w) command))) ->
  (forall e, E e (sending w (get_request (self w) command))) ->
  wp (requests_get net command) Q E w.
Proof.
  intros HQ HE. unfold requests_get. apply wp_get_self.
  unfold get_request in *.
  destruct (cookie (self w)); apply wp_http; auto.
Qed.

(* ================================================================== *)
(** * What the methods keep                                            *)
(* ================================================================== *)

(** Any relation between states that is reflexive and transitive and is
    kept by sending a GET request with the object's configuration and by
    printing is kept by every read operation; if it is also kept by an
    assignment to [self.devices], it is kept by the scan. *)
Section Keeps.
Context {interp : Interp}.
Variable net : network.
Variable R : world -> world -> Prop.
Hypothesis R_refl : forall w, R w w.
Hypothesis R_trans : forall w1 w2 w3, R w1 w2 -> R w2 w3 -> R w1 w3.
Hypothesis R_get :
  forall w c, R w (sending w (get_request (self w) c)).
Hypothesis R_print : forall w l, R w (printing w l).
Hypothesis R_devices :
  forall w d, R w (set_self w (with_devices (self w) d)).

Lemma R_after_get w0 w c :
  R w0 w -> R w0 (sending w (get_request (self w) c)).
Proof. intros H. eapply R_trans; [exact H | apply R_get]. Qed.

Lemma R_after_print w0 w l : R w0 w -> R w0 (printing w l).
Proof. intros H. eapply R_trans; [exact H | apply R_print]. Qed.

Lemma R_after_devices w0 w d :
  R w0 w -> R w0 (set_self w (with_devices (self w) d)).
Proof. intros H. eapply R_trans; [exact H | apply R_devices]. Qed.

Lemma keeps_bind {A B} (m : M A) (k : A -> M B) :
  keeps R m -> (forall a, keeps R (k a)) -> keeps R (bind m k).
Proof.
  intros Hm Hk w0 w H. apply wp_bind.
  eapply wp_mono; [apply Hm; exact H | | auto].
  intros a w' H'. apply Hk. exact H'.
Qed.

Lemma keeps_pure {A} (m : M A) :
  (forall w, snd (m w) = w) -> keeps R m.
Proof.
  intros Hm w0 w H. unfold wp. specialize (Hm w).
  destruct (m w) as [[a | e] w']; cbn in Hm; subst; exact H.
Qed.

Lemma keeps_request_loop command attempts :
  keeps R (request_loop net command attempts).
Proof.
  induction attempts as [| a rest IH]; intros w0 w H.
  - exact H.
  - cbn [request_loop]. apply wp_bind. apply wp_try_except. apply wp_bind.
    apply wp_requests_get.
    + intros r. apply wp_ret. apply wp_ret. apply R_after_get. exact H.
    + intros e.
      pose proof (R_after_get command H) as H1.
      destruct (is_ConnectionError e).
      * destruct (Nat.eqb a (num_attempts - 1)).
        -- apply wp_raise. exact H1.
        -- apply wp_ret. apply IH. exact H1.
      * destruct (is_Timeout e).
        -- apply wp_print.
           pose proof (R_after_print (TimedOut a) H1) as H2.
           destruct (Nat.eqb a (num_attempts - 1)).
           ++ apply wp_raise. exact H2.
           ++ apply wp_ret. apply IH. exact H2.
        -- apply wp_raise. exact H1.
Qed.

Lemma keeps_make_request command : keeps R (_make_request net command).
Proof. apply keeps_request_loop. Qed.

Lemma wp_make_request command Q E w0 w :
  R w0 w ->
  (forall p w', R w0 w' -> Q p w') ->
  (forall e w', R w0 w' -> E e w') ->
  wp (_make_request net command) Q E w.
Proof.
  intros H HQ HE. eapply wp_mono; [apply keeps_make_request; exact H | |];
    cbv beta; auto.
Qed.

Ltac keeps_go :=
  repeat first
    [ progress wp_go
    | assumption
    | lazymatch goal with
      | H : R ?w0 ?w |- wp (_make_request _ _) _ _ ?w =>
          eapply wp_make_request; [exact H | intros [?|] ? ? | intros ? ? ?]
      | |- wp (match ?d with DevicesDoc _ => _ | DataDoc _ => _ end) _ _ _ =>
          destruct d
      end ].

Lemma keeps_lookup_device id : keeps R (lookup_device id).
Proof. intros w0 w H. unfold lookup_device. keeps_go. Qed.

Lemma keeps_device_number id : keeps R (device_number id).
Proof. intros w0 w H. unfold device_number. keeps_go. Qed.

Lemma keeps_device_type id : keeps R (device_type net id).
Proof.
  intros w0 w H. unfold device_type, device_number, lookup_device. keeps_go.
Qed.

Lemma keeps_device_IDs : keeps R device_IDs.
Proof. intros w0 w H. unfold device_IDs. keeps_go. Qed.

Lemma keeps_device_name id : keeps R (device_name id).
Proof. intros w0 w H. unfold device_name, lookup_device. keeps_go. Qed.

Lemma keeps_battery_level id : keeps R (battery_level net id).
Proof. intros w0 w H. unfold battery_level, lookup_device. keeps_go. Qed.

Lemma keeps_software_version : keeps R (software_version net).
Proof. intros w0 w H. unfold software_version. keeps_go. Qed.

Lemma keeps_get_data id : keeps R (get_data net id).
Proof.
  intros w0 w H. unfold get_data, device_number, lookup_device. keeps_go.
Qed.

Lemma keeps_save_devices_to_file fh : keeps R (save_devices_to_file fh).
Proof. intros w0 w H. unfold save_devices_to_file. keeps_go. Qed.

Lemma keeps_for_in {A S} (l : list A) (body : S -> A -> M S) :
  (forall s x, keeps R (body s x)) -> forall s, keeps R (for_in l body s).
Proof.
  intros Hbody s w0 w H.
  eapply wp_mono.
  - apply (wp_for_in l body (fun _ w' => R w0 w') (fun _ w' => R w0 w')).
    + intros s' x w' _ H'. apply Hbody. exact H'.
    + exact H.
  - auto.
  - auto.
Qed.

Lemma keeps_set_name id nm : keeps R (set_name id nm).
Proof.
  intros w0 w H. unfold set_name, lookup_device. keeps_go.
  apply R_after_devices. exact H.
Qed.

Lemma keeps_scan_data base inst cc count dn :
  keeps R (scan_data net base inst cc count dn).
Proof.
  intros w0 w H. unfold scan_data.
  destruct (unicode_isdigit dn); [|exact H].
  apply wp_get_self. apply wp_put_self. apply wp_bind.
  eapply wp_mono.
  - apply keeps_device_type. apply R_after_devices. exact H.
  - intros ty w1 H1. cbv beta.
    destruct (decode (replace_space (strip ty))).
    + apply wp_bind. eapply wp_mono; [apply keeps_set_name; exact H1 | |];
        cbv beta; auto.
    + apply wp_print. apply wp_print. apply wp_ret.
      apply R_after_print. apply R_after_print. exact H1.
  - auto.
Qed.

Lemma keeps_scan_class base inst count cc :
  keeps R (scan_class net base inst count cc).
Proof.
  destruct cc as [commandClass dks]. unfold scan_class.
  destruct (existsb _ _).
  - apply keeps_for_in. intros s x. apply keeps_scan_data.
  - apply keeps_pure. reflexivity.
Qed.

Lemma keeps_scan_instance base count inst :
  keeps R (scan_instance net base count inst).
Proof.
  destruct inst as [instance_num ccs]. unfold scan_instance.
  apply keeps_for_in. intros s x. apply keeps_scan_class.
Qed.

Lemma keeps_scan_device u dev : keeps R (scan_device net u dev).
Proof.
  destruct dev as [base insts]. unfold scan_device.
  apply keeps_bind.
  - apply keeps_for_in. intros s x. apply keeps_scan_instance.
  - intros a. apply keeps_pure. reflexivity.
Qed.

Lemma keeps_update_devices : keeps R (update_devices net).
Proof.
  intros w0 w H. unfold update_devices.
  apply wp_get_self. apply wp_put_self.
  pose proof (R_after_devices [] H) as H1.
  keeps_go.
  eapply wp_mono.
  - apply keeps_for_in; [intros s x; apply keeps_scan_device | eassumption].
  - intros u w2 Hw2. cbv beta. keeps_go.
  - auto.
Qed.
End Keeps.

(* ================================================================== *)
(** * Read operations                                                  *)
(* ================================================================== *)

Lemma same_object_refl w : same_object w w.
Proof. reflexivity. Qed.

Lemma same_object_trans w1 w2 w3 :
  same_object w1 w2 -> same_object w2 w3 -> same_object w1 w3.
Proof. unfold same_object. congruence. Qed.

Lemma same_object_get w c : same_object w (sending w (get_request (self w) c)).
Proof. reflexivity. Qed.

Lemma same_object_print w l : same_object w (printing w l).
Proof. reflexivity. Qed.

Ltac frame_tac :=
  first [ exact same_object_refl | exact same_object_trans
        | exact same_object_get | exact same_object_print ].

(** A computation that keeps [same_object] leaves the attributes of the
    object as they were, whether it returns or raises. *)
Lemma keeps_same_object {A} (m : M A) (w : world) :
  keeps same_object m -> self (snd (m w)) = self w.
Proof.
  intros Hm. apply (wp_snd m (fun w' => self w' = self w)).
  apply (Hm w w). reflexivity.
Qed.

(** C10.  Each read operation ([get_data], [device_type], [device_name],
    [battery_level], [device_IDs], [software_version]) leaves the object
    as it found it: the registry, the cookie and the timeout (and the
    base URL) are the same after the call as before, whether the call
    returns or raises. *)
Theorem read_operations_frame (interp : Interp) (net : network)
        (device_id : text) (w : world) :
  self (snd (get_data net device_id w)) = self w /\
  self (snd (device_type net device_id w)) = self w /\
  self (snd (device_name device_id w)) = self w /\
  self (snd (battery_level net device_id w)) = self w /\
  self (snd (device_IDs w)) = self w /\
  self (snd (software_version net w)) = self w.
Proof.
  refine (conj _ (conj _ (conj _ (conj _ (conj _ _)))));
    apply keeps_same_object.
  - apply keeps_get_data; frame_tac.
  - apply keeps_device_type; frame_tac.
  - apply keeps_device_name; frame_tac.
  - apply keeps_battery_level; frame_tac.
  - apply keeps_device_IDs; frame_tac.
  - apply keeps_software_version; frame_tac.
Qed.

(* ================================================================== *)
(** * Sessions without credentials                                     *)
(* ================================================================== *)

Lemma keeps_rel {A} (R : world -> world -> Prop) (m : M A) (w : world) :
  keeps R m -> R w w -> R w (snd (m w)).
Proof.
  intros Hm Hw. apply (wp_snd m (fun w' => R w w')). apply Hm. exact Hw.
Qed.

Lemma unauthenticated_refl w : unauthenticated w w.
Proof.
  intros Hc. split; [exact Hc|]. exists []. rewrite app_nil_r.
  split; [reflexivity | constructor].
Qed.

Lemma unauthenticated_trans w1 w2 w3 :
  unauthenticated w1 w2 -> unauthenticated w2 w3 -> unauthenticated w1 w3.
Proof.
  intros H12 H23 Hc.
  destruct (H12 Hc) as (Hc2 & l & Hl & Hf).
  destruct (H23 Hc2) as (Hc3 & l' & Hl' & Hf').
  split; [exact Hc3|]. exists (l ++ l'). split.
  - rewrite Hl', Hl, app_assoc. reflexivity.
  - apply Forall_app. split; assumption.
Qed.

Lemma unauthenticated_get w c :
  unauthenticated w (sending w (get_request (self w) c)).
Proof.
  intros Hc. split; [exact Hc|].
  exists [get_request (self w) c]. split; [reflexivity|].
  constructor; [|constructor].
  unfold get_request. rewrite Hc. eexists; eexists; reflexivity.
Qed.

Lemma unauthenticated_same w w' :
  cookie (self w') = cookie (self w) -> sent w' = sent w ->
  unauthenticated w w'.
Proof.
  intros Hc Hs Hn. split; [congruence|]. exists []. rewrite app_nil_r.
  split; [exact Hs | constructor].
Qed.

Lemma unauthenticated_print w l : unauthenticated w (printing w l).
Proof. apply unauthenticated_same; reflexivity. Qed.

Lemma unauthenticated_devices w d :
  unauthenticated w (set_self w (with_devices (self w) d)).
Proof. apply unauthenticated_same; reflexivity. Qed.

Lemma set_timeout_unauthenticated v w :
  unauthenticated w (snd (set_timeout v w)).
Proof.
  apply unauthenticated_same; unfold set_timeout, bind, lift;
    destruct (float_of_value v); reflexivity.
Qed.

Ltac unauth_tac :=
  first [ exact unauthenticated_refl | exact unauthenticated_trans
        | exact unauthenticated_get | exact unauthenticated_print
        | exact unauthenticated_devices ].

Lemma run_call_unauthenticated (interp : Interp) (net : network) c w :
  unauthenticated w (run_call net c w).
Proof.
  destruct c; cbn [run_call];
    [ apply set_timeout_unauthenticated
    | apply (@keeps_rel _ unauthenticated); [| apply unauthenticated_refl] .. ].
  - apply keeps_update_devices; unauth_tac.
  - apply keeps_device_IDs; unauth_tac.
  - apply keeps_software_version; unauth_tac.
  - apply keeps_battery_level; unauth_tac.
  - apply keeps_get_data; unauth_tac.
  - apply keeps_device_type; unauth_tac.
  - apply keeps_device_name; unauth_tac.
  - apply keeps_save_devices_to_file; unauth_tac.
  - apply keeps_make_request; unauth_tac.
Qed.

Lemma run_calls_unauthenticated (interp : Interp) (net : network) cs :
  forall w, unauthenticated w (run_calls net cs w).
Proof.
  induction cs as [| c cs IH]; intros w.
  - apply unauthenticated_refl.
  - cbn [run_calls fold_left]. eapply unauthenticated_trans.
    + apply (run_call_unauthenticated interp net c w).
    + apply IH.
Qed.

Lemma wp_make_request_first (net : network) (command : text) Q E (w : world) :
  (forall p w', self w' = self w ->
     (exists k, sent w' = sent w ++ get_request (self w) command
                                 :: repeat (get_request (self w) command) k) ->
     Q (Some p) w') ->
  (forall e w', self w' = self w ->
     (exists k, sent w' = sent w ++ get_request (self w) command
                                 :: repeat (get_request (self w) command) k) ->
     E e w') ->
  wp (_make_request net command) Q E w.
Proof.
  intros HQ HE.
  destruct (@request_loop_bound net command 9%nat 0%nat w eq_refl)
    as (Hs & Hr & k & Hk & Hsent).
  unfold wp, _make_request, num_attempts.
  destruct (request_loop net command (seq 0 10) w) as [[[p |] | e] w'];
    cbn [fst snd] in *.
  - apply HQ; [exact Hs|]. destruct k as [| k]; [lia|]. exists k. exact Hsent.
  - congruence.
  - apply HE; [exact Hs|]. destruct k as [| k]; [lia|]. exists k. exact Hsent.
Qed.

Lemma init_unauthenticated (interp : Interp) (net : network) host port
      (device_dict : registry) (w : world) :
  let w1 := snd (__init__ net host port device_dict
                          empty_str_literal empty_str_literal w) in
  let base := txt "http://" ++ host ++ txt ":" ++ dec port ++ txt "/ZWaveAPI/" in
  cookie (self w1) = None /\
  exists l,
    sent w1 = sent w ++ GET (base ++ txt "Data") (float_of_Z 5) None :: l
    /\ Forall cookieless l.
Proof.
  cbv zeta.
  set (req := GET _ _ _).
  set (P := fun w' : world =>
              cookie (self w') = None /\
              exists l, sent w' = sent w ++ req :: l /\ Forall cookieless l).
  assert (Hstep : forall w2 w3, P w2 -> unauthenticated w2 w3 -> P w3).
  { intros w2 w3 (Hc & l & Hl & Hf) Hu.
    destruct (Hu Hc) as (Hc3 & l' & Hl' & Hf').
    split; [exact Hc3|]. exists (l ++ l'). split.
    - rewrite Hl', Hl, <- app_assoc. reflexivity.
    - apply Forall_app. split; assumption. }
  apply (wp_snd (__init__ net host port device_dict
                          empty_str_literal empty_str_literal) P).
  unfold __init__. wp_go. apply wp_try_except. wp_go.
  unfold generate_session. cbn [is_empty_literal andb]. wp_go.
  assert (Hfirst : forall w', 
            self w' = Build_Server (float_of_Z 5)
                        (txt "http://" ++ host ++ txt ":" ++ dec port ++ txt "/ZWaveAPI/")
                        None (devices (self w)) ->
            (exists k, sent w' = sent w ++ req :: repeat req k) -> P w').
  { intros w' Hs (k & Hk). split; [rewrite Hs; reflexivity|].
    exists (repeat req k). split; [exact Hk|].
    apply Forall_forall. intros r Hr. apply repeat_spec in Hr. subst r.
    eexists; eexists; reflexivity. }
  apply wp_make_request_first;
    cbn [set_self self sent with_timeout with_base_url with_cookie
         timeout base_url cookie devices get_request];
    fold req.
  - intros p w' Hs Hk. specialize (Hfirst w' Hs Hk). wp_go.
    + destruct device_dict as [| d0 dd].
      * wp_go. eapply wp_mono.
        -- apply (@keeps_update_devices interp net unauthenticated);
             try unauth_tac. apply unauthenticated_refl.
        -- intros r w3 H3. wp_go. exact (Hstep _ _ Hfirst H3).
        -- intros e w3 H3. exact (Hstep _ _ Hfirst H3).
      * wp_go. apply (Hstep _ _ Hfirst). apply unauthenticated_devices.
    + destruct (is_ConnectionError ValueError); [|destruct (is_ValueError ValueError)];
        wp_go; exact Hfirst.
  - intros e w' Hs Hk. specialize (Hfirst w' Hs Hk).
    destruct (is_ConnectionError e); [|destruct (is_ValueError e)];
      wp_go; exact Hfirst.
Qed.

(** X23.  When the user name and the password given to the
    constructor are both the object of the empty string literal, as
    they are by default, the object has no cookie after construction
    and keeps having none through any sequence of later method calls;
    the first request of the constructor is the GET of [Data], and
    every request sent by the constructor and by the later calls is a
    GET request without cookies, so no login request (a POST) is ever
    sent. *)
Theorem no_credentials_no_login (interp : Interp) (net : network)
        (host : text) (port : Z) (device_dict : registry)
        (cs : list call) (w : world) :
  let w1 := snd (__init__ net host port device_dict
                          empty_str_literal empty_str_literal w) in
  let w2 := run_calls net cs w1 in
  let base := txt "http://" ++ host ++ txt ":" ++ dec port ++ txt "/ZWaveAPI/" in
  cookie (self w1) = None /\
  cookie (self w2) = None /\
  exists l,
    sent w2 = sent w ++ GET (base ++ txt "Data") (float_of_Z 5) None :: l
    /\ Forall cookieless l.
Proof.
  intros w1 w2 base.
  destruct (init_unauthenticated interp net host port device_dict w)
    as (Hc & l & Hl & Hf).
  fold w1 in Hc, Hl. fold base in Hl.
  destruct (run_calls_unauthenticated interp net cs w1 Hc) as (Hc2 & l' & Hl' & Hf').
  fold w2 in Hc2, Hl'.
  split; [exact Hc|]. split; [exact Hc2|].
  exists (l ++ l'). split.
  - rewrite Hl', Hl, <- app_assoc. reflexivity.
  - apply Forall_app. split; assumption.
Qed.

(** C7.  An empty user name and an empty password that are not the
    object of the empty string literal, two empty [unicode] strings for
    instance, do not pass the test of [generate_session]: the
    constructor sends the login request, with an empty login and an
    empty password, before its first GET, and keeps the cookies of the
    answer, which the GET then carries. *)
Theorem empty_credentials_login :
  let run := __init__ (interp:=ascii_interp) login_server
                      (txt "localhost") 8083 [(txt "48.0", switch_48)]
                      (string_object []) (string_object []) new_object in
  chars_of (string_object []) = [] /\
  fst run = Ret tt /\
  sent (snd run)
  = [login_request (txt "localhost") 8083 [] [];
     GET (txt "http://localhost:8083/ZWaveAPI/Data") (float_of_Z 5)
         (Some session_cookie)] /\
  cookie (self (snd run)) = Some session_cookie.
Proof. vm_compute. repeat split. Qed.

(* ================================================================== *)
(** * The timeout                                                      *)
(* ================================================================== *)

Lemma same_timeout_refl w : same_timeout w w.
Proof. reflexivity. Qed.

Lemma same_timeout_trans w1 w2 w3 :
  same_timeout w1 w2 -> same_timeout w2 w3 -> same_timeout w1 w3.
Proof. unfold same_timeout. congruence. Qed.

Lemma same_timeout_get w c : same_timeout w (sending w (get_request (self w) c)).
Proof. reflexivity. Qed.

Lemma same_timeout_print w l : same_timeout w (printing w l).
Proof. reflexivity. Qed.

Lemma same_timeout_devices w d :
  same_timeout w (set_self w (with_devices (self w) d)).
Proof. reflexivity. Qed.

Ltac timeout_tac :=
  first [ exact same_timeout_refl | exact same_timeout_trans
        | exact same_timeout_get | exact same_timeout_print
        | exact same_timeout_devices ].

Lemma run_call_same_timeout (interp : Interp) (net : network) c w :
  (forall v, c <> call_set_timeout v) -> same_timeout w (run_call net c w).
Proof.
  intros Hc.
  destruct c; cbn [run_call];
    [ exfalso; eapply Hc; reflexivity
    | apply (@keeps_rel _ same_timeout); [| apply same_timeout_refl] .. ].
  - apply keeps_update_devices; timeout_tac.
  - apply keeps_device_IDs; timeout_tac.
  - apply keeps_software_version; timeout_tac.
  - apply keeps_battery_level; timeout_tac.
  - apply keeps_get_data; timeout_tac.
  - apply keeps_device_type; timeout_tac.
  - apply keeps_device_name; timeout_tac.
  - apply keeps_save_devices_to_file; timeout_tac.
  - apply keeps_make_request; timeout_tac.
Qed.

Lemma set_timeout_stores v w :
  match float_of_value v with
  | Ret t => set_timeout v w = (Ret tt, set_self w (with_timeout (self w) t))
  | Raise e => set_timeout v w = (Raise e, w)
  end.
Proof.
  unfold set_timeout, bind, lift. destruct (float_of_value v); reflexivity.
Qed.

(** Combinators for [keeps]. *)
Section KeepsRules.
Variable R : world -> world -> Prop.
Hypothesis R_trans : forall w1 w2 w3, R w1 w2 -> R w2 w3 -> R w1 w3.

Lemma keeps_ret {A} (a : A) : keeps R (ret a).
Proof. intros w0 w H. exact H. Qed.

Lemma keeps_raise {A} (e : exn) : keeps R (@raise A e).
Proof. intros w0 w H. exact H. Qed.

Lemma keeps_or_raise {A} (o : option A) e : keeps R (or_raise o e).
Proof. intros w0 w H. destruct o; exact H. Qed.

Lemma keeps_seq {A B} (m : M A) (k : A -> M B) :
  keeps R m -> (forall a, keeps R (k a)) -> keeps R (bind m k).
Proof.
  intros Hm Hk w0 w H. apply wp_bind.
  eapply wp_mono; [apply Hm; exact H | | auto].
  intros a w' H'. apply Hk. exact H'.
Qed.

Lemma keeps_try_except {A} (m : M A) (h : exn -> M A) :
  keeps R m -> (forall e, keeps R (h e)) -> keeps R (try_except m h).
Proof.
  intros Hm Hh w0 w H. apply wp_try_except.
  eapply wp_mono; [apply Hm; exact H | auto |].
  intros e w' H'. apply Hh. exact H'.
Qed.

Lemma keeps_modify (f : Server -> Server) :
  (forall w, R w (set_self w (f (self w)))) ->
  keeps R (s <- get_self ;; put_self (f s)).
Proof.
  intros Hf w0 w H. apply wp_get_self. apply wp_put_self_end.
  eapply R_trans; [exact H | apply Hf].
Qed.

Lemma keeps_modify_then {B} (f : Server -> Server) (k : M B) :
  (forall w, R w (set_self w (f (self w)))) ->
  keeps R k ->
  keeps R (s <- get_self ;; put_self (f s) ;; k).
Proof.
  intros Hf Hk w0 w H. apply wp_get_self. apply wp_put_self.
  apply Hk. eapply R_trans; [exact H | apply Hf].
Qed.

Lemma keeps_http net req :
  (forall w, R w (sending w req)) -> keeps R (http net req).
Proof.
  intros Hs w0 w H. apply wp_http; intros; (eapply R_trans; [exact H | apply Hs]).
Qed.
End KeepsRules.

Lemma init_timeout (interp : Interp) (net : network) host port
      (device_dict : registry) username password (w : world) :
  timeout (self (snd (__init__ net host port device_dict username password w)))
  = float_of_Z 5.
Proof.
  apply (wp_snd (__init__ net host port device_dict username password)
                (fun w' => timeout (self w') = float_of_Z 5)).
  unfold __init__. apply wp_get_self. apply wp_put_self.
  set (w1 := set_self w _).
  set (rest := bind get_self _).
  assert (Hrest : keeps same_timeout rest).
  { unfold rest. apply keeps_modify_then; [exact same_timeout_trans | reflexivity |].
    apply keeps_seq.
    - apply keeps_try_except.
      + apply keeps_seq.
        * unfold generate_session.
          destruct (is_empty_literal username && is_empty_literal password).
          -- apply keeps_modify; [exact same_timeout_trans | reflexivity].
          -- apply keeps_seq; [apply keeps_http; [exact same_timeout_trans | reflexivity]|].
             intros r. apply keeps_modify; [exact same_timeout_trans | reflexivity].
        * intros _. apply keeps_seq; [apply keeps_make_request; timeout_tac|].
          intros page. apply keeps_seq.
          -- destruct page as [p |]; [apply keeps_or_raise | apply keeps_raise].
          -- intros _. apply keeps_ret.
      + intros e. destruct (is_ConnectionError e); [|destruct (is_ValueError e)];
          apply keeps_raise.
    - intros _. destruct device_dict as [| d0 dd].
      + apply keeps_seq; [apply keeps_update_devices; timeout_tac|].
        intros r. apply keeps_ret.
      + apply keeps_modify; [exact same_timeout_trans | reflexivity]. }
  eapply wp_mono.
  - apply (Hrest w1 w1). reflexivity.
  - intros u w' H. exact H.
  - intros e w' H. exact H.
Qed.

(** C8, as the code has it.  After construction the timeout is 5.0,
    which is strictly positive, and every method other than
    [set_timeout] leaves the timeout as it is.  [set_timeout(t)] stores
    [float(t)] whatever its sign (and changes nothing when [float]
    raises), so the timeout is strictly positive after the call exactly
    when [float(t)] is. *)
Theorem timeout_after_operations (interp : Interp) (net : network) :
  (forall host port device_dict username password w,
     timeout (self (snd (__init__ net host port device_dict
                                  username password w))) = float_of_Z 5) /\
  positive (float_of_Z 5) = true /\
  (forall c w, (forall v, c <> call_set_timeout v) ->
     timeout (self (run_call net c w)) = timeout (self w)) /\
  (forall v w t, float_of_value v = Ret t ->
     set_timeout v w = (Ret tt, set_self w (with_timeout (self w) t)) /\
     (positive (timeout (self (snd (set_timeout v w)))) = true
      <-> positive t = true)) /\
  (forall v w e, float_of_value v = Raise e -> set_timeout v w = (Raise e, w)).
Proof.
  split; [|split; [|split; [|split]]].
  - intros. apply init_timeout.
  - reflexivity.
  - intros c w Hc. apply (run_call_same_timeout interp net (c:=c) w Hc).
  - intros v w t Hv. pose proof (set_timeout_stores v w) as H.
    rewrite Hv in H. split; [exact H|]. rewrite H. reflexivity.
  - intros v w e Hv. pose proof (set_timeout_stores v w) as H.
    rewrite Hv in H. exact H.
Qed.

Lemma timeout_after_operations_witness :
  timeout (self (run_call (interp:=ascii_interp) (fun _ _ => Fails ConnectionError)
                          call_device_IDs (constructed [])))
  = timeout (self (constructed [])) /\
  set_timeout (PyInt 3) (constructed [])
  = (Ret tt, set_self (constructed [])
                      (with_timeout (self (constructed [])) (float_of_Z 3))) /\
  set_timeout (PyStr "soon") (constructed []) = (Raise ValueError, constructed []).
Proof.
  pose proof (timeout_after_operations ascii_interp
                (fun _ _ => Fails ConnectionError)) as (_ & _ & H3 & H4 & H5).
  split; [|split].
  - apply H3. intros v; discriminate.
  - apply (H4 (PyInt 3)). reflexivity.
  - apply H5. reflexivity.
Defined.

(** C8 as stated fails: [set_timeout(0)] is accepted and leaves a
    timeout that is not strictly positive. *)
Lemma set_timeout_zero_not_positive :
  positive (timeout (self (constructed []))) = true /\
  fst (set_timeout (PyInt 0) (constructed [])) = Ret tt /\
  positive (timeout (self (snd (set_timeout (PyInt 0) (constructed []))))) = false.
Proof. split; [|split]; reflexivity. Qed.

Example set_timeout_negative :
  fst (set_timeout (PyStr "-2.5") (constructed [])) = Ret tt /\
  positive (timeout (self (snd (set_timeout (PyStr "-2.5") (constructed []))))) = false.
Proof. split; reflexivity. Qed.

(* ================================================================== *)
(** * Decoding of values                                               *)
(* ================================================================== *)

(** C4.  [get_data] on a registered device whose number is [n], when
    both of its requests are answered: for a device of type [bool] the
    result is 1.0 when the body of the second response is [true] and 0.0
    for any other body; for a device of type [double] the result is the
    body parsed as a floating-point number ([ValueError] when it is not a
    numeral).  In every case the value returned is one float. *)
Theorem get_data_decoding (net : network) (device_id : text)
        (d : device) (x : float) (n : Z) (p1 p2 : response) (w w1 w2 : world) :
  dict_get (devices (self w)) device_id = Some d ->
  float_of_text device_id = Some x ->
  int_of_float x = Ret n ->
  _make_request net (refresh_command n (data d)) w = (Ret (Some p1), w1) ->
  _make_request net (value_command n (data d)) w1 = (Ret (Some p2), w2) ->
  (type (data d) = txt "bool" ->
   get_data net device_id w
   = (Ret (if String.eqb (content p2) "true" then float_of_Z 1 else float_of_Z 0),
      w2)) /\
  (type (data d) = txt "double" ->
   get_data net device_id w = (parse_float (content p2), w2)).
Proof.
  intros Hd Hx Hn H1 H2.
  unfold refresh_command, value_command in *.
  assert (Hrun : get_data net device_id w =
                 lift (float_of_value
                         (if text_eqb (type (data d)) (txt "bool")
                          then PyInt (if String.eqb (content p2) "true" then 1 else 0)
                          else PyStr (content p2))) w2).
  { unfold get_data, lookup_device, device_number, bind, get_self, or_raise,
      ret, lift, page_content.
    rewrite Hd, Hx, Hn, H1, H2. reflexivity. }
  split; intros Ht; rewrite Hrun, Ht.
  - change (text_eqb (txt "bool") (txt "bool")) with true. cbv iota.
    destruct (String.eqb (content p2) "true"); reflexivity.
  - change (text_eqb (txt "double") (txt "bool")) with false. cbv iota.
    reflexivity.
Qed.

Lemma get_data_decoding_witness :
  fst (get_data (always "true") (txt "48.0")
                (constructed [(txt "48.0", switch_48)]))
  = Ret (float_of_Z 1)
  /\ fst (get_data (always "false") (txt "48.0")
                   (constructed [(txt "48.0", switch_48)]))
     = Ret (float_of_Z 0)
  /\ fst (get_data (always "21.5") (txt "49.0")
                   (constructed [(txt "49.0", meter_49)]))
     = Ret (float_of_decimal false 215 (-1)).
Proof.
  split; [|split].
  - rewrite (proj1 (@get_data_decoding (always "true") (txt "48.0")
                      switch_48 _ 48 (page_of "true") (page_of "true")
                      (constructed [(txt "48.0", switch_48)]) _ _
                      eq_refl eq_refl eq_refl eq_refl eq_refl) eq_refl).
    reflexivity.
  - rewrite (proj1 (@get_data_decoding (always "false") (txt "48.0")
                      switch_48 _ 48 (page_of "false") (page_of "false")
                      (constructed [(txt "48.0", switch_48)]) _ _
                      eq_refl eq_refl eq_refl eq_refl eq_refl) eq_refl).
    reflexivity.
  - rewrite (proj2 (@get_data_decoding (always "21.5") (txt "49.0")
                      meter_49 _ 49 (page_of "21.5") (page_of "21.5")
                      (constructed [(txt "49.0", meter_49)]) _ _
                      eq_refl eq_refl eq_refl eq_refl eq_refl) eq_refl).
    reflexivity.
Defined.

(* ================================================================== *)
(** * Dictionaries                                                     *)
(* ================================================================== *)

Lemma uchar_eqb_refl (a : uchar) : uchar_eqb a a = true.
Proof.
  unfold uchar_eqb. rewrite !Ascii.eqb_refl. reflexivity.
Qed.

Lemma text_eqb_refl (t : text) : text_eqb t t = true.
Proof.
  induction t as [| a t IH]; [reflexivity|].
  cbn [text_eqb]. rewrite uchar_eqb_refl, IH. reflexivity.
Qed.

Lemma text_eqb_eq (s t : text) : text_eqb s t = true -> s = t.
Proof.
  revert t. induction s as [| a s IH]; intros [| b t] H; cbn in H;
    try discriminate; [reflexivity|].
  apply andb_true_iff in H. destruct H as [Hab Hst].
  unfold uchar_eqb in Hab. apply andb_true_iff in Hab. destruct Hab as [H1 H2].
  apply Ascii.eqb_eq in H1, H2. destruct a, b; cbn in *; subst.
  f_equal. apply IH. exact Hst.
Qed.

Lemma dict_get_set_same {V} (d : dict V) k v :
  dict_get (dict_set d k v) k = Some v.
Proof.
  induction d as [| [k' v'] d IH]; cbn.
  - rewrite text_eqb_refl. reflexivity.
  - destruct (text_eqb k' k) eqn:E; cbn; rewrite E; [reflexivity | exact IH].
Qed.

Lemma dict_set_twice {V} (d : dict V) k v v' :
  dict_set (dict_set d k v) k v' = dict_set d k v'.
Proof.
  induction d as [| [k0 v0] d IH]; cbn.
  - rewrite text_eqb_refl. reflexivity.
  - destruct (text_eqb k0 k) eqn:E; cbn; rewrite E; [reflexivity|].
    rewrite IH. reflexivity.
Qed.

Lemma keys_dict_set {V} (P : text -> Prop) (d : dict V) k v :
  Forall P (keys d) -> P k -> Forall P (keys (dict_set d k v)).
Proof.
  intros Hd Hk. induction d as [| [k' v'] d IH]; cbn.
  - constructor; [exact Hk | constructor].
  - inversion Hd; subst. destruct (text_eqb k' k); cbn.
    + constructor; assumption.
    + constructor; [assumption | apply IH; assumption].
Qed.

Lemma coordinates_dict_set (r : registry) k dd nm :
  coordinates (dict_set r k (Build_device dd nm))
  = dict_set (coordinates r) k dd.
Proof.
  induction r as [| [k' d'] r IH]; cbn; [reflexivity|].
  destruct (text_eqb k' k); cbn; [reflexivity|]. f_equal. apply IH.
Qed.

Lemma coordinates_rename (r : registry) k d nm :
  dict_get r k = Some d ->
  coordinates (dict_set r k (Build_device (data d) nm)) = coordinates r.
Proof.
  induction r as [| [k' d'] r IH]; cbn; [discriminate|].
  destruct (text_eqb k' k); cbn.
  - intros H. injection H as ->. reflexivity.
  - intros H. f_equal. apply IH. exact H.
Qed.

Lemma add_all_app {V} (a b : list (text * V)) (d : dict V) :
  add_all (a ++ b) d = add_all b (add_all a d).
Proof. unfold add_all. apply fold_left_app. Qed.

Lemma Prefix_refl {X} (l : list X) : Prefix l l.
Proof. exists []. rewrite app_nil_r. reflexivity. Qed.

Lemma Prefix_app_l {X} (p a b : list X) : Prefix p a -> Prefix p (a ++ b).
Proof. intros [q ->]. exists (q ++ b). rewrite app_assoc. reflexivity. Qed.

Lemma Prefix_app_r {X} (p a b : list X) : Prefix p b -> Prefix (a ++ p) (a ++ b).
Proof. intros [q ->]. exists q. rewrite app_assoc. reflexivity. Qed.

(* ================================================================== *)
(** * The scan                                                         *)
(* ================================================================== *)

Section Scan.
Context {interp : Interp}.
Variable net : network.

Lemma scans_ret {S} (s : S) : scans (ret s) [] s.
Proof.
  intros w. apply wp_ret. split; [reflexivity|]. split; [reflexivity | auto].
Qed.

Lemma scans_for_in {A S} (step : S -> A -> list (text * data_dict) * S)
      (body : S -> A -> M S) (l : list A) :
  (forall s x, scans (body s x) (fst (step s x)) (snd (step s x))) ->
  forall s, scans (for_in l body s)
                  (fst (spec_fold step l s)) (snd (spec_fold step l s)).
Proof.
  intros Hbody. induction l as [| x l IH]; intros s w.
  - apply scans_ret.
  - cbn [for_in spec_fold].
    destruct (step s x) as [e1 s1] eqn:E1.
    destruct (spec_fold step l s1) as [e2 s2] eqn:E2.
    cbn [fst snd]. apply wp_bind.
    eapply wp_mono; [apply Hbody | |]; rewrite E1; cbn [fst snd].
    + intros s' w1 (-> & Hc1 & Hn1).
      eapply wp_mono; [apply IH | |]; rewrite E2; cbn [fst snd].
      * intros s'' w2 (-> & Hc2 & Hn2).
        split; [reflexivity|]. split; [|auto].
        rewrite Hc2, Hc1, add_all_app. reflexivity.
      * intros e w2 (p & Hp & Hc2).
        exists (e1 ++ p). split; [apply Prefix_app_r; exact Hp|].
        rewrite Hc2, Hc1, add_all_app. reflexivity.
    + intros e w1 (p & Hp & Hc1).
      exists p. split; [apply Prefix_app_l; exact Hp | exact Hc1].
Qed.

(** [device_type] leaves the object alone; when it returns, the id was
    accepted by [int(float(id))]. *)
Lemma device_type_spec id w :
  wp (device_type net id)
     (fun _ w' => self w' = self w /\ key_ok id)
     (fun _ w' => self w' = self w) w.
Proof.
  unfold device_type, device_number. wp_go; try reflexivity.
  unfold lookup_device. wp_go; try reflexivity.
  eapply (@wp_make_request net same_object); try frame_tac.
  - apply same_object_refl.
  - intros [p |] w' Hs; wp_go; try exact Hs.
    split; [exact Hs|]. eexists; eexists; split; eassumption.
  - intros e w' Hs. exact Hs.
Qed.

Lemma scans_scan_data base inst cc count dn :
  scans (scan_data net base inst cc count dn)
        (fst (data_step base inst cc count dn))
        (snd (data_step base inst cc count dn)).
Proof.
  intros w. unfold scan_data, data_step.
  destruct (unicode_isdigit dn); [|apply scans_ret].
  cbn [fst snd]. wp_go.
  set (id := base ++ txt "." ++ dec (Z.of_nat count)).
  set (dd := Build_data_dict _ _ _ _ _).
  eapply wp_mono; [apply device_type_spec | |];
    cbn [set_self self with_devices devices].
  - intros ty w1 [Hs Hk]. cbv beta.
    assert (Hd1 : devices (self w1)
                  = dict_set (devices (self w)) id (Build_device dd None))
      by (rewrite Hs; reflexivity).
    destruct (decode (replace_space (strip ty))) as [u |].
    + unfold set_name, lookup_device. wp_go.
      * cbn [set_self self with_devices devices printing].
        split; [reflexivity|].
        rewrite (coordinates_rename _ _ _ H), Hd1, coordinates_dict_set.
        split; [reflexivity|].
        intros Hn. apply keys_dict_set; [|exact Hk].
        apply keys_dict_set; [exact Hn | exact Hk].
      * exists [(id, dd)]. split; [apply Prefix_refl|].
        rewrite Hd1, coordinates_dict_set. reflexivity.
    + wp_go. cbn [set_self self with_devices devices printing].
      split; [reflexivity|].
      rewrite Hd1, coordinates_dict_set. split; [reflexivity|].
      intros Hn. apply keys_dict_set; [exact Hn | exact Hk].
  - intros e w1 Hs. exists [(id, dd)]. split; [apply Prefix_refl|].
    rewrite Hs. cbn [devices with_devices].
    rewrite coordinates_dict_set. reflexivity.
Qed.

Lemma scans_scan_class base inst count c :
  scans (scan_class net base inst count c)
        (fst (class_step base inst count c))
        (snd (class_step base inst count c)).
Proof.
  destruct c as [cc dks]. unfold scan_class, class_step. cbn [fst snd].
  destruct (existsb _ _); [|apply scans_ret].
  apply scans_for_in. intros s x. apply scans_scan_data.
Qed.

Lemma scans_scan_instance base count i :
  scans (scan_instance net base count i)
        (fst (instance_step base count i))
        (snd (instance_step base count i)).
Proof.
  destruct i as [inst ccs]. unfold scan_instance, instance_step.
  cbn [fst snd]. apply scans_for_in. intros s x. apply scans_scan_class.
Qed.

Lemma scans_scan_device u dev :
  scans (scan_device net u dev)
        (fst (device_step u dev)) (snd (device_step u dev)).
Proof.
  destruct dev as [base insts]. unfold scan_device, device_step.
  cbn [fst snd]. intros w. apply wp_bind.
  eapply wp_mono;
    [apply (scans_for_in (instance_step base)
              (scan_instance net base) insts
              (fun s x => scans_scan_instance base s x) 0%nat w) | |].
  - intros s w1 (_ & Hc & Hn). apply wp_ret. auto.
  - intros e w1 H. exact H.
Qed.

Lemma scans_tree tree :
  scans (for_in tree (scan_device net) tt) (discovered tree) tt.
Proof.
  intros w. unfold discovered.
  eapply wp_mono;
    [apply (scans_for_in device_step (scan_device net) tree
              (fun s x => scans_scan_device s x) tt w) | |].
  - intros [] w1 (_ & Hc & Hn). auto.
  - intros e w1 H. exact H.
Qed.
End Scan.

(* ================================================================== *)
(** * The order of floats and the sort                                 *)
(* ================================================================== *)

Lemma float_le_total (x y : float) :
  is_nan x = false -> is_nan y = false ->
  float_lt y x = false -> float_le x y = true.
Proof.
  unfold float_lt, float_le, SFltb, SFleb.
  destruct x as [sx | sx | | sx mx ex], y as [sy | sy | | sy my ey];
    cbn; try discriminate; intros _ _;
    try (destruct sx; try destruct sy; cbn; congruence).
  destruct sx, sy; cbn; try congruence;
    rewrite ?Pos.compare_cont_spec; cbn;
    destruct (Z.compare_spec ex ey), (Z.compare_spec ey ex);
    try lia; cbn; try congruence;
    destruct (Pos.compare_spec mx my), (Pos.compare_spec my mx);
    cbn; try congruence; try lia.
Qed.

Lemma float_lt_le (x y : float) : float_lt x y = true -> float_le x y = true.
Proof.
  unfold float_lt, float_le, SFltb, SFleb.
  destruct (SFcompare x y) as [[| |] |]; congruence.
Qed.

Lemma float_le_trans (x y z : float) :
  float_le x y = true -> float_le y z = true -> float_le x z = true.
Proof.
  unfold float_le, SFleb.
  destruct x as [sx | sx | | sx mx ex], y as [sy | sy | | sy my ey],
           z as [sz | sz | | sz mz ez];
    cbn; try discriminate; try reflexivity;
    try (destruct sx; try destruct sy; try destruct sz; cbn; congruence).
  destruct sx, sy, sz; cbn; try congruence;
    rewrite ?Pos.compare_cont_spec; cbn;
    destruct (Z.compare_spec ex ey), (Z.compare_spec ey ez), (Z.compare_spec ex ez);
    try lia; cbn; try congruence; subst;
    destruct (Pos.compare_spec mx my), (Pos.compare_spec my mz), (Pos.compare_spec mx mz);
    cbn; try congruence; try lia.
Qed.

Lemma Forall_insert_sorted (P : float * text -> Prop) a l :
  P a -> Forall P l -> Forall P (insert_sorted a l).
Proof.
  intros Ha Hl. induction l as [| b l IH]; cbn.
  - constructor; [exact Ha | constructor].
  - inversion Hl; subst. destruct (float_lt (fst b) (fst a)).
    + constructor; [assumption | apply IH; assumption].
    + constructor; [exact Ha | exact Hl].
Qed.

Lemma insert_sorted_perm a l : Permutation (insert_sorted a l) (a :: l).
Proof.
  induction l as [| b l IH]; cbn; [reflexivity|].
  destruct (float_lt (fst b) (fst a)); [|reflexivity].
  rewrite IH. apply perm_swap.
Qed.

Lemma sort_decorated_perm l : Permutation (sort_decorated l) l.
Proof.
  induction l as [| a l IH]; cbn; [reflexivity|].
  rewrite insert_sorted_perm. constructor. exact IH.
Qed.

Lemma insert_sorted_sorted a l :
  is_nan (fst a) = false ->
  Forall (fun b => is_nan (fst b) = false) l ->
  StronglySorted key_le l -> StronglySorted key_le (insert_sorted a l).
Proof.
  intros Ha Hl Hs. induction Hs as [| b l Hs IH Hb]; cbn.
  - constructor; constructor.
  - inversion Hl as [| ? ? Hnb Hl']; subst.
    destruct (float_lt (fst b) (fst a)) eqn:E.
    + constructor; [apply IH; exact Hl'|].
      apply Forall_insert_sorted; [|exact Hb].
      unfold key_le. apply float_lt_le. exact E.
    + assert (Hab : key_le a b)
        by (apply float_le_total; assumption).
      constructor; [constructor; assumption|].
      constructor; [exact Hab|].
      eapply Forall_impl; [|exact Hb].
      intros c Hbc. unfold key_le in *. eapply float_le_trans; eassumption.
Qed.

Lemma sort_decorated_sorted l :
  Forall (fun b => is_nan (fst b) = false) l ->
  StronglySorted key_le (sort_decorated l).
Proof.
  induction l as [| a l IH]; intros Hl; cbn.
  - constructor.
  - inversion Hl; subst. apply insert_sorted_sorted; [assumption | | auto].
    eapply Permutation_Forall; [|eassumption].
    symmetry. apply sort_decorated_perm.
Qed.

Lemma decorate_spec l d :
  decorate l = Ret d ->
  map snd d = l /\ Forall (fun p => float_of_text (snd p) = Some (fst p)) d.
Proof.
  revert d. induction l as [| k l IH]; intros d; cbn.
  - intros H. injection H as <-. split; [reflexivity | constructor].
  - destruct (float_of_text k) as [x |] eqn:Ek; [|discriminate].
    destruct (decorate l) as [r | e]; [|discriminate].
    intros H. injection H as <-. destruct (IH r eq_refl) as [Hm Hf].
    split; [cbn; rewrite Hm; reflexivity|].
    constructor; [exact Ek | exact Hf].
Qed.

Lemma key_ok_not_nan k x :
  key_ok k -> float_of_text k = Some x -> is_nan x = false.
Proof.
  intros (y & n & Hy & Hn) Hx. rewrite Hx in Hy. injection Hy as <-.
  destruct x; cbn in *; congruence.
Qed.

Lemma decorate_numbered l :
  Forall key_ok l ->
  exists d, decorate l = Ret d
            /\ Forall (fun b => is_nan (fst b) = false) d.
Proof.
  induction 1 as [| k l Hk Hl (d & Hd & Hn)]; cbn.
  - exists []. split; [reflexivity | constructor].
  - destruct Hk as (x & n & Hx & Hi). rewrite Hx, Hd.
    eexists. split; [reflexivity|].
    constructor; [|exact Hn]. cbn. destruct x; cbn in *; congruence.
Qed.

Lemma sorted_undecorate d :
  Forall (fun p => float_of_text (snd p) = Some (fst p)) d ->
  StronglySorted key_le d -> StronglySorted numeric_le (map snd d).
Proof.
  intros Hf Hs. induction Hs as [| a l Hs IH Ha]; cbn; [constructor|].
  inversion Hf as [| ? ? Hfa Hfl]; subst.
  constructor; [apply IH; exact Hfl|].
  apply Forall_map. rewrite Forall_forall in *.
  intros b Hb. unfold numeric_le. rewrite Hfa, (Hfl b Hb). apply Ha. exact Hb.
Qed.

(** On a registry whose ids are numbers, [device_IDs] returns the ids
    in ascending numeric order. *)
Lemma device_IDs_numbered (w : world) :
  numbered (devices (self w)) ->
  exists ids, device_IDs w = (Ret ids, w)
              /\ Permutation ids (keys (devices (self w)))
              /\ StronglySorted numeric_le ids.
Proof.
  intros Hn. destruct (decorate_numbered Hn) as (d & Hd & Hnan).
  destruct (decorate_spec _ Hd) as [Hm Hf].
  exists (map snd (sort_decorated d)).
  unfold device_IDs, bind, get_self, lift, sorted_key_float. rewrite Hd.
  split; [reflexivity|]. split.
  - rewrite <- Hm. apply Permutation_map. apply sort_decorated_perm.
  - apply sorted_undecorate.
    + eapply Permutation_Forall; [|exact Hf].
      symmetry. apply sort_decorated_perm.
    + apply sort_decorated_sorted. exact Hnan.
Qed.

(* ================================================================== *)
(** * The registry after a scan                                        *)
(* ================================================================== *)

Lemma wp_eqn {A} (m : M A) Q E w :
  (forall a w', m w = (Ret a, w') -> Q a w') ->
  (forall e w', m w = (Raise e, w') -> E e w') ->
  wp m Q E w.
Proof.
  intros HQ HE. unfold wp. destruct (m w) as [[a | e] w']; auto.
Qed.

Lemma make_request_same_object (net : network) command w r w' :
  _make_request net command w = (r, w') -> self w' = self w.
Proof.
  intros H.
  pose proof (@keeps_same_object _ (_make_request net command) w) as K.
  rewrite H in K. apply K. apply keeps_make_request; frame_tac.
Qed.

Section ScanResult.
Context {interp : Interp}.
Variable net : network.

(** A scan that returns has written the entries discovered in the tree
    it was served into an empty registry, and returns that registry; a
    scan that raises leaves the registry empty, or with the first few of
    the discovered entries. *)
Lemma update_devices_spec (w : world) :
  wp (update_devices net)
     (fun r w' =>
        r = devices (self w') /\
        exists tree, serves net w tree /\
          coordinates r = add_all (discovered tree) [] /\ numbered r)
     (fun _ w' =>
        devices (self w') = [] \/
        exists tree p, serves net w tree /\ Prefix p (discovered tree) /\
          coordinates (devices (self w')) = add_all p [])
     w.
Proof.
  unfold update_devices. apply wp_get_self. apply wp_put_self.
  fold (cleared w). apply wp_bind. apply wp_eqn.
  - intros page w1 Hreq.
    assert (Hd1 : devices (self w1) = [])
      by (rewrite (make_request_same_object _ _ _ Hreq); reflexivity).
    destruct page as [page |]; wp_go; [| left; exact Hd1 | left; exact Hd1].
    destruct a as [tree | v]; [| wp_go; left; exact Hd1].
    assert (Hserves : serves net w tree)
      by (exists page, w1; split; assumption).
    apply wp_bind. eapply wp_mono; [apply scans_tree | |].
    + intros [] w2 (_ & Hc & Hn). rewrite Hd1 in Hc, Hn.
      wp_go. split; [reflexivity|]. exists tree.
      split; [exact Hserves|]. split; [exact Hc|].
      apply Hn. constructor.
    + intros e w2 (p & Hp & Hc). rewrite Hd1 in Hc.
      right. exists tree, p. auto.
  - intros e w1 Hreq. left.
    rewrite (make_request_same_object _ _ _ Hreq). reflexivity.
Qed.

Lemma serves_unique w tree tree' :
  serves net w tree -> serves net w tree' -> tree = tree'.
Proof.
  intros (p & w1 & H1 & J1) (p' & w1' & H2 & J2).
  rewrite H1 in H2. injection H2 as -> ->. congruence.
Qed.

Lemma update_devices_returns (w : world) r w' :
  update_devices net w = (Ret r, w') ->
  r = devices (self w') /\
  exists tree, serves net w tree /\
    coordinates r = add_all (discovered tree) [] /\ numbered r.
Proof.
  intros H. pose proof (update_devices_spec w) as S.
  unfold wp in S. rewrite H in S. exact S.
Qed.

Lemma update_devices_raises (w : world) e w' :
  update_devices net w = (Raise e, w') ->
  devices (self w') = [] \/
  exists tree p, serves net w tree /\ Prefix p (discovered tree) /\
    coordinates (devices (self w')) = add_all p [].
Proof.
  intros H. pose proof (update_devices_spec w) as S.
  unfold wp in S. rewrite H in S. exact S.
Qed.
End ScanResult.

(** C5.  On the registry that a scan has populated, [device_IDs] returns
    all the device ids (a permutation of the keys of the registry) in
    ascending order of their value as floating-point numbers. *)
Theorem device_IDs_sorted (interp : Interp) (net : network)
        (w : world) (r : registry) (w' : world) :
  update_devices net w = (Ret r, w') ->
  exists ids,
    device_IDs w' = (Ret ids, w') /\
    Permutation ids (keys r) /\
    StronglySorted numeric_le ids.
Proof.
  intros H. destruct (update_devices_returns net w H) as (-> & _ & _ & _ & Hn).
  apply device_IDs_numbered. exact Hn.
Qed.

Lemma device_IDs_sorted_witness :
  exists ids,
    device_IDs (snd scan_three) = (Ret ids, snd scan_three)
    /\ Permutation ids (keys (devices (self (snd scan_three))))
    /\ StronglySorted numeric_le ids.
Proof.
  refine (@device_IDs_sorted ascii_interp
            (tree_server tree_three (fun _ => Responds (page_of "Power")))
            (constructed []) (devices (self (snd scan_three)))
            (snd scan_three) _).
  vm_compute. reflexivity.
Defined.

(** The order is numeric, not lexical: ["5.0"] comes before ["48.0"], and
    ["48.10"] between ["48.0"] and ["49.0"]. *)
Example device_IDs_numeric_order :
  keys (devices (self (snd scan_three))) = [txt "49.0"; txt "5.0"; txt "48.0"]
  /\ fst (device_IDs (snd scan_three)) = Ret [txt "5.0"; txt "48.0"; txt "49.0"]
  /\ fst (device_IDs (constructed [(txt "49.0", meter_49);
                                   (txt "48.10", switch_48);
                                   (txt "48.0", switch_48)]))
     = Ret [txt "48.0"; txt "48.10"; txt "49.0"].
Proof. repeat split; vm_compute; reflexivity. Qed.

(* ================================================================== *)
(** * Classification of the channels                                   *)
(* ================================================================== *)

Lemma spec_fold_Forall {A S X} (P : X -> Prop)
      (step : S -> A -> list X * S) (l : list A) :
  (forall s x, Forall P (fst (step s x))) ->
  forall s, Forall P (fst (spec_fold step l s)).
Proof.
  intros Hstep. induction l as [| x l IH]; intros s; cbn; [constructor|].
  specialize (Hstep s x). destruct (step s x) as [e1 s1].
  specialize (IH s1). destruct (spec_fold step l s1) as [e2 s2].
  cbn in *. apply Forall_app. split; assumption.
Qed.

Lemma accepted_class cc :
  existsb (text_eqb cc) acceptedClasses = true ->
  cc = txt "48" \/ cc = txt "49" \/ cc = txt "50".
Proof.
  unfold acceptedClasses. cbn [existsb]. rewrite !orb_true_iff.
  intros [H | [H | [H | H]]]; try discriminate;
    apply text_eqb_eq in H; auto.
Qed.

Lemma discovered_classified (interp : Interp) (tree : devices_page) :
  Forall (fun e => classified (snd e)) (discovered tree).
Proof.
  unfold discovered. apply spec_fold_Forall. intros [] [base insts].
  unfold device_step. cbn [fst snd]. apply spec_fold_Forall.
  intros count [inst ccs]. unfold instance_step. cbn [fst snd].
  apply spec_fold_Forall. intros count' [cc dks]. unfold class_step.
  cbn [fst snd]. destruct (existsb _ _) eqn:Hacc; [|constructor].
  apply spec_fold_Forall. intros count'' dn. unfold data_step.
  destruct (unicode_isdigit dn); [|constructor].
  constructor; [|constructor]. cbn [fst snd]. unfold classified. cbn.
  destruct (accepted_class _ Hacc) as [-> | [-> | ->]].
  - left. repeat split.
  - right. split; [left; reflexivity | split; reflexivity].
  - right. split; [right; reflexivity | split; reflexivity].
Qed.

Lemma dict_set_Forall {V} (P : V -> Prop) (d : dict V) k v :
  Forall (fun kv => P (snd kv)) d -> P v ->
  Forall (fun kv => P (snd kv)) (dict_set d k v).
Proof.
  intros Hd Hv. induction d as [| [k' v'] d IH]; cbn.
  - constructor; [exact Hv | constructor].
  - inversion Hd; subst. destruct (text_eqb k' k).
    + constructor; [exact Hv | assumption].
    + constructor; [assumption | apply IH; assumption].
Qed.

Lemma add_all_Forall {V} (P : V -> Prop) (es : list (text * V)) :
  Forall (fun kv => P (snd kv)) es ->
  forall d, Forall (fun kv => P (snd kv)) d ->
            Forall (fun kv => P (snd kv)) (add_all es d).
Proof.
  induction 1 as [| [k v] es Hkv Hes IH]; intros d Hd; cbn; [exact Hd|].
  apply IH. apply dict_set_Forall; assumption.
Qed.

Lemma discovered_tree_48 (interp : Interp) :
  unicode_isdigit (txt "1") = true ->
  discovered tree_48 = [(txt "48.0", data_48_0)].
Proof.
  intros H. unfold discovered, tree_48.
  cbn [spec_fold device_step instance_step fst snd].
  unfold class_step. cbn [fst snd].
  change (existsb (text_eqb (txt "48")) acceptedClasses) with true.
  cbn [spec_fold]. unfold data_step. rewrite H. reflexivity.
Qed.

(** C6.  A scan that returns gives every entry of the registry the value
    type and the suffix of its command class: [bool] and [level.value]
    for class 48, [double] and [val.value] for classes 49 and 50.  When
    the tree served is the one of the scenario (device [48], instance
    [0], class [48], data index [1], a digit string), the registry has
    exactly one entry; its key is ["48.0"], its type [bool], its suffix
    [level.value]. *)
Theorem scan_classifies (interp : Interp) (net : network)
        (w : world) (r : registry) (w' : world) :
  update_devices net w = (Ret r, w') ->
  (forall k d, In (k, d) r -> classified (data d)) /\
  (serves net w tree_48 -> unicode_isdigit (txt "1") = true ->
   exists nm, r = [(txt "48.0", Build_device data_48_0 nm)]).
Proof.
  intros H.
  destruct (update_devices_returns net w H) as (_ & tree & Hs & Hc & _).
  split.
  - assert (Hall : Forall (fun kv => classified (snd kv)) (coordinates r)).
    { rewrite Hc. apply add_all_Forall; [apply discovered_classified | constructor]. }
    intros k d Hin. rewrite Forall_forall in Hall.
    apply (Hall (k, data d)). unfold coordinates.
    apply (in_map (fun kd => (fst kd, data (snd kd))) r (k, d)). exact Hin.
  - intros Hs48 Hdigit.
    rewrite (serves_unique Hs Hs48) in Hc.
    rewrite (discovered_tree_48 interp Hdigit) in Hc.
    destruct r as [| [k [dd nm]] [| e r]]; cbn in Hc; try discriminate.
    injection Hc as -> ->. exists nm. reflexivity.
Qed.

Lemma scan_classifies_witness :
  (forall k d, In (k, d) (devices (self (snd scan_48))) -> classified (data d)) /\
  exists nm, devices (self (snd scan_48))
             = [(txt "48.0", Build_device data_48_0 nm)].
Proof.
  assert (Hrun : update_devices (interp:=ascii_interp)
                   (tree_server tree_48
                      (fun _ => Responds (page_of "General purpose")))
                   (constructed [])
                 = (Ret (devices (self (snd scan_48))), snd scan_48))
    by (vm_compute; reflexivity).
  destruct (scan_classifies _ _ _ Hrun) as [Hall Hone].
  split; [exact Hall|]. apply Hone.
  - eexists; eexists. split; vm_compute; reflexivity.
  - reflexivity.
Defined.

Example scan_48_registry :
  fst scan_48
  = Ret [(txt "48.0", Build_device data_48_0 (Some (txt "48_General_purpose")))].
Proof. vm_compute. reflexivity. Qed.

(* ================================================================== *)
(** * Scans that fail                                                  *)
(* ================================================================== *)

Lemma same_config_refl w : same_config w w.
Proof. repeat split. Qed.

Lemma same_config_trans w1 w2 w3 :
  same_config w1 w2 -> same_config w2 w3 -> same_config w1 w3.
Proof.
  intros (A1 & B1 & C1) (A2 & B2 & C2). repeat split; congruence.
Qed.

Lemma same_config_get w c : same_config w (sending w (get_request (self w) c)).
Proof. repeat split. Qed.

Lemma same_config_print w l : same_config w (printing w l).
Proof. repeat split. Qed.

Lemma same_config_devices w d :
  same_config w (set_self w (with_devices (self w) d)).
Proof. repeat split. Qed.

Ltac config_tac :=
  first [ exact same_config_refl | exact same_config_trans
        | exact same_config_get | exact same_config_print
        | exact same_config_devices ].

(** C1, as the code has it.  A scan begins by emptying the registry and
    then writes the discovered entries into it one by one.  When a scan
    raises, the timeout, the base URL and the cookie are as before; what
    the registry held before the scan is gone, whatever it was; the
    registry is empty if no device tree was obtained, and otherwise
    holds the first few of the entries discovered in the tree. *)
Theorem failed_scan_registry (interp : Interp) (net : network)
        (w : world) (e : exn) (w' : world) :
  update_devices net w = (Raise e, w') ->
  same_config w w' /\
  (forall r0, update_devices net (set_self w (with_devices (self w) r0))
              = (Raise e, w')) /\
  ((forall tree, ~ serves net w tree) -> devices (self w') = []) /\
  (forall tree, serves net w tree ->
     exists p, Prefix p (discovered tree) /\
               coordinates (devices (self w')) = add_all p []).
Proof.
  intros H. split; [|split; [|split]].
  - pose proof (@keeps_rel _ same_config (update_devices net) w) as K.
    rewrite H in K. apply K; [|apply same_config_refl].
    apply keeps_update_devices; config_tac.
  - intros r0. rewrite <- H. reflexivity.
  - intros Hno. destruct (update_devices_raises net w H)
      as [Hd | (tree & p & Hs & _)]; [exact Hd|].
    destruct (Hno tree Hs).
  - intros tree Hs. destruct (update_devices_raises net w H)
      as [Hd | (tree' & p & Hs' & Hp & Hc)].
    + exists []. split; [exists (discovered tree); reflexivity|].
      rewrite Hd. reflexivity.
    + rewrite (serves_unique Hs Hs'). exists p. auto.
Qed.

Lemma failed_scan_registry_witness :
  devices (self (snd scan_offline)) = [] /\
  exists p, Prefix p (discovered (interp:=ascii_interp) tree_two) /\
            coordinates (devices (self (snd scan_interrupted))) = add_all p [].
Proof.
  split.
  - refine (proj1 (proj2 (proj2
              (@failed_scan_registry ascii_interp
                 (fun _ _ => Fails ConnectionError) one_device
                 (Exception "server did not respond, connection is lost")
                 (snd scan_offline) _))) _).
    + vm_compute. reflexivity.
    + intros tree (page & w1 & Hreq & _). vm_compute in Hreq. discriminate.
  - refine (proj2 (proj2 (proj2
              (@failed_scan_registry ascii_interp
                 (tree_server tree_two fails_after_first) one_device
                 (Exception "server Timeout")
                 (snd scan_interrupted) _))) tree_two _).
    + vm_compute. reflexivity.
    + eexists; eexists. split; vm_compute; reflexivity.
Defined.

(** C1 as stated fails.  A scan in which no request gets through raises
    and leaves the registry empty, where it held a device before; a scan
    that fails at its third request leaves a registry with the first
    entry complete and the second without a name. *)
Lemma failed_scan_not_atomic :
  devices (self one_device) = [(txt "48.0", switch_48)] /\
  fst scan_offline
  = Raise (Exception "server did not respond, connection is lost") /\
  devices (self (snd scan_offline)) = [] /\
  fst scan_interrupted = Raise (Exception "server Timeout") /\
  devices (self (snd scan_interrupted))
  = [(txt "48.0", Build_device (data_49 "1") (Some (txt "48_Power")));
     (txt "48.1", Build_device (data_49 "2") None)].
Proof. repeat split; vm_compute; reflexivity. Qed.

(* ================================================================== *)
(** * Names that cannot be built                                       *)
(* ================================================================== *)

(** C2, as the code has it.  When the sensor type of a channel is
    served but cannot be decoded, the entry of the channel stays in the
    registry with its coordinates and without a name, the sequence
    number is used up, two lines are printed, and the loop goes on with
    the remaining data indices. *)
Theorem undecodable_name_keeps_entry (interp : Interp) (net : network)
        (base inst cc : text) (count : nat) (dn : text) (rest : list text)
        (w : world) (ty : bytes) (w2 : world) :
  let id := new_device_id base count in
  let entry := Build_device (new_data_dict inst cc dn) None in
  let w3 := printing (printing w2 ErrorText)
                     (IgnoringDeviceAttr (replace_space (strip ty))) in
  unicode_isdigit dn = true ->
  device_type net id
    (set_self w (with_devices (self w) (dict_set (devices (self w)) id entry)))
  = (Ret ty, w2) ->
  decode (replace_space (strip ty)) = None ->
  scan_data net base inst cc count dn w = (Ret (S count), w3) /\
  dict_get (devices (self w3)) id = Some entry /\
  for_in (dn :: rest) (scan_data net base inst cc) count w
  = for_in rest (scan_data net base inst cc) (S count) w3.
Proof.
  intros id entry w3 Hdigit Hty Hdec.
  assert (Hrun : scan_data net base inst cc count dn w = (Ret (S count), w3)).
  { subst id entry w3. unfold new_device_id, new_data_dict in *.
    unfold scan_data. rewrite Hdigit. cbv zeta.
    unfold bind, get_self, put_self. cbv beta iota.
    rewrite Hty. cbv beta iota. rewrite Hdec. reflexivity. }
  split; [exact Hrun|]. split.
  - pose proof (@keeps_same_object _ (device_type net id)
                  (set_self w (with_devices (self w)
                                 (dict_set (devices (self w)) id entry)))) as K.
    rewrite Hty in K. cbn [snd] in K.
    unfold w3. cbn [printing self]. rewrite K.
    + cbn [set_self self with_devices devices]. apply dict_get_set_same.
    + apply keeps_device_type; frame_tac.
  - cbn [for_in]. unfold bind at 1. rewrite Hrun. reflexivity.
Qed.

(** C2 as stated fails: the channel whose sensor type is not UTF-8 is
    in the registry after the scan, without a name. *)
Lemma undecodable_entry_not_skipped :
  fst scan_undecodable
  = Ret [(txt "48.0", Build_device (data_49 "1") None);
         (txt "48.1", Build_device (data_49 "2") (Some (txt "48_Power")))] /\
  dict_get (devices (self (snd scan_undecodable))) (txt "48.0")
  = Some (Build_device (data_49 "1") None).
Proof. split; vm_compute; reflexivity. Qed.

Lemma undecodable_name_keeps_entry_witness :
  fst (scan_data (interp:=ascii_interp) (always not_utf8)
                 (txt "48") (txt "0") (txt "49") 0 (txt "1") (constructed []))
  = Ret 1%nat /\
  dict_get
    (devices (self (snd (scan_data (interp:=ascii_interp) (always not_utf8)
                           (txt "48") (txt "0") (txt "49") 0 (txt "1")
                           (constructed [])))))
    (txt "48.0")
  = Some (Build_device (data_49 "1") None).
Proof.
  pose (w1 := set_self (constructed [])
                (with_devices (self (constructed []))
                   (dict_set (devices (self (constructed [])))
                      (new_device_id (txt "48") 0)
                      (Build_device (new_data_dict (txt "0") (txt "49") (txt "1"))
                                    None)))).
  assert (Hty : device_type (always not_utf8) (new_device_id (txt "48") 0) w1
                = (Ret not_utf8,
                   snd (device_type (always not_utf8)
                                    (new_device_id (txt "48") 0) w1)))
    by (vm_compute; reflexivity).
  destruct (@undecodable_name_keeps_entry ascii_interp (always not_utf8)
              (txt "48") (txt "0") (txt "49") 0%nat (txt "1") [txt "2"]
              (constructed []) not_utf8 _ eq_refl Hty eq_refl)
    as (Hrun & Hget & _).
  rewrite Hrun. split; [reflexivity|]. exact Hget.
Defined.

(* ================================================================== *)
(** * The registry written as JSON and read back                       *)
(* ================================================================== *)






Lemma dumps_obj (fs : list (text * jsonval)) :
  dumps (JObj fs) = "{"%char :: members_text fs ++ ["}"%char].
Proof.
  reflexivity.
Qed.






Lemma height_members (fs : list (text * jsonval)) (n : nat) :
  (height (JObj fs) <= S n)%nat ->
  Forall (fun kv => (height (snd kv) <= n)%nat) fs.
Proof.
  cbn [height]. intros H. apply le_S_n in H.
  induction fs as [| [k v] fs IH]; [constructor|].
  cbn [fold_right snd] in H. constructor; [cbn [snd]; lia | apply IH; lia].
Qed.




Lemma data_of_json_of_data (d : data_dict) :
  data_of_json (json_of_data d) = Some d.
Proof. destruct d. reflexivity. Qed.




(* ================================================================== *)
(** * Lookups                                                          *)
(* ================================================================== *)

(** X2.  [get_data], [battery_level] and [device_name] on an id that is not
    in the registry raise [KeyError] for that id; no request is sent and
    nothing changes. *)
Theorem unknown_device_key_error (interp : Interp) (net : network)
        (device_id : text) (w : world) :
  dict_get (devices (self w)) device_id = None ->
  get_data net device_id w = (Raise (KeyError device_id), w) /\
  battery_level net device_id w = (Raise (KeyError device_id), w) /\
  device_name device_id w = (Raise (KeyError device_id), w).
Proof.
  intros H.
  unfold get_data, battery_level, device_name, lookup_device, bind, get_self,
    or_raise.
  rewrite H. repeat split.
Qed.

Lemma unknown_device_key_error_witness :
  get_data (always "true") (txt "7.0") one_device
  = (Raise (KeyError (txt "7.0")), one_device).
Proof.
  apply (proj1 (@unknown_device_key_error ascii_interp (always "true")
                  (txt "7.0") one_device eq_refl)).
Defined.

(** X3.  [device_name] sends no request.  On a registered id it returns the
    stored name, and raises [KeyError] for ['name'] when the scan left
    the entry without one. *)
Theorem device_name_of_entry (device_id : text) (d : device) (w : world) :
  dict_get (devices (self w)) device_id = Some d ->
  device_name device_id w
  = (match name d with
     | Some n => Ret n
     | None => Raise (KeyError (txt "name"))
     end, w).
Proof.
  intros H. unfold device_name, lookup_device, bind, get_self, or_raise.
  rewrite H. unfold ret, raise. destruct (name d); reflexivity.
Qed.

Lemma device_name_of_entry_witness :
  device_name (txt "48.0") (snd scan_undecodable)
  = (Raise (KeyError (txt "name")), snd scan_undecodable)
  /\ device_name (txt "48.1") (snd scan_undecodable)
     = (Ret (txt "48_Power"), snd scan_undecodable).
Proof.
  split.
  - apply (@device_name_of_entry (txt "48.0")
             (Build_device (data_49 "1") None) (snd scan_undecodable)).
    vm_compute. reflexivity.
  - apply (@device_name_of_entry (txt "48.1")
             (Build_device (data_49 "2") (Some (txt "48_Power")))
             (snd scan_undecodable)).
    vm_compute. reflexivity.
Defined.

(** The first attempt of [_make_request] that is answered ends the
    call: the page is returned after that one request. *)
Lemma make_request_answered (net : network) (command : text) (p : response)
      (w : world) :
  answers net w command p ->
  _make_request net command w
  = (Ret (Some p), sending w (get_request (self w) command)).
Proof.
  intros H. unfold answers in H. unfold _make_request, num_attempts.
  cbn [seq]. rewrite request_loop_step. cbv zeta. rewrite H. reflexivity.
Qed.

(** The requests of one call of [_make_request]: the same GET, between
    one and ten times. *)
Lemma make_request_sent (net : network) (command : text) (w : world) :
  exists k, (1 <= k <= 10)%nat /\
    sent (snd (_make_request net command w))
    = sent w ++ repeat (get_request (self w) command) k /\
    self (snd (_make_request net command w)) = self w /\
    fst (_make_request net command w) <> Ret None.
Proof.
  destruct (@request_loop_bound net command 9%nat 0%nat w eq_refl)
    as (Hs & Hr & k & Hk & Hsent).
  exists k. unfold _make_request, num_attempts. auto.
Qed.

(** X4.  [device_type] converts the id to a number before it looks it up: an
    id that is no numeral raises [ValueError] even when it is a key of
    the registry, a numeral that is not a key raises [KeyError]; in both
    cases no request is sent.  For a registered id whose integer part is
    [n], the request is for the sensor type string of device [n] at the
    stored coordinates, and the body of the response is returned as it
    is. *)
Theorem device_type_behaviour (net : network) (device_id : text) (w : world) :
  (float_of_text device_id = None ->
   device_type net device_id w = (Raise ValueError, w)) /\
  (forall x n, float_of_text device_id = Some x -> int_of_float x = Ret n ->
     dict_get (devices (self w)) device_id = None ->
     device_type net device_id w = (Raise (KeyError device_id), w)) /\
  (forall x n d p, float_of_text device_id = Some x -> int_of_float x = Ret n ->
     dict_get (devices (self w)) device_id = Some d ->
     answers net w (sensor_type_command n (data d)) p ->
     device_type net device_id w
     = (Ret (content p),
        sending w (get_request (self w) (sensor_type_command n (data d))))).
Proof.
  split; [|split].
  - intros Hx. unfold device_type, device_number, bind, or_raise.
    rewrite Hx. reflexivity.
  - intros x n Hx Hn Hd.
    unfold device_type, device_number, lookup_device, bind, or_raise, lift,
      get_self, ret, raise.
    rewrite Hx. cbv beta iota. rewrite Hn. cbv beta iota. rewrite Hd.
    reflexivity.
  - intros x n d p Hx Hn Hd Ha.
    pose proof (make_request_answered Ha) as Hreq.
    unfold sensor_type_command in Hreq.
    unfold device_type, device_number, lookup_device, bind, or_raise, lift,
      get_self, ret, raise.
    rewrite Hx. cbv beta iota. rewrite Hn. cbv beta iota. rewrite Hd.
    cbv beta iota. rewrite Hreq. reflexivity.
Qed.

Lemma device_type_behaviour_witness :
  device_type (always "Power") (txt "kitchen")
              (constructed [(txt "kitchen", meter_49)])
  = (Raise ValueError, constructed [(txt "kitchen", meter_49)])
  /\ device_type (always "Power") (txt "7.0") one_device
     = (Raise (KeyError (txt "7.0")), one_device)
  /\ fst (device_type (always " Power ") (txt "48.7")
                      (constructed [(txt "48.7", meter_49)]))
     = Ret " Power ".
Proof.
  split; [|split].
  - apply (proj1 (device_type_behaviour (always "Power") (txt "kitchen")
                    (constructed [(txt "kitchen", meter_49)]))).
    reflexivity.
  - refine (proj1 (proj2 (device_type_behaviour (always "Power") (txt "7.0")
                            one_device)) _ 7 _ _ _); reflexivity.
  - rewrite (proj2 (proj2 (device_type_behaviour (always " Power ") (txt "48.7")
                             (constructed [(txt "48.7", meter_49)])))
               _ 48 meter_49 (page_of " Power ") eq_refl eq_refl eq_refl eq_refl).
    reflexivity.
Defined.

(** X5.  [battery_level] names the device in its request by the id as it was
    given, sequence suffix included, and always asks for instance 0;
    when the request is answered, the result is the body read as an
    integer, or [ValueError] when the body is no integer. *)
Theorem battery_level_behaviour (interp : Interp) (net : network)
        (device_id : text) (d : device) (p : response) (w : world) :
  dict_get (devices (self w)) device_id = Some d ->
  answers net w (battery_command device_id) p ->
  battery_level net device_id w
  = (match int_of_str (content p) with
     | Some n => Ret n
     | None => Raise ValueError
     end,
     sending w (get_request (self w) (battery_command device_id))).
Proof.
  intros Hd Ha. pose proof (make_request_answered Ha) as Hreq.
  unfold battery_command in Hreq.
  unfold battery_level, lookup_device, bind, get_self, or_raise, ret, raise.
  rewrite Hd. cbv beta iota. rewrite Hreq. cbn [page_content].
  unfold ret. destruct (int_of_str (content p)); reflexivity.
Qed.

Lemma battery_level_behaviour_witness :
  fst (battery_level (interp:=ascii_interp) (always "87") (txt "48.0") one_device)
  = Ret 87
  /\ fst (battery_level (interp:=ascii_interp) (always "null") (txt "48.0")
                        one_device)
     = Raise ValueError.
Proof.
  split.
  - rewrite (@battery_level_behaviour ascii_interp (always "87") (txt "48.0")
               switch_48 (page_of "87") one_device eq_refl eq_refl).
    reflexivity.
  - rewrite (@battery_level_behaviour ascii_interp (always "null") (txt "48.0")
               switch_48 (page_of "null") one_device eq_refl eq_refl).
    reflexivity.
Defined.

(** X6.  [software_version] prepends the base URL to [Data] and passes the
    result to [_make_request], which prepends the base URL again: every
    request of the call goes to the base URL written twice, followed by
    [Data].  When the first attempt is answered with the [Data]
    document, the software revision in it is returned. *)
Theorem software_version_requests (net : network) (w : world) :
  let req := GET (base_url (self w) ++ base_url (self w) ++ txt "Data")
                 (timeout (self w)) (cookie (self w)) in
  (exists k, (1 <= k <= 10)%nat /\
     sent (snd (software_version net w)) = sent w ++ repeat req k) /\
  (forall p v,
     net (List.length (sent w)) req = Responds p ->
     json p = Some (DataDoc v) ->
     software_version net w = (Ret v, sending w req)).
Proof.
  intros req.
  assert (Hreq : req = get_request (self w) (base_url (self w) ++ txt "Data"))
    by reflexivity.
  split.
  - destruct (make_request_sent net (base_url (self w) ++ txt "Data") w)
      as (k & Hk & Hsent & _ & _).
    exists k. split; [exact Hk|]. rewrite Hreq, <- Hsent.
    unfold software_version, bind, get_self.
    destruct (_make_request net (base_url (self w) ++ txt "Data") w)
      as [[[p |] | e] w1]; cbn [snd page_json]; try reflexivity.
    unfold or_raise. destruct (json p) as [[tree | v] |]; reflexivity.
  - intros p v Hp Hj. rewrite Hreq in *.
    unfold software_version, bind, get_self.
    rewrite (@make_request_answered net _ p w Hp). cbn [page_json].
    unfold or_raise. rewrite Hj. reflexivity.
Qed.

Lemma software_version_requests_witness :
  software_version (fun _ _ => Responds (json_page (DataDoc (txt "v2.3.0"))))
                   (constructed [])
  = (Ret (txt "v2.3.0"),
     sending (constructed [])
             (GET (txt "http://localhost:8083/ZWaveAPI/"
                       ++ txt "http://localhost:8083/ZWaveAPI/" ++ txt "Data")
                  (float_of_Z 5) None)).
Proof.
  apply (proj2 (software_version_requests
                  (fun _ _ => Responds (json_page (DataDoc (txt "v2.3.0"))))
                  (constructed []))
               (json_page (DataDoc (txt "v2.3.0"))) (txt "v2.3.0"));
    reflexivity.
Defined.

(** X7.  [get_data] on a registered device first asks the server to refresh
    the value and then reads it: its requests are between one and ten
    GETs of the refresh command followed by at most ten GETs of the
    value command.  When the refresh request ends in an exception,
    [get_data] raises that exception and the value is never requested. *)
Theorem get_data_requests (net : network) (device_id : text) (d : device)
        (x : float) (n : Z) (w : world) :
  dict_get (devices (self w)) device_id = Some d ->
  float_of_text device_id = Some x ->
  int_of_float x = Ret n ->
  let r1 := get_request (self w) (refresh_command n (data d)) in
  let r2 := get_request (self w) (value_command n (data d)) in
  exists k1 k2,
    (1 <= k1 <= 10)%nat /\ (k2 <= 10)%nat /\
    sent (snd (get_data net device_id w))
    = sent w ++ repeat r1 k1 ++ repeat r2 k2 /\
    (forall e, fst (_make_request net (refresh_command n (data d)) w) = Raise e ->
       k2 = 0%nat /\ fst (get_data net device_id w) = Raise e).
Proof.
  intros Hd Hx Hn r1 r2.
  destruct (make_request_sent net (refresh_command n (data d)) w)
    as (k1 & Hk1 & Hsent1 & Hself1 & _).
  assert (Hrun : get_data net device_id w
                 = bind (_make_request net (refresh_command n (data d)))
                        (fun _ =>
                           bind (_make_request net (value_command n (data d)))
                                (fun page =>
                                   bind (page_content page)
                                        (fun body =>
                                           lift (float_of_value
                                                   (if text_eqb (type (data d)) (txt "bool")
                                                    then PyInt (if String.eqb body "true"
                                                                then 1 else 0)
                                                    else PyStr body))))) w).
  { unfold get_data, lookup_device, device_number, refresh_command,
      value_command.
    unfold bind at 1. unfold bind at 1. unfold get_self, or_raise, ret.
    cbv beta iota. rewrite Hd. cbv beta iota zeta.
    unfold bind at 1. unfold bind at 1. rewrite Hx. cbv beta iota.
    unfold lift at 1. rewrite Hn. reflexivity. }
  rewrite Hrun. unfold bind at 1.
  destruct (_make_request net (refresh_command n (data d)) w)
    as [[p1 | e1] w1] eqn:E1; cbn [fst snd] in *.
  - destruct (make_request_sent net (value_command n (data d)) w1)
      as (k2 & Hk2 & Hsent2 & Hself2 & _).
    exists k1, k2. split; [exact Hk1|]. split; [lia|]. split.
    + assert (Hw : sent (snd (bind (_make_request net (value_command n (data d)))
                       (fun page =>
                          bind (page_content page)
                               (fun body =>
                                  lift (float_of_value
                                          (if text_eqb (type (data d)) (txt "bool")
                                           then PyInt (if String.eqb body "true"
                                                       then 1 else 0)
                                           else PyStr body)))) w1))
                   = sent (snd (_make_request net (value_command n (data d)) w1))).
      { unfold bind.
        destruct (_make_request net (value_command n (data d)) w1)
          as [[[p2 |] | e2] w2]; cbn [snd page_content]; reflexivity. }
      rewrite Hw, Hsent2, Hsent1, Hself1, <- app_assoc. reflexivity.
    + intros e He. discriminate.
  - exists k1, 0%nat. split; [exact Hk1|]. split; [lia|]. split.
    + rewrite Hsent1. cbn [repeat]. rewrite app_nil_r. reflexivity.
    + intros e He. injection He as ->. split; [reflexivity|].
      unfold bind at 1. rewrite E1. reflexivity.
Qed.

Lemma get_data_requests_witness :
  exists k1 k2,
    (1 <= k1 <= 10)%nat /\ (k2 <= 10)%nat /\
    sent (snd (get_data (fun _ _ => Fails ReadTimeout) (txt "48.0") one_device))
    = repeat (get_request (self one_device) (refresh_command 48 (data switch_48))) k1
      ++ repeat (get_request (self one_device) (value_command 48 (data switch_48))) k2
    /\ k2 = 0%nat.
Proof.
  destruct (@get_data_requests (fun _ _ => Fails ReadTimeout) (txt "48.0")
              switch_48 _ 48 one_device eq_refl eq_refl eq_refl)
    as (k1 & k2 & H1 & H2 & Hsent & Hfail).
  exists k1, k2. split; [exact H1|]. split; [exact H2|]. split; [exact Hsent|].
  apply (Hfail (Exception "server Timeout")). reflexivity.
Defined.

(* ================================================================== *)
(** * The constructor                                                  *)
(* ================================================================== *)

(** [__init__], step by step: the configuration, the login, the check
    of the connection, and then the scan or the given registry. *)
Lemma init_steps (interp : Interp) (net : network) (host : text) (port : Z)
      (device_dict : registry) (username password : strobj) (w : world) :
  __init__ net host port device_dict username password w
  = match generate_session net host port username password
                           (configured host port w) with
    | (Raise e, w1) => (Raise (startup_error e), w1)
    | (Ret _, w1) =>
        match _make_request net (txt "Data") w1 with
        | (Raise e, w2) => (Raise (startup_error e), w2)
        | (Ret None, w2) => (Raise (startup_error AttributeError), w2)
        | (Ret (Some p), w2) =>
            match json p with
            | None => (Raise (startup_error ValueError), w2)
            | Some _ =>
                match device_dict with
                | [] => (update_devices net ;; ret tt) w2
                | _ :: _ =>
                    (Ret tt, set_self w2 (with_devices (self w2) device_dict))
                end
            end
        end
    end.
Proof.
  unfold __init__.
  unfold bind at 1. unfold get_self at 1. cbv beta iota.
  unfold bind at 1. unfold put_self at 1. cbv beta iota.
  unfold bind at 1. unfold get_self at 1. cbv beta iota.
  unfold bind at 1. unfold put_self at 1. cbv beta iota.
  change (set_self (set_self w (with_timeout (self w) (float_of_Z 5))) _)
    with (configured host port w).
  unfold bind at 1. unfold try_except. unfold bind at 1.
  destruct (generate_session net host port username password
                             (configured host port w)) as [[[] | e] w1].
  - unfold bind at 1.
    destruct (_make_request net (txt "Data") w1) as [[[p |] | e] w2].
    + cbn [page_json]. unfold bind at 1. unfold or_raise.
      destruct (json p) as [doc |].
      * unfold ret at 1. cbv beta iota. unfold ret at 1. cbv beta iota.
        destruct device_dict as [| d0 dd]; reflexivity.
      * reflexivity.
    + reflexivity.
    + unfold startup_error.
      destruct (is_ConnectionError e); [|destruct (is_ValueError e)];
        reflexivity.
  - unfold startup_error.
    destruct (is_ConnectionError e); [|destruct (is_ValueError e)];
      reflexivity.
Qed.

Lemma generate_session_login (net : network) (host : text) (port : Z)
      (username password : strobj) (w : world) :
  username <> empty_str_literal \/ password <> empty_str_literal ->
  generate_session net host port username password w
  = match net (List.length (sent w))
              (login_request host port (chars_of username)
                             (chars_of password)) with
    | Responds r =>
        (Ret tt,
         set_self (sending w (login_request host port (chars_of username)
                                            (chars_of password)))
                  (with_cookie (self w) (Some (cookies r))))
    | Fails e =>
        (Raise e, sending w (login_request host port (chars_of username)
                                           (chars_of password)))
    end.
Proof.
  intros Hne.
  destruct username as [| u]; [destruct password as [| p]|];
    [destruct Hne; congruence | |];
    unfold generate_session, login_request, bind, http, get_self, put_self;
    cbn [is_empty_literal andb];
    destruct (net _ _); reflexivity.
Qed.

Lemma in_session_refl c w : in_session c w w.
Proof.
  intros Hc. split; [exact Hc|]. exists []. rewrite app_nil_r.
  split; [reflexivity | constructor].
Qed.

Lemma in_session_trans c w1 w2 w3 :
  in_session c w1 w2 -> in_session c w2 w3 -> in_session c w1 w3.
Proof.
  intros H12 H23 Hc.
  destruct (H12 Hc) as (Hc2 & l & Hl & Hf).
  destruct (H23 Hc2) as (Hc3 & l' & Hl' & Hf').
  split; [exact Hc3|]. exists (l ++ l'). split.
  - rewrite Hl', Hl, app_assoc. reflexivity.
  - apply Forall_app. split; assumption.
Qed.

Lemma in_session_get c w cmd :
  in_session c w (sending w (get_request (self w) cmd)).
Proof.
  intros Hc. split; [exact Hc|].
  exists [get_request (self w) cmd]. split; [reflexivity|].
  constructor; [|constructor].
  unfold get_request. rewrite Hc. eexists; eexists; reflexivity.
Qed.

Lemma in_session_same c w w' :
  cookie (self w') = cookie (self w) -> sent w' = sent w ->
  in_session c w w'.
Proof.
  intros Hc Hs Hn. split; [congruence|]. exists []. rewrite app_nil_r.
  split; [exact Hs | constructor].
Qed.

Lemma in_session_print c w l : in_session c w (printing w l).
Proof. apply in_session_same; reflexivity. Qed.

Lemma in_session_devices c w d :
  in_session c w (set_self w (with_devices (self w) d)).
Proof. apply in_session_same; reflexivity. Qed.

Lemma set_timeout_in_session c v w : in_session c w (snd (set_timeout v w)).
Proof.
  apply in_session_same; unfold set_timeout, bind, lift;
    destruct (float_of_value v); reflexivity.
Qed.

Ltac session_tac :=
  first [ exact (@in_session_refl _) | exact (@in_session_trans _)
        | exact (@in_session_get _) | exact (@in_session_print _)
        | exact (@in_session_devices _) ].

Lemma run_call_in_session (interp : Interp) (net : network) c call0 w :
  in_session c w (run_call net call0 w).
Proof.
  destruct call0; cbn [run_call];
    [ apply set_timeout_in_session
    | apply (@keeps_rel _ (in_session c)); [| apply in_session_refl] .. ].
  - apply keeps_update_devices; session_tac.
  - apply keeps_device_IDs; session_tac.
  - apply keeps_software_version; session_tac.
  - apply keeps_battery_level; session_tac.
  - apply keeps_get_data; session_tac.
  - apply keeps_device_type; session_tac.
  - apply keeps_device_name; session_tac.
  - apply keeps_save_devices_to_file; session_tac.
  - apply keeps_make_request; session_tac.
Qed.

Lemma run_calls_in_session (interp : Interp) (net : network) c cs :
  forall w, in_session c w (run_calls net cs w).
Proof.
  induction cs as [| call0 cs IH]; intros w.
  - apply in_session_refl.
  - cbn [run_calls fold_left]. eapply in_session_trans.
    + apply (@run_call_in_session interp net c call0 w).
    + apply IH.
Qed.

(** What follows the login in [__init__] keeps the session. *)
Lemma init_in_session (interp : Interp) (net : network) (host : text)
      (port : Z) (device_dict : registry) (username password : strobj)
      (w w1 : world) c :
  generate_session net host port username password (configured host port w)
  = (Ret tt, w1) ->
  in_session c w1
    (snd (__init__ net host port device_dict username password w)).
Proof.
  intros Hg. rewrite init_steps, Hg.
  pose proof (@keeps_rel _ (in_session c) (_make_request net (txt "Data")) w1) as K.
  destruct (_make_request net (txt "Data") w1) as [[[p |] | e] w2];
    cbn [snd] in *;
    assert (H12 : in_session c w1 w2)
      by (apply K; [apply keeps_make_request; session_tac
                   | apply in_session_refl]);
    try exact H12.
  destruct (json p) as [doc |]; [|exact H12].
  destruct device_dict as [| d0 dd]; cbn [snd].
  - eapply in_session_trans; [exact H12|].
    pose proof (@keeps_rel _ (in_session c) (update_devices net ;; ret tt) w2) as K2.
    apply K2; [|apply in_session_refl].
    apply keeps_seq.
    + apply keeps_update_devices; session_tac.
    + intros r. apply keeps_ret.
  - eapply in_session_trans; [exact H12 | apply in_session_devices].
Qed.

(** X8.  With a username or a password, that is, unless both are the
    object of the empty string literal, the constructor sends one login
    request, before anything else and without retrying; when it is
    answered, the cookies of the response become the cookie of the
    object, and every request sent afterwards, by the constructor and by
    any later method calls, is a GET request that carries those
    cookies. *)
Theorem login_session (interp : Interp) (net : network) (host : text)
        (port : Z) (device_dict : registry) (username password : strobj)
        (cs : list call) (w : world) (r : response) :
  username <> empty_str_literal \/ password <> empty_str_literal ->
  net (List.length (sent w))
      (login_request host port (chars_of username) (chars_of password))
  = Responds r ->
  let w1 := snd (__init__ net host port device_dict username password w) in
  let w2 := run_calls net cs w1 in
  cookie (self w1) = Some (cookies r) /\
  cookie (self w2) = Some (cookies r) /\
  exists l,
    sent w2 = sent w ++ login_request host port (chars_of username)
                                      (chars_of password) :: l /\
    Forall (carries (Some (cookies r))) l.
Proof.
  intros Hne Hr w1 w2.
  pose proof (@generate_session_login net host port username password
                (configured host port w) Hne) as Hg.
  cbn [configured set_self sent] in Hg. rewrite Hr in Hg.
  pose proof (@init_in_session interp net host port device_dict username
                password w _ (Some (cookies r)) Hg eq_refl)
    as (Hc1 & l1 & Hl1 & Hf1).
  fold w1 in Hc1, Hl1.
  destruct (@run_calls_in_session interp net (Some (cookies r)) cs w1 Hc1)
    as (Hc2 & l2 & Hl2 & Hf2).
  fold w2 in Hc2, Hl2.
  split; [exact Hc1|]. split; [exact Hc2|].
  exists (l1 ++ l2). split.
  - rewrite Hl2, Hl1. cbn [set_self sending sent].
    rewrite <- !app_assoc. reflexivity.
  - apply Forall_app. split; assumption.
Qed.

Lemma login_session_witness :
  cookie (self (run_calls (interp:=ascii_interp) login_server
                          [call_software_version; call_get_data (txt "48.0")]
                          (snd (__init__ (interp:=ascii_interp) login_server
                                         (txt "localhost") 8083
                                         [(txt "48.0", switch_48)]
                                         (string_object (txt "admin"))
                                         (string_object (txt "secret"))
                                         new_object))))
  = Some session_cookie.
Proof.
  refine (proj1 (proj2 (@login_session ascii_interp login_server
            (txt "localhost") 8083 [(txt "48.0", switch_48)]
            (string_object (txt "admin")) (string_object (txt "secret"))
            [call_software_version; call_get_data (txt "48.0")]
            new_object (Build_response EmptyString None session_cookie) _ _))).
  - left. discriminate.
  - reflexivity.
Defined.

(** Ten attempts that all fail with a retried error end in the terminal
    error of the last one. *)
Lemma make_request_exhausted (net : network) (command : text) (w : world) :
  (forall i, (i < 10)%nat ->
     exists e, net (List.length (sent w) + i)%nat
                   (get_request (self w) command) = Fails e
               /\ retried e = true) ->
  exists e w',
    net (List.length (sent w) + 9)%nat (get_request (self w) command) = Fails e
    /\ _make_request net command w = (Raise (terminal_error e), w')
    /\ self w' = self w
    /\ sent w' = sent w ++ repeat (get_request (self w) command) 10.
Proof.
  intros Hfail.
  destruct (@request_loop_retry net command 9%nat 0%nat w ltac:(lia))
    as (w1 & Heq & Hs1 & Hsent1).
  { intros i Hi. apply Hfail. lia. }
  destruct (Hfail 9%nat ltac:(lia)) as (e & He & Hre).
  exists e.
  unfold _make_request, num_attempts.
  change (seq 0 10) with (seq 0 (10 - 0)). rewrite Heq.
  change (seq (0 + 9) (10 - (0 + 9))) with [9%nat].
  rewrite request_loop_step. cbv zeta.
  rewrite Hs1, Hsent1, length_app, repeat_length, He.
  assert (Hlast : forall w2, sent w2 = sent w1 ++ [get_request (self w) command] ->
            sent w2 = sent w ++ repeat (get_request (self w) command) 10).
  { intros w2 H2. rewrite H2, Hsent1, <- app_assoc. reflexivity. }
  unfold retried in Hre. unfold terminal_error. cbn [Nat.eqb].
  destruct (is_ConnectionError e).
  - eexists. split; [reflexivity|]. split; [reflexivity|].
    split; [exact Hs1 | apply Hlast; reflexivity].
  - cbn in Hre. rewrite Hre.
    eexists. split; [reflexivity|]. split; [reflexivity|].
    split; [exact Hs1 | apply Hlast; reflexivity].
Qed.

(** X9.  How the constructor fails.  A login request that fails is not
    retried: the constructor raises at once, with the message
    [destination host unreachable] when the failure is a connection
    error.  Without credentials, that is, with the object of the empty
    string literal for the user name and for the password as by
    default, a host that fails all ten attempts at
    [Data] with connection errors or timeouts is reported with the
    generic message, not as unreachable, because [_make_request] has
    replaced the error by a plain exception; and a [Data] page that is
    not JSON is reported as [authentication required].  Nothing else is
    requested in these cases. *)
Theorem init_failure_modes (interp : Interp) (net : network) (host : text)
        (port : Z) (device_dict : registry) (username password : strobj)
        (w : world) :
  let n := List.length (sent w) in
  let login :=
    login_request host port (chars_of username) (chars_of password) in
  (forall e,
     username <> empty_str_literal \/ password <> empty_str_literal ->
     net n login = Fails e ->
     let run := __init__ net host port device_dict username password w in
     sent (snd run) = sent w ++ [login] /\
     fst run = Raise (startup_error e) /\
     (is_ConnectionError e = true ->
      fst run
      = Raise (RuntimeError
          "Connection could not be established: destination host unreachable")))
  /\
  (let run := __init__ net host port device_dict
                       empty_str_literal empty_str_literal w in
   (forall i, (i < 10)%nat ->
      exists e, net (n + i)%nat (data_request host port) = Fails e
                /\ retried e = true) ->
   fst run = Raise (RuntimeError "Connection could not be established") /\
   sent (snd run) = sent w ++ repeat (data_request host port) 10)
  /\
  (forall p,
     let run := __init__ net host port device_dict
                         empty_str_literal empty_str_literal w in
     net n (data_request host port) = Responds p ->
     json p = None ->
     fst run
     = Raise (RuntimeError
         "Connection could not be established: authentication required") /\
     sent (snd run) = sent w ++ [data_request host port]).
Proof.
  intros n login. split; [|split].
  - intros e Hne He run. unfold run. rewrite init_steps.
    rewrite (@generate_session_login net host port username password
               (configured host port w) Hne).
    cbn [configured set_self sent]. fold n login. rewrite He.
    cbn [fst snd sending sent].
    split; [reflexivity|]. split; [reflexivity|].
    intros Hc. unfold startup_error. rewrite Hc. reflexivity.
  - intros run Hfail. unfold run. rewrite init_steps.
    pose (w1 := set_self (configured host port w)
                  (with_cookie (self (configured host port w)) None)).
    change (generate_session net host port empty_str_literal
            empty_str_literal (configured host port w))
      with (@Ret unit tt, w1).
    cbv iota.
    destruct (@make_request_exhausted net (txt "Data") w1) as (e & w' & _ & Hrun & _ & Hsent).
    { intros i Hi. exact (Hfail i Hi). }
    rewrite Hrun. cbn [fst snd]. split.
    + unfold terminal_error, startup_error.
      destruct (is_ConnectionError e); reflexivity.
    + exact Hsent.
  - intros p run Hp Hj. unfold run. rewrite init_steps.
    pose (w1 := set_self (configured host port w)
                  (with_cookie (self (configured host port w)) None)).
    change (generate_session net host port empty_str_literal
            empty_str_literal (configured host port w))
      with (@Ret unit tt, w1).
    cbv iota.
    rewrite (@make_request_answered net (txt "Data") p w1) by exact Hp.
    rewrite Hj. cbn [fst snd]. split; reflexivity.
Qed.

Lemma init_failure_modes_witness :
  fst (__init__ (interp:=ascii_interp) unreachable (txt "localhost") 8083 []
                (string_object (txt "admin")) (string_object (txt "secret"))
                new_object)
  = Raise (RuntimeError
      "Connection could not be established: destination host unreachable")
  /\
  fst (__init__ (interp:=ascii_interp) unreachable (txt "localhost") 8083 []
                empty_str_literal empty_str_literal new_object)
  = Raise (RuntimeError "Connection could not be established")
  /\
  fst (__init__ (interp:=ascii_interp) (always "<html>") (txt "localhost") 8083 []
                empty_str_literal empty_str_literal new_object)
  = Raise (RuntimeError
      "Connection could not be established: authentication required").
Proof.
  split; [|split].
  - refine (proj2 (proj2 (proj1 (@init_failure_modes ascii_interp unreachable
              (txt "localhost") 8083 []
              (string_object (txt "admin")) (string_object (txt "secret"))
              new_object) ConnectionError _ _)) _).
    + left. discriminate.
    + reflexivity.
    + reflexivity.
  - refine (proj1 (proj1 (proj2 (@init_failure_modes ascii_interp unreachable
              (txt "localhost") 8083 [] empty_str_literal empty_str_literal
              new_object)) _)).
    intros i Hi. exists ConnectionError. split; reflexivity.
  - refine (proj1 (proj2 (proj2 (@init_failure_modes ascii_interp
              (always "<html>") (txt "localhost") 8083 []
              empty_str_literal empty_str_literal
              new_object)) (page_of "<html>") _ _)).
    + reflexivity.
    + reflexivity.
Defined.

(** The constructor without credentials, once the [Data] page has been
    answered with JSON: what is left is the choice between the scan and
    the given registry. *)
Lemma init_checked (interp : Interp) (net : network) (host : text) (port : Z)
      (device_dict : registry) (w : world) (p : response) (doc : document) :
  net (List.length (sent w)) (data_request host port) = Responds p ->
  json p = Some doc ->
  __init__ net host port device_dict empty_str_literal empty_str_literal w
  = match device_dict with
    | [] => (update_devices net ;; ret tt) (checked host port w)
    | _ :: _ =>
        (Ret tt, set_self (checked host port w)
                          (with_devices (self (checked host port w)) device_dict))
    end.
Proof.
  intros Hp Hj. rewrite init_steps.
  pose (w1 := set_self (configured host port w)
                (with_cookie (self (configured host port w)) None)).
  change (generate_session net host port empty_str_literal
            empty_str_literal (configured host port w))
    with (@Ret unit tt, w1).
  cbv iota.
  rewrite (@make_request_answered net (txt "Data") p w1) by exact Hp.
  rewrite Hj. reflexivity.
Qed.

(** X10.  A constructor without credentials (the object of the empty
    string literal for the user name and for the password, as by
    default) whose [Data] request is
    answered with JSON sends nothing else when it is given a registry
    that is not empty: the object gets that registry, the timeout 5.0,
    the base URL of the host and the port, and no cookie.  Given the
    empty registry the constructor scans; an exception of the scan
    reaches the caller as it is, not as a [RuntimeError], and the scan's
    registry is the registry of the object. *)
Theorem init_registry (interp : Interp) (net : network) (host : text)
        (port : Z) (device_dict : registry) (w : world) (p : response)
        (doc : document) :
  net (List.length (sent w)) (data_request host port) = Responds p ->
  json p = Some doc ->
  (device_dict <> [] ->
   __init__ net host port device_dict empty_str_literal empty_str_literal w
   = (Ret tt,
      Build_world
        (Build_Server (float_of_Z 5)
           (txt "http://" ++ host ++ txt ":" ++ dec port ++ txt "/ZWaveAPI/")
           None device_dict)
        (sent w ++ [data_request host port]) (stdout w)))
  /\
  (forall e w',
     update_devices net (checked host port w) = (Raise e, w') ->
     __init__ net host port [] empty_str_literal empty_str_literal w
     = (Raise e, w'))
  /\
  (forall r w',
     update_devices net (checked host port w) = (Ret r, w') ->
     __init__ net host port [] empty_str_literal empty_str_literal w
     = (Ret tt, w')
     /\ devices (self w') = r).
Proof.
  intros Hp Hj. split; [|split].
  - intros Hne. rewrite (init_checked interp net host port device_dict w Hp Hj).
    destruct device_dict as [| d0 dd]; [congruence | reflexivity].
  - intros e w' Hu. rewrite (init_checked interp net host port [] w Hp Hj).
    unfold bind. rewrite Hu. reflexivity.
  - intros r w' Hu. rewrite (init_checked interp net host port [] w Hp Hj).
    unfold bind. rewrite Hu. split; [reflexivity|].
    destruct (update_devices_returns net _ Hu) as (Hr & _). symmetry. exact Hr.
Qed.

Lemma init_registry_witness :
  __init__ (interp:=ascii_interp) login_server (txt "localhost") 8083
           [(txt "48.0", switch_48)] empty_str_literal empty_str_literal
           new_object
  = (Ret tt,
     Build_world
       (Build_Server (float_of_Z 5)
          (txt "http://" ++ txt "localhost" ++ txt ":" ++ dec 8083
               ++ txt "/ZWaveAPI/")
          None [(txt "48.0", switch_48)])
       (sent new_object ++ [data_request (txt "localhost") 8083])
       (stdout new_object)).
Proof.
  refine (proj1 (@init_registry ascii_interp login_server (txt "localhost")
            8083 [(txt "48.0", switch_48)] new_object
            (json_page (DataDoc (txt "v2.3.0"))) (DataDoc (txt "v2.3.0"))
            _ _) _).
  - reflexivity.
  - reflexivity.
  - discriminate.
Defined.

(* ================================================================== *)
(** * The numbering of the ids                                         *)
(* ================================================================== *)

Lemma In_keys_dict_set {V} (d : dict V) k v k' :
  In k' (keys (dict_set d k v)) <-> In k' (keys d) \/ k' = k.
Proof.
  induction d as [| [k0 v0] d IH]; cbn.
  - intuition.
  - destruct (text_eqb k0 k) eqn:E; cbn.
    + apply text_eqb_eq in E. subst k0. intuition.
    + unfold keys in IH. rewrite IH. intuition.
Qed.

Lemma In_keys_add_all {V} (es : list (text * V)) :
  forall (d : dict V) k,
    In k (keys (add_all es d)) <-> In k (keys d) \/ In k (map fst es).
Proof.
  induction es as [| [k0 v0] es IH]; intros d k.
  - cbn. intuition.
  - change (add_all ((k0, v0) :: es) d) with (add_all es (dict_set d k0 v0)).
    rewrite IH, In_keys_dict_set. cbn [map fst In]. intuition.
Qed.

Lemma keys_coordinates (r : registry) : keys (coordinates r) = keys r.
Proof. unfold keys, coordinates. rewrite map_map. reflexivity. Qed.

(** A fold over steps that each number their entries from the counter
    on numbers the entries of the whole list from the counter on. *)
Lemma spec_fold_numbers {A} (step : nat -> A -> list (text * data_dict) * nat)
      (size : A -> nat) (base : text) :
  (forall s x,
     snd (step s x) = (s + size x)%nat /\
     map fst (fst (step s x)) = map (new_device_id base) (seq s (size x))) ->
  forall l s,
    snd (spec_fold step l s) = (s + list_sum (map size l))%nat /\
    map fst (fst (spec_fold step l s))
    = map (new_device_id base) (seq s (list_sum (map size l))).
Proof.
  intros Hstep. induction l as [| x l IH]; intros s; cbn [spec_fold map list_sum fold_right].
  - rewrite Nat.add_0_r. split; reflexivity.
  - destruct (Hstep s x) as [H1 H2].
    destruct (step s x) as [e1 s1]. cbn [fst snd] in H1, H2. subst s1.
    destruct (IH (s + size x)%nat) as [H3 H4].
    destruct (spec_fold step l (s + size x)%nat) as [e2 s2].
    cbn [fst snd] in *. split.
    + rewrite H3. change (fold_right Nat.add 0%nat (map size l))
        with (list_sum (map size l)). lia.
    + rewrite map_app, H2, H4.
      change (fold_right Nat.add 0%nat (map size l))
        with (list_sum (map size l)).
      rewrite seq_app, map_app. reflexivity.
Qed.

Lemma list_sum_indicator {A} (f : A -> bool) (l : list A) :
  list_sum (map (fun x => if f x then 1%nat else 0%nat) l)
  = List.length (filter f l).
Proof.
  induction l as [| x l IH]; cbn; [reflexivity|].
  change (fold_right Nat.add 0%nat (map (fun x => if f x then 1%nat else 0%nat) l))
    with (list_sum (map (fun x => if f x then 1%nat else 0%nat) l)).
  rewrite IH. destruct (f x); reflexivity.
Qed.

Section Numbering.
Context {interp : Interp}.

Lemma class_step_numbers (base inst : text) (s : nat) (c : text * data_keys) :
  snd (class_step base inst s c) = (s + channels_of_class c)%nat /\
  map fst (fst (class_step base inst s c))
  = map (new_device_id base) (seq s (channels_of_class c)).
Proof.
  unfold class_step, channels_of_class.
  destruct (existsb _ _).
  - rewrite <- list_sum_indicator.
    apply (spec_fold_numbers (data_step base inst (fst c))
             (fun dn => if unicode_isdigit dn then 1%nat else 0%nat) base).
    intros s0 dn. unfold data_step.
    destruct (unicode_isdigit dn); cbn [fst snd map seq].
    + split; [lia | reflexivity].
    + split; [lia | reflexivity].
  - cbn [fst snd map seq]. split; [lia | reflexivity].
Qed.

Lemma instance_step_numbers (base : text) (s : nat) (i : text * commandClasses) :
  snd (instance_step base s i) = (s + channels_of_instance i)%nat /\
  map fst (fst (instance_step base s i))
  = map (new_device_id base) (seq s (channels_of_instance i)).
Proof.
  unfold instance_step, channels_of_instance.
  apply (spec_fold_numbers (class_step base (fst i)) channels_of_class base).
  intros s0 c. apply class_step_numbers.
Qed.

Lemma device_step_numbers (dev : text * instances) :
  map fst (fst (device_step tt dev))
  = map (new_device_id (fst dev)) (seq 0 (channels dev)).
Proof.
  unfold device_step, channels. cbn [fst].
  apply (spec_fold_numbers (instance_step (fst dev)) channels_of_instance
           (fst dev)).
  intros s0 i. apply instance_step_numbers.
Qed.

(** The ids that a scan assigns, in the order of the assignments: for
    each device of the tree its base id with the numbers from 0 up to
    the number of its channels. *)
Lemma discovered_ids (tree : devices_page) :
  map fst (discovered tree)
  = flat_map (fun dev => map (new_device_id (fst dev)) (seq 0 (channels dev)))
             tree.
Proof.
  unfold discovered. induction tree as [| dev tree IH]; [reflexivity|].
  cbn [spec_fold flat_map].
  pose proof (device_step_numbers dev) as Hd.
  destruct (device_step tt dev) as [e1 []]. cbn [fst] in Hd.
  destruct (spec_fold device_step tree tt) as [e2 []]. cbn [fst] in *.
  rewrite map_app, Hd, IH. reflexivity.
Qed.

(** X11.  The ids of a registry that a scan has returned are numbered
    from 0 without gaps for each device of the tree that was served: an
    id is a key of the registry exactly when it is the base id of a
    device of the tree, a dot, and a number below the number of channels
    of that device, which are its digit data indices under the classes
    48, 49 and 50, over all its instances. *)
Theorem scan_ids_contiguous (net : network) (w : world) (r : registry)
        (w' : world) :
  update_devices net w = (Ret r, w') ->
  exists tree,
    serves net w tree /\
    forall id,
      In id (keys r) <->
      exists dev n, In dev tree /\ (n < channels dev)%nat /\
                    id = new_device_id (fst dev) n.
Proof.
  intros H.
  destruct (update_devices_returns net w H) as (_ & tree & Hs & Hc & _).
  exists tree. split; [exact Hs|]. intros id.
  rewrite <- keys_coordinates, Hc, In_keys_add_all, discovered_ids.
  rewrite in_flat_map. split.
  - intros [[] | (dev & Hdev & Hin)].
    apply in_map_iff in Hin. destruct Hin as (n & Hn & Hseq).
    apply in_seq in Hseq. exists dev, n. split; [exact Hdev|].
    split; [lia | symmetry; exact Hn].
  - intros (dev & n & Hdev & Hn & ->). right. exists dev.
    split; [exact Hdev|]. apply in_map. apply in_seq. lia.
Qed.
End Numbering.

Lemma scan_ids_contiguous_witness :
  exists tree,
    serves (tree_server tree_two (fun _ => Responds (page_of "Power")))
           (constructed []) tree /\
    forall id,
      In id (keys (devices (self (snd
               (update_devices (interp:=ascii_interp)
                  (tree_server tree_two (fun _ => Responds (page_of "Power")))
                  (constructed []))))))
      <-> exists dev n, In dev tree
                        /\ (n < channels (interp:=ascii_interp) dev)%nat
                        /\ id = new_device_id (fst dev) n.
Proof.
  refine (@scan_ids_contiguous ascii_interp
            (tree_server tree_two (fun _ => Responds (page_of "Power")))
            (constructed [])
            (devices (self (snd
               (update_devices (interp:=ascii_interp)
                  (tree_server tree_two (fun _ => Responds (page_of "Power")))
                  (constructed [])))))
            (snd (update_devices (interp:=ascii_interp)
                    (tree_server tree_two (fun _ => Responds (page_of "Power")))
                    (constructed [])))
            _).
  vm_compute. reflexivity.
Defined.

(* ================================================================== *)
(** * Scans of the same tree, and trees that cannot be scanned         *)
(* ================================================================== *)

(** X12.  The registry of a scan that returns depends on the tree that
    was served and on nothing else: two scans that are served the same
    tree, by any servers and from any earlier registries, return
    registries with the same ids in the same order and the same data
    fields (the names depend on the sensor types served).  Nothing of
    an earlier registry is left. *)
Theorem rescan_same_tree (interp : Interp) (net1 net2 : network)
        (w1 w2 : world) (tree : devices_page) (r1 r2 : registry)
        (w1' w2' : world) :
  serves net1 w1 tree -> serves net2 w2 tree ->
  update_devices net1 w1 = (Ret r1, w1') ->
  update_devices net2 w2 = (Ret r2, w2') ->
  coordinates r1 = coordinates r2 /\ keys r1 = keys r2.
Proof.
  intros S1 S2 H1 H2.
  destruct (update_devices_returns net1 w1 H1) as (_ & t1 & St1 & Hc1 & _).
  destruct (update_devices_returns net2 w2 H2) as (_ & t2 & St2 & Hc2 & _).
  rewrite (serves_unique St1 S1) in Hc1.
  rewrite (serves_unique St2 S2) in Hc2.
  assert (Hc : coordinates r1 = coordinates r2) by congruence.
  split; [exact Hc|].
  rewrite <- (keys_coordinates r1), <- (keys_coordinates r2), Hc. reflexivity.
Qed.

Lemma rescan_same_tree_witness :
  coordinates (devices (self (snd scan_undecodable)))
  = coordinates
      (devices (self (snd
         (update_devices (interp:=ascii_interp)
            (tree_server tree_two (fun _ => Responds (page_of "Power")))
            one_device)))).
Proof.
  refine (proj1 (@rescan_same_tree ascii_interp
            (tree_server tree_two undecodable_first)
            (tree_server tree_two (fun _ => Responds (page_of "Power")))
            (constructed []) one_device tree_two
            (devices (self (snd scan_undecodable)))
            (devices (self (snd
               (update_devices (interp:=ascii_interp)
                  (tree_server tree_two (fun _ => Responds (page_of "Power")))
                  one_device))))
            (snd scan_undecodable)
            (snd (update_devices (interp:=ascii_interp)
                    (tree_server tree_two (fun _ => Responds (page_of "Power")))
                    one_device))
            _ _ _ _)).
  - eexists; eexists. split; vm_compute; reflexivity.
  - eexists; eexists. split; vm_compute; reflexivity.
  - vm_compute. reflexivity.
  - vm_compute. reflexivity.
Defined.

(** X13.  A scan returns only when every id it assigns can be read by
    [int(float(id))]: when the tree that is served has a device with a
    channel whose id cannot, for instance because its base id is a
    name, the scan raises. *)
Theorem scan_requires_numeric_ids (interp : Interp) (net : network)
        (w : world) (tree : devices_page) (dev : text * instances) (n : nat) :
  serves net w tree ->
  In dev tree -> (n < channels dev)%nat ->
  ~ key_ok (new_device_id (fst dev) n) ->
  exists e w', update_devices net w = (Raise e, w').
Proof.
  intros Hs Hdev Hn Hk.
  destruct (update_devices net w) as [[r | e] w'] eqn:H;
    [exfalso | exists e, w'; reflexivity].
  destruct (update_devices_returns net w H) as (_ & t & St & Hc & Hnum).
  rewrite (serves_unique St Hs) in Hc.
  apply Hk. unfold numbered in Hnum. rewrite Forall_forall in Hnum.
  apply Hnum. rewrite <- keys_coordinates, Hc, In_keys_add_all, discovered_ids.
  right. apply in_flat_map. exists dev. split; [exact Hdev|].
  apply in_map. apply in_seq. lia.
Qed.

Lemma scan_requires_numeric_ids_witness :
  exists e w',
    update_devices (interp:=ascii_interp)
      (tree_server tree_named (fun _ => Responds (page_of "Power")))
      (constructed [])
    = (Raise e, w').
Proof.
  refine (@scan_requires_numeric_ids ascii_interp
            (tree_server tree_named (fun _ => Responds (page_of "Power")))
            (constructed []) tree_named
            (txt "hall", [(txt "0", [(txt "49", [txt "1"])])]) 0%nat
            _ _ _ _).
  - eexists; eexists. split; vm_compute; reflexivity.
  - left. reflexivity.
  - vm_compute. lia.
  - intros (x & k & Hx & _). vm_compute in Hx. discriminate.
Defined.

(* ================================================================== *)
(** * [device_IDs] on any registry                                     *)
(* ================================================================== *)

Lemma decorate_fails (l : list text) :
  (exists k, In k l /\ float_of_text k = None) -> decorate l = Raise ValueError.
Proof.
  induction l as [| k0 l IH]; intros (k & Hin & Hk); cbn; [destruct Hin|].
  destruct Hin as [-> | Hin].
  - rewrite Hk. reflexivity.
  - destruct (float_of_text k0); [|reflexivity].
    rewrite IH by (exists k; auto). reflexivity.
Qed.

Lemma decorate_succeeds (l : list text) :
  (forall k, In k l -> float_of_text k <> None) -> exists d, decorate l = Ret d.
Proof.
  induction l as [| k0 l IH]; intros H; cbn; [eexists; reflexivity|].
  destruct (float_of_text k0) as [x |] eqn:E.
  - destruct IH as (d & Hd); [intros k Hk; apply H; right; exact Hk|].
    rewrite Hd. eexists; reflexivity.
  - exfalso. apply (H k0); [left; reflexivity | exact E].
Qed.

(** X14.  [device_IDs] on a registry that need not come from a scan,
    such as one given to the constructor: it sends nothing and changes
    nothing; it returns a rearrangement of all the keys when every key
    is the text of a float; and when the keys are strings of printable
    ASCII characters and one of them is not the text of a float, it
    raises [ValueError]. *)
Theorem device_IDs_on_registry (w : world) :
  snd (device_IDs w) = w /\
  (forallb printable_text (keys (devices (self w))) = true ->
   (exists k, In k (keys (devices (self w))) /\ float_of_text k = None) ->
   fst (device_IDs w) = Raise ValueError) /\
  ((forall k, In k (keys (devices (self w))) -> float_of_text k <> None) ->
   exists ids, fst (device_IDs w) = Ret ids
               /\ Permutation ids (keys (devices (self w)))).
Proof.
  unfold device_IDs, bind, get_self, lift, sorted_key_float.
  split; [|split].
  - destruct (decorate _); reflexivity.
  - intros _ H. rewrite (decorate_fails _ H). reflexivity.
  - intros H. destruct (decorate_succeeds _ H) as (d & Hd). rewrite Hd.
    destruct (decorate_spec _ Hd) as [Hm _].
    eexists. split; [reflexivity|].
    rewrite <- Hm. apply Permutation_map. apply sort_decorated_perm.
Qed.

Lemma device_IDs_on_registry_witness :
  fst (device_IDs (constructed [(txt "48.0", switch_48);
                                (txt "kitchen", meter_49)]))
  = Raise ValueError.
Proof.
  refine (proj1 (proj2 (device_IDs_on_registry
            (constructed [(txt "48.0", switch_48);
                          (txt "kitchen", meter_49)]))) _ _).
  - reflexivity.
  - exists (txt "kitchen"). split; [right; left; reflexivity|].
    vm_compute. reflexivity.
Defined.

(* ================================================================== *)
(** * The names of the channels                                        *)
(* ================================================================== *)

Lemma replace_space_no_space (s : bytes) :
  ~ In " "%char (list_ascii_of_string (replace_space s)).
Proof.
  induction s as [| c s IH]; cbn; [tauto|].
  intros [H | H]; [|exact (IH H)].
  destruct (Ascii.eqb c " ") eqn:E; [discriminate|].
  apply Ascii.eqb_neq in E. congruence.
Qed.

Lemma is_cont_bounds (b : N) : is_cont b = true -> (128 <= b < 192)%N.
Proof.
  unfold is_cont. rewrite andb_true_iff, N.leb_le, N.ltb_lt. tauto.
Qed.

(** The code units that the decoder produces are 16 bits wide, and the
    only way to the unit 32 is the byte 32. *)
Lemma utf8_units_no_space (n : nat) :
  forall l u,
    (List.length l <= n)%nat ->
    ~ In 32%N l ->
    utf8_units l = Some u ->
    Forall (fun x => (x < 65536)%N /\ x <> 32%N) u.
Proof.
  induction n as [| n IH]; intros l u Hlen Hno Hu.
  - destruct l; [|cbn in Hlen; lia]. injection Hu as <-. constructor.
  - destruct l as [| b0 l1]; [injection Hu as <-; constructor|].
    cbn [utf8_units] in Hu. cbn [List.length] in Hlen.
    assert (Hb0 : b0 <> 32%N) by (intros ->; apply Hno; left; reflexivity).
    assert (Hno1 : ~ In 32%N l1) by (intros H; apply Hno; right; exact H).
    destruct (b0 <? 128)%N eqn:E1.
    { apply N.ltb_lt in E1.
      destruct (utf8_units l1) as [u1 |] eqn:E; [|discriminate].
      injection Hu as <-. constructor; [split; [lia | exact Hb0]|].
      apply (IH l1 u1); [lia | exact Hno1 | exact E]. }
    apply N.ltb_ge in E1.
    destruct (b0 <? 194)%N eqn:E2; [discriminate|]. apply N.ltb_ge in E2.
    destruct (b0 <? 224)%N eqn:E3.
    { apply N.ltb_lt in E3.
      destruct l1 as [| b1 l2]; [discriminate|].
      destruct (is_cont b1) eqn:C1; [|discriminate].
      apply is_cont_bounds in C1.
      destruct (utf8_units l2) as [u2 |] eqn:E; [|discriminate].
      injection Hu as <-. constructor; [split; lia|].
      apply (IH l2 u2); [cbn in Hlen; lia | | exact E].
      intros H. apply Hno1. right. exact H. }
    apply N.ltb_ge in E3.
    destruct (b0 <? 240)%N eqn:E4.
    { apply N.ltb_lt in E4.
      destruct l1 as [| b1 [| b2 l3]]; try discriminate.
      destruct (is_cont b1) eqn:C1; [|discriminate].
      destruct (is_cont b2) eqn:C2; [|discriminate].
      apply is_cont_bounds in C1, C2. cbn [andb] in Hu.
      destruct ((b0 =? 224)%N && (b1 <? 160)%N) eqn:Ov; [discriminate|].
      cbn [negb] in Hu.
      destruct (utf8_units l3) as [u3 |] eqn:E; [|discriminate].
      injection Hu as <-. constructor.
      - apply andb_false_iff in Ov. split; [lia|].
        destruct Ov as [Ov | Ov];
          [apply N.eqb_neq in Ov | apply N.ltb_ge in Ov]; lia.
      - apply (IH l3 u3); [cbn in Hlen; lia | | exact E].
        intros H. apply Hno1. right. right. exact H. }
    apply N.ltb_ge in E4.
    destruct (b0 <? 245)%N eqn:E5; [|discriminate].
    apply N.ltb_lt in E5.
    destruct l1 as [| b1 [| b2 [| b3 l4]]]; try discriminate.
    destruct (is_cont b1) eqn:C1; [|discriminate].
    destruct (is_cont b2) eqn:C2; [|discriminate].
    destruct (is_cont b3) eqn:C3; [|discriminate].
    apply is_cont_bounds in C1, C2, C3. cbn [andb] in Hu.
    destruct (negb ((b0 =? 240)%N && (b1 <? 144)%N)); [|discriminate].
    destruct (negb ((b0 =? 244)%N && (143 <? b1)%N)); [|discriminate].
    cbn [andb] in Hu.
    destruct (utf8_units l4) as [u4 |] eqn:E; [|discriminate].
    cbn [option_map] in Hu.
    assert (Hu' : u = (55296 + ((b0 - 240) * 262144 + (b1 - 128) * 4096
                                + (b2 - 128) * 64 + (b3 - 128) - 65536) / 1024)%N
                      :: (56320 + ((b0 - 240) * 262144 + (b1 - 128) * 4096
                                   + (b2 - 128) * 64 + (b3 - 128) - 65536)
                                  mod 1024)%N
                      :: u4) by congruence.
    clear Hu. subst u.
    set (cp := ((b0 - 240) * 262144 + (b1 - 128) * 4096 + (b2 - 128) * 64
                + (b3 - 128) - 65536)%N).
    assert (Hhi : (cp / 1024 < 2048)%N)
      by (apply N.Div0.div_lt_upper_bound; unfold cp; lia).
    assert (Hlo : (cp mod 1024 < 1024)%N) by (apply N.mod_lt; lia).
    clearbody cp. generalize dependent (cp / 1024)%N.
    generalize dependent (cp mod 1024)%N. intros lo Hlo hi Hhi.
    constructor; [split; lia|]. constructor; [split; lia|].
    apply (IH l4 u4); [cbn in Hlen; lia | | exact E].
    intros H. apply Hno1. right. right. right. exact H.
Qed.

Lemma uchar_of_N_space (x : N) :
  (x < 65536)%N -> uchar_of_N x = uchr " "%char -> x = 32%N.
Proof.
  intros Hx H. unfold uchar_of_N, uchr in H.
  injection H as Hhi Hlo.
  assert (Hq : (x / 256 < 256)%N)
    by (apply N.Div0.div_lt_upper_bound; lia).
  assert (Hr : (x mod 256 < 256)%N) by (apply N.mod_lt; lia).
  apply (f_equal N_of_ascii) in Hhi, Hlo.
  rewrite N_ascii_embedding in Hhi, Hlo by assumption.
  cbn in Hhi, Hlo.
  rewrite (N.div_mod x 256) by lia. rewrite Hhi, Hlo. reflexivity.
Qed.

(** A byte string without a space decodes to a text without one. *)
Lemma decode_no_space (s : bytes) (u : text) :
  ~ In " "%char (list_ascii_of_string s) ->
  decode s = Some u -> ~ In (uchr " "%char) u.
Proof.
  intros Hs Hd. unfold decode in Hd.
  destruct (utf8_units _) as [l |] eqn:E; [|discriminate].
  injection Hd as <-.
  assert (Hl : Forall (fun x => (x < 65536)%N /\ x <> 32%N) l).
  { apply (@utf8_units_no_space _ (map N_of_ascii (list_ascii_of_string s)) l
             (Nat.le_refl _)); [|exact E].
    intros H. apply in_map_iff in H. destruct H as (c & Hc & Hin).
    apply Hs. replace " "%char with c; [exact Hin|].
    rewrite <- (ascii_N_embedding c), Hc. reflexivity. }
  intros H. apply in_map_iff in H. destruct H as (x & Hx & Hin).
  rewrite Forall_forall in Hl. destruct (Hl x Hin) as [Hb Hne].
  apply Hne. apply uchar_of_N_space; assumption.
Qed.

(** X15.  A channel whose sensor type can be decoded gets a name: the
    base id of the device, an underscore, and the sensor type as text,
    stripped of surrounding whitespace and with every space replaced by
    an underscore, so that this part of the name holds no space.
    Nothing is printed, and the count of the device goes up by one. *)
Theorem decodable_name_stored (interp : Interp) (net : network)
        (base inst cc : text) (count : nat) (dn : text)
        (w : world) (ty : bytes) (w2 : world) (u : text) :
  let id := new_device_id base count in
  let dd := new_data_dict inst cc dn in
  unicode_isdigit dn = true ->
  device_type net id
    (set_self w (with_devices (self w)
                   (dict_set (devices (self w)) id (Build_device dd None))))
  = (Ret ty, w2) ->
  decode (replace_space (strip ty)) = Some u ->
  exists w3,
    scan_data net base inst cc count dn w = (Ret (S count), w3) /\
    dict_get (devices (self w3)) id
    = Some (Build_device dd (Some (base ++ txt "_" ++ u))) /\
    ~ In (uchr " "%char) u /\
    stdout w3 = stdout w2 /\ sent w3 = sent w2.
Proof.
  intros id dd Hdigit Hty Hdec.
  pose proof (@keeps_same_object _ (device_type net id)
                (set_self w (with_devices (self w)
                               (dict_set (devices (self w)) id
                                         (Build_device dd None))))) as K.
  rewrite Hty in K. cbn [snd] in K.
  assert (Hs2 : self w2
                = with_devices (self w)
                    (dict_set (devices (self w)) id (Build_device dd None)))
    by (apply K; apply keeps_device_type; frame_tac).
  assert (Hget : dict_get (devices (self w2)) id = Some (Build_device dd None))
    by (rewrite Hs2; cbn [with_devices devices]; apply dict_get_set_same).
  eexists. split; [|split; [|split; [|split]]].
  - subst id dd. unfold new_device_id, new_data_dict in *.
    unfold scan_data. rewrite Hdigit. cbv zeta.
    unfold bind at 1, get_self at 1. cbv beta iota.
    unfold bind at 1, put_self at 1. cbv beta iota.
    unfold bind at 1. rewrite Hty. cbv beta iota. rewrite Hdec.
    unfold bind at 1, set_name, lookup_device.
    unfold bind at 1. unfold bind at 1, get_self at 1. cbv beta iota.
    rewrite Hget. unfold or_raise, ret at 1. cbv beta iota.
    unfold bind at 1, get_self at 1. cbv beta iota.
    unfold put_self, ret. cbv beta iota. reflexivity.
  - cbn [set_self self with_devices devices data]. apply dict_get_set_same.
  - apply (decode_no_space (replace_space (strip ty)));
      [apply replace_space_no_space | exact Hdec].
  - reflexivity.
  - reflexivity.
Qed.

Lemma decodable_name_stored_witness :
  exists w3,
    scan_data (interp:=ascii_interp) (always " Power usage ")
              (txt "48") (txt "0") (txt "49") 0%nat (txt "1") (constructed [])
    = (Ret 1%nat, w3) /\
    dict_get (devices (self w3)) (txt "48.0")
    = Some (Build_device (data_49 "1") (Some (txt "48_Power_usage"))).
Proof.
  destruct (@decodable_name_stored ascii_interp (always " Power usage ")
              (txt "48") (txt "0") (txt "49") 0%nat (txt "1") (constructed [])
              " Power usage "
              (snd (device_type (always " Power usage ") (txt "48.0")
                      (constructed [(txt "48.0",
                                     Build_device (data_49 "1") None)])))
              (txt "Power_usage"))
    as (w3 & H1 & H2 & _).
  - reflexivity.
  - vm_compute. reflexivity.
  - vm_compute. reflexivity.
  - exists w3. split; [exact H1 | exact H2].
Defined.

(* ================================================================== *)
(** * The timeout and the base URL of the requests                     *)
(* ================================================================== *)

Lemma under_config_refl t b w : under_config t b w w.
Proof.
  intros Ht Hb. split; [exact Ht|]. split; [exact Hb|].
  exists []. rewrite app_nil_r. split; [reflexivity | constructor].
Qed.

Lemma under_config_trans t b w1 w2 w3 :
  under_config t b w1 w2 -> under_config t b w2 w3 -> under_config t b w1 w3.
Proof.
  intros H12 H23 Ht Hb.
  destruct (H12 Ht Hb) as (Ht2 & Hb2 & l & Hl & Hf).
  destruct (H23 Ht2 Hb2) as (Ht3 & Hb3 & l' & Hl' & Hf').
  split; [exact Ht3|]. split; [exact Hb3|].
  exists (l ++ l'). split.
  - rewrite Hl', Hl, app_assoc. reflexivity.
  - apply Forall_app. split; assumption.
Qed.

Lemma under_config_get t b w cmd :
  under_config t b w (sending w (get_request (self w) cmd)).
Proof.
  intros Ht Hb. split; [exact Ht|]. split; [exact Hb|].
  exists [get_request (self w) cmd]. split; [reflexivity|].
  constructor; [|constructor].
  unfold get_request. rewrite Ht, Hb. eexists; eexists; reflexivity.
Qed.

Lemma under_config_same t b w w' :
  timeout (self w') = timeout (self w) ->
  base_url (self w') = base_url (self w) ->
  sent w' = sent w ->
  under_config t b w w'.
Proof.
  intros H1 H2 H3 Ht Hb. split; [congruence|]. split; [congruence|].
  exists []. rewrite app_nil_r. split; [exact H3 | constructor].
Qed.

Lemma under_config_print t b w l : under_config t b w (printing w l).
Proof. apply under_config_same; reflexivity. Qed.

Lemma under_config_devices t b w d :
  under_config t b w (set_self w (with_devices (self w) d)).
Proof. apply under_config_same; reflexivity. Qed.

Ltac config_requests_tac :=
  first [ exact (@under_config_refl _ _) | exact (@under_config_trans _ _)
        | exact (@under_config_get _ _) | exact (@under_config_print _ _)
        | exact (@under_config_devices _ _) ].

Lemma run_call_under_config (interp : Interp) (net : network) t b c w :
  not_set_timeout c = true -> under_config t b w (run_call net c w).
Proof.
  intros Hc.
  destruct c; cbn [run_call];
    [ discriminate
    | apply (@keeps_rel _ (under_config t b));
      [| apply (@under_config_refl t b)] .. ].
  - apply keeps_update_devices; config_requests_tac.
  - apply keeps_device_IDs; config_requests_tac.
  - apply keeps_software_version; config_requests_tac.
  - apply keeps_battery_level; config_requests_tac.
  - apply keeps_get_data; config_requests_tac.
  - apply keeps_device_type; config_requests_tac.
  - apply keeps_device_name; config_requests_tac.
  - apply keeps_save_devices_to_file; config_requests_tac.
  - apply keeps_make_request; config_requests_tac.
Qed.

Lemma run_calls_under_config (interp : Interp) (net : network) t b cs :
  forallb not_set_timeout cs = true ->
  forall w, under_config t b w (run_calls net cs w).
Proof.
  induction cs as [| c cs IH]; intros Hcs w.
  - apply (@under_config_refl t b).
  - cbn [forallb] in Hcs. apply andb_true_iff in Hcs. destruct Hcs as [Hc Hcs].
    cbn [run_calls fold_left].
    apply (@under_config_trans t b w (run_call net c w)).
    + apply (@run_call_under_config interp net t b c w Hc).
    + apply (IH Hcs).
Qed.

(** X16.  A new timeout takes effect at once and stays: after
    [set_timeout(v)] has stored [float(v)], every request sent by later
    method calls, as long as none of them is [set_timeout], is a GET
    request with that timeout, for a command under the base URL of the
    object; neither the timeout nor the base URL changes. *)
Theorem timeout_takes_effect (interp : Interp) (net : network)
        (v : pyvalue) (t : float) (cs : list call) (w : world) :
  float_of_value v = Ret t ->
  forallb not_set_timeout cs = true ->
  let w1 := snd (set_timeout v w) in
  let w2 := run_calls net cs w1 in
  timeout (self w2) = t /\
  base_url (self w2) = base_url (self w) /\
  exists l,
    sent w2 = sent w ++ l /\ Forall (governed t (base_url (self w))) l.
Proof.
  intros Hv Hcs w1 w2.
  pose proof (set_timeout_stores v w) as Hset. rewrite Hv in Hset.
  assert (Hw1 : w1 = set_self w (with_timeout (self w) t))
    by (unfold w1; rewrite Hset; reflexivity).
  destruct (@run_calls_under_config interp net t (base_url (self w)) cs Hcs w1)
    as (Ht & Hb & l & Hl & Hf).
  - rewrite Hw1. reflexivity.
  - rewrite Hw1. reflexivity.
  - fold w2 in Ht, Hb, Hl. split; [exact Ht|]. split; [exact Hb|].
    exists l. split; [|exact Hf]. rewrite Hl, Hw1. reflexivity.
Qed.

Lemma timeout_takes_effect_witness :
  timeout (self (run_calls (interp:=ascii_interp) (always "true")
                   [call_get_data (txt "48.0"); call_device_IDs]
                   (snd (set_timeout (PyInt 3) one_device))))
  = float_of_Z 3.
Proof.
  refine (proj1 (@timeout_takes_effect ascii_interp (always "true")
            (PyInt 3) (float_of_Z 3)
            [call_get_data (txt "48.0"); call_device_IDs] one_device _ _)).
  - vm_compute. reflexivity.
  - reflexivity.
Defined.

(* ================================================================== *)
(** * The output of [_make_request]                                    *)
(* ================================================================== *)

Lemma request_loop_prints (net : network) (command : text) (es : list exn) :
  forall (a : nat) (w : world),
    (a + List.length es <= 10)%nat ->
    Forall (fun e => retried e = true) es ->
    fails_with net (List.length (sent w)) (get_request (self w) command) es ->
    ((a + List.length es = 10)%nat \/
     final (net (List.length (sent w) + List.length es)%nat
                (get_request (self w) command))) ->
    stdout (snd (request_loop net command (seq a (10 - a)) w))
    = stdout w ++ timeout_lines a es.
Proof.
  induction es as [| e es IH]; intros a w Ha Hre Hfail Hend.
  - cbn [List.length timeout_lines] in *. rewrite app_nil_r.
    destruct (Nat.eq_dec a 10) as [-> | Hne]; [reflexivity|].
    destruct Hend as [Hend | Hend]; [lia|].
    rewrite Nat.add_0_r in Hend.
    rewrite seq_attempts by lia. rewrite request_loop_step. cbv zeta.
    destruct (net _ _) as [p | e]; [reflexivity|].
    cbn [final] in Hend. unfold retried in Hend.
    apply orb_false_elim in Hend. destruct Hend as [Hc Ht].
    rewrite Hc, Ht. reflexivity.
  - cbn [List.length] in Ha, Hend.
    inversion Hre as [| ? ? He Hre']; subst.
    pose proof (Hfail 0%nat e eq_refl) as H0. rewrite Nat.add_0_r in H0.
    rewrite seq_attempts by lia. rewrite request_loop_step. cbv zeta.
    rewrite H0. cbn [timeout_lines].
    set (req := get_request (self w) command) in *.
    assert (Hnext : forall w0,
              self w0 = self w -> sent w0 = sent w ++ [req] ->
              a <> 9%nat ->
              stdout (snd (request_loop net command (seq (S a) (10 - S a)) w0))
              = stdout w0 ++ timeout_lines (S a) es).
    { intros w0 Hs0 Hsent0 Ha9. apply IH.
      - lia.
      - exact Hre'.
      - intros i e' Hi. rewrite Hs0, Hsent0, length_app. cbn [List.length].
        fold req. rewrite <- (Hfail (S i) e' Hi). f_equal. lia.
      - destruct Hend as [Hend | Hend]; [left; lia | right].
        rewrite Hs0, Hsent0, length_app. cbn [List.length]. fold req.
        replace (List.length (sent w) + 1 + List.length es)%nat
          with (List.length (sent w) + S (List.length es))%nat by lia.
        exact Hend. }
    assert (Hlast : a = 9%nat -> es = []).
    { intros ->. destruct es; [reflexivity | cbn in Ha; lia]. }
    unfold retried in He.
    destruct (is_ConnectionError e).
    + destruct (Nat.eqb a 9) eqn:E9.
      * apply Nat.eqb_eq in E9. rewrite (Hlast E9).
        cbn [snd sending stdout timeout_lines app]. rewrite app_nil_r.
        reflexivity.
      * apply Nat.eqb_neq in E9. rewrite Hnext by (reflexivity || exact E9).
        reflexivity.
    + cbn in He. rewrite He.
      destruct (Nat.eqb a 9) eqn:E9.
      * apply Nat.eqb_eq in E9. rewrite (Hlast E9).
        cbn [snd printing sending stdout timeout_lines]. rewrite app_nil_r.
        reflexivity.
      * apply Nat.eqb_neq in E9. rewrite Hnext by (reflexivity || exact E9).
        cbn [printing stdout sending]. rewrite <- app_assoc. reflexivity.
Qed.

(** X17.  What [_make_request] prints.  When its attempts fail with
    the retried errors [es] and then end, with an answer, with an error
    that is not retried, or because [es] are ten, the call has printed
    one line [Timed out i] for each attempt [i] that failed with a
    timeout that is no connection error, in the order of the attempts,
    and nothing else: a connection error is silent, also when it is a
    timeout while connecting, and so are the terminal errors. *)
Theorem make_request_prints (net : network) (command : text)
        (es : list exn) (w : world) :
  (List.length es <= 10)%nat ->
  Forall (fun e => retried e = true) es ->
  fails_with net (List.length (sent w)) (get_request (self w) command) es ->
  ((List.length es = 10)%nat \/
   final (net (List.length (sent w) + List.length es)%nat
              (get_request (self w) command))) ->
  stdout (snd (_make_request net command w))
  = stdout w ++ timeout_lines 0 es.
Proof.
  intros Hlen Hre Hfail Hend.
  unfold _make_request, num_attempts.
  change (seq 0 10) with (seq 0 (10 - 0)).
  apply request_loop_prints; assumption.
Qed.

Lemma make_request_prints_witness :
  stdout (snd (_make_request (three_timeouts (page_of "true")) (txt "Data")
                             (constructed [])))
  = [TimedOut 0; TimedOut 2].
Proof.
  refine (@make_request_prints (three_timeouts (page_of "true")) (txt "Data")
            [ReadTimeout; ConnectTimeout; ReadTimeout] (constructed [])
            _ _ _ _).
  - cbn. lia.
  - repeat constructor.
  - intros [| [| [| i]]] e Hi; cbn in Hi;
      [injection Hi as <-; reflexivity ..|].
    destruct i; discriminate.
  - right. cbn. exact I.
Defined.

(* ================================================================== *)
(** * The characters of the saved registry                             *)
(* ================================================================== *)

Lemma hex_digit_printable (n : N) : (n < 16)%N -> printable (hex_digit n).
Proof.
  intros Hn. unfold printable, hex_digit.
  destruct (n <? 10)%N eqn:E.
  - apply N.ltb_lt in E. rewrite N_ascii_embedding by lia. lia.
  - apply N.ltb_ge in E. rewrite N_ascii_embedding by lia. lia.
Qed.

Lemma hex_of_byte_printable (b : ascii) : Forall printable (hex_of_byte b).
Proof.
  unfold hex_of_byte. pose proof (N_ascii_bounded b) as Hb.
  constructor; [|constructor; [|constructor]]; apply hex_digit_printable.
  - apply N.Div0.div_lt_upper_bound. lia.
  - apply N.mod_lt. lia.
Qed.

Lemma escape_unit_printable (u : uchar) : Forall printable (escape_unit u).
Proof.
  destruct u as [hi lo]. unfold escape_unit.
  assert (Hu : Forall printable
                 (backslash :: "u"%char :: hex_of_byte hi ++ hex_of_byte lo)).
  { constructor; [unfold printable; cbn; lia|].
    constructor; [unfold printable; cbn; lia|].
    apply Forall_app. split; apply hex_of_byte_printable. }
  assert (H2 : forall c, printable c -> Forall printable [backslash; c]).
  { intros c Hc. constructor; [unfold printable; cbn; lia|].
    constructor; [exact Hc | constructor]. }
  destruct (Ascii.eqb hi zero); [|exact Hu].
  repeat match goal with
         | |- Forall printable (if (_ =? _)%N then _ else _) =>
             destruct (_ =? _)%N; [apply H2; unfold printable; cbn; lia|]
         end.
  destruct ((32 <=? N_of_ascii lo) && (N_of_ascii lo <=? 126))%N eqn:E;
    [|exact Hu].
  apply andb_true_iff in E. destruct E as [E1 E2].
  apply N.leb_le in E1, E2.
  constructor; [split; assumption | constructor].
Qed.

Lemma encode_string_printable (s : text) : Forall printable (encode_string s).
Proof.
  unfold encode_string. constructor; [unfold printable; cbn; lia|].
  apply Forall_app. split.
  - induction s as [| u s IH]; [constructor|].
    cbn [flat_map]. apply Forall_app. split;
      [apply escape_unit_printable | exact IH].
  - constructor; [unfold printable; cbn; lia | constructor].
Qed.

Lemma dumps_printable (n : nat) :
  forall j, (height j <= n)%nat -> Forall printable (dumps j).
Proof.
  induction n as [| n IH]; intros j Hh.
  - destruct j; cbn in Hh; lia.
  - destruct j as [s | fs]; [apply encode_string_printable|].
    pose proof (height_members Hh) as Hfs.
    rewrite dumps_obj. constructor; [unfold printable; cbn; lia|].
    apply Forall_app. split;
      [|constructor; [unfold printable; cbn; lia | constructor]].
    clear Hh. induction Hfs as [| [k v] fs Hv Hfs IHfs]; [constructor|].
    cbn [members_text]. apply Forall_app. split;
      [apply encode_string_printable|].
    constructor; [unfold printable; cbn; lia|].
    constructor; [unfold printable; cbn; lia|].
    apply Forall_app. split; [apply IH; exact Hv|].
    destruct fs as [| f fs]; [constructor|].
    constructor; [unfold printable; cbn; lia|].
    constructor; [unfold printable; cbn; lia|].
    exact IHfs.
Qed.

(** X18.  What [save_devices_to_file] writes is printable ASCII,
    whatever characters the ids, the fields and the names of the
    registry hold: a character outside this range is written as an
    escape. *)
Theorem saved_registry_printable (fh : list ascii) (w : world) :
  exists out,
    save_devices_to_file fh w = (Ret (fh ++ out), w) /\
    Forall printable out.
Proof.
  exists (dumps (json_of_registry (devices (self w)))). split; [reflexivity|].
  apply (@dumps_printable (height (json_of_registry (devices (self w))))).
  apply Nat.le_refl.
Qed.

(* ================================================================== *)
(** * The requests of a scan                                           *)
(* ================================================================== *)

Lemma get_request_config (w w' : world) (command : text) :
  same_config w w' ->
  get_request (self w') command = get_request (self w) command.
Proof.
  intros (Ht & Hb & Hc). unfold get_request. rewrite Ht, Hb, Hc. reflexivity.
Qed.

Lemma type_request_config (w w' : world) (es : list (text * data_dict)) :
  same_config w w' ->
  map (type_request (self w')) es = map (type_request (self w)) es.
Proof.
  intros H. apply map_ext. intros e. unfold type_request.
  apply get_request_config. exact H.
Qed.

Section ScanRequests.
Context {interp : Interp}.
Variable net : network.
Hypothesis net_responsive : responsive net.

(** [device_type] on a registered id, when the server answers: one
    request, for the sensor type at the coordinates of the entry. *)
Lemma device_type_responsive (id : text) (d : device) (w : world) ty w' :
  dict_get (devices (self w)) id = Some d ->
  device_type net id w = (Ret ty, w') ->
  w' = sending w (type_request (self w) (id, data d)).
Proof.
  intros Hd. unfold type_request, number_of_id, sensor_type_command.
  cbn [fst snd].
  unfold device_type, device_number.
  unfold bind at 1. unfold bind at 1. unfold or_raise at 1.
  destruct (float_of_text id) as [x |]; [|discriminate].
  unfold ret at 1. cbv beta iota. unfold lift at 1.
  destruct (int_of_float x) as [n | e]; [|discriminate].
  cbv beta iota. unfold bind at 1, lookup_device.
  unfold bind at 1, get_self at 1. cbv beta iota. rewrite Hd.
  unfold or_raise, ret at 1. cbv beta iota.
  set (command := txt "Run/devices[" ++ _).
  destruct (net_responsive (List.length (sent w))
                           (get_request (self w) command)) as (p & Hp).
  unfold bind at 1.
  rewrite (@make_request_answered net command p w) by exact Hp.
  cbn [page_content]. unfold ret. intros H. injection H as _ <-. reflexivity.
Qed.

Lemma asks_ret {S} (s : S) : asks (ret s) [] s.
Proof.
  intros w. apply wp_ret. split; [reflexivity|].
  split; [apply same_config_refl|]. cbn [map]. rewrite app_nil_r. reflexivity.
Qed.

Lemma asks_for_in {A S} (step : S -> A -> list (text * data_dict) * S)
      (body : S -> A -> M S) (l : list A) :
  (forall s x, asks (body s x) (fst (step s x)) (snd (step s x))) ->
  forall s, asks (for_in l body s)
                 (fst (spec_fold step l s)) (snd (spec_fold step l s)).
Proof.
  intros Hbody. induction l as [| x l IH]; intros s w.
  - apply asks_ret.
  - cbn [for_in spec_fold].
    destruct (step s x) as [e1 s1] eqn:E1.
    destruct (spec_fold step l s1) as [e2 s2] eqn:E2.
    cbn [fst snd]. apply wp_bind.
    eapply wp_mono; [apply Hbody | | auto]. rewrite E1; cbn [fst snd].
    intros s' w1 (-> & Hc1 & Hs1).
    eapply wp_mono; [apply IH | | auto]. rewrite E2; cbn [fst snd].
    intros s'' w2 (-> & Hc2 & Hs2).
    split; [reflexivity|].
    split; [eapply same_config_trans; eassumption|].
    rewrite Hs2, Hs1, (type_request_config e2 Hc1), map_app, app_assoc.
    reflexivity.
Qed.

Lemma asks_scan_data base inst cc count dn :
  asks (scan_data net base inst cc count dn)
       (fst (data_step base inst cc count dn))
       (snd (data_step base inst cc count dn)).
Proof.
  intros w. unfold scan_data, data_step.
  destruct (unicode_isdigit dn); [|apply asks_ret].
  cbn [fst snd]. wp_go.
  set (id := base ++ txt "." ++ dec (Z.of_nat count)).
  set (dd := Build_data_dict _ _ _ _ _).
  set (w1 := set_self w _).
  assert (Hd1 : dict_get (devices (self w1)) id = Some (Build_device dd None))
    by (unfold w1; cbn [set_self self with_devices devices];
        apply dict_get_set_same).
  apply wp_eqn; [|auto].
  intros ty w2 Hty.
  rewrite (device_type_responsive id w1 Hd1 Hty). cbv beta.
  change (type_request (self w1) (id, data (Build_device dd None)))
    with (type_request (self w) (id, dd)).
  destruct (decode (replace_space (strip ty))) as [u |].
  - unfold set_name, lookup_device. wp_go.
    + cbn [set_self self sent sending with_devices]. split; [reflexivity|].
      split; [repeat split|]. reflexivity.
    + exact I.
  - wp_go. cbn [printing sending self sent set_self].
    split; [reflexivity|]. split; [repeat split|]. reflexivity.
Qed.

Lemma asks_scan_class base inst count c :
  asks (scan_class net base inst count c)
       (fst (class_step base inst count c))
       (snd (class_step base inst count c)).
Proof.
  destruct c as [cc dks]. unfold scan_class, class_step. cbn [fst snd].
  destruct (existsb _ _); [|apply asks_ret].
  apply asks_for_in. intros s x. apply asks_scan_data.
Qed.

Lemma asks_scan_instance base count i :
  asks (scan_instance net base count i)
       (fst (instance_step base count i))
       (snd (instance_step base count i)).
Proof.
  destruct i as [inst ccs]. unfold scan_instance, instance_step.
  cbn [fst snd]. apply asks_for_in. intros s x. apply asks_scan_class.
Qed.

Lemma asks_scan_device u dev :
  asks (scan_device net u dev)
       (fst (device_step u dev)) (snd (device_step u dev)).
Proof.
  destruct dev as [base insts]. unfold scan_device, device_step.
  cbn [fst snd]. intros w. apply wp_bind.
  eapply wp_mono;
    [apply (asks_for_in (instance_step base)
              (scan_instance net base) insts
              (fun s x => asks_scan_instance base s x) 0%nat w) | | auto].
  intros s w1 (_ & Hc & Hs). apply wp_ret. auto.
Qed.

Lemma asks_tree tree :
  asks (for_in tree (scan_device net) tt) (discovered tree) tt.
Proof.
  intros w. unfold discovered.
  eapply wp_mono;
    [apply (asks_for_in device_step (scan_device net) tree
              (fun s x => asks_scan_device s x) tt w) | | auto].
  intros [] w1 (_ & Hc & Hs). auto.
Qed.

(** X19.  The requests of a scan.  When the server answers every
    request, a scan that returns has sent the request for the device
    tree and then, for each channel it has found, in the order in which
    it found them, one request for the sensor type of that channel, at
    the coordinates of its entry and with the integer part of its id as
    the device number; it has sent nothing else. *)
Theorem scan_requests (w : world) (r : registry) (w' : world) :
  update_devices net w = (Ret r, w') ->
  exists tree,
    serves net w tree /\
    sent w'
    = sent w ++ get_request (self w) (txt "Run/devices")
        :: map (type_request (self w)) (discovered tree).
Proof.
  intros H.
  assert (S : wp (update_devices net)
                (fun _ w' =>
                   exists tree, serves net w tree /\
                     sent w' = sent w ++ get_request (self w) (txt "Run/devices")
                                 :: map (type_request (self w)) (discovered tree))
                (fun _ _ => True) w).
  { unfold update_devices. apply wp_get_self. apply wp_put_self.
    fold (cleared w). apply wp_bind. apply wp_eqn; [|auto].
    intros page w1 Hreq.
    destruct (net_responsive (List.length (sent (cleared w)))
                (get_request (self (cleared w)) (txt "Run/devices")))
      as (p & Hp).
    pose proof Hreq as Hreq'.
    rewrite (@make_request_answered net (txt "Run/devices") p (cleared w))
      in Hreq' by exact Hp.
    injection Hreq' as <- <-.
    wp_go; [|exact I].
    destruct a as [tree | v]; [|wp_go; exact I].
    assert (Hserves : serves net w tree).
    { eexists; eexists. split; [exact Hreq | assumption]. }
    apply wp_bind. eapply wp_mono; [apply asks_tree | | auto].
    intros [] w2 (_ & Hc & Hs). wp_go.
    exists tree. split; [exact Hserves|].
    rewrite Hs. cbn [sending sent cleared set_self].
    rewrite <- app_assoc. reflexivity. }
  unfold wp in S. rewrite H in S. exact S.
Qed.
End ScanRequests.

Lemma scan_requests_witness :
  exists tree,
    serves (tree_server tree_two (fun _ => Responds (page_of "Power")))
           (constructed []) tree /\
    sent (snd (update_devices (interp:=ascii_interp)
                 (tree_server tree_two (fun _ => Responds (page_of "Power")))
                 (constructed [])))
    = sent (constructed [])
        ++ get_request (self (constructed [])) (txt "Run/devices")
        :: map (type_request (self (constructed [])))
               (discovered (interp:=ascii_interp) tree).
Proof.
  refine (@scan_requests ascii_interp
            (tree_server tree_two (fun _ => Responds (page_of "Power")))
            _ (constructed [])
            (devices (self (snd
               (update_devices (interp:=ascii_interp)
                  (tree_server tree_two (fun _ => Responds (page_of "Power")))
                  (constructed [])))))
            (snd (update_devices (interp:=ascii_interp)
                    (tree_server tree_two (fun _ => Responds (page_of "Power")))
                    (constructed [])))
            _).
  - intros [| n] req; eexists; reflexivity.
  - vm_compute. reflexivity.
Defined.

(* ================================================================== *)
(** * More on [_make_request], names and scanned ids                   *)
(* ================================================================== *)

(** X20.  [_make_request] never falls off the end of its loop: whatever
    the server does, the call returns a response or raises, it does not
    return [None]. *)
Theorem make_request_never_none (net : network) (command : text) (w : world) :
  (exists p, fst (_make_request net command w) = Ret (Some p)) \/
  (exists e, fst (_make_request net command w) = Raise e).
Proof.
  destruct (make_request_sent net command w) as (k & _ & _ & _ & Hr).
  destruct (fst (_make_request net command w)) as [[p |] | e].
  - left. exists p. reflexivity.
  - congruence.
  - right. exists e. reflexivity.
Qed.

Lemma lstrip_Forall (P : ascii -> Prop) (l : list ascii) :
  Forall P l -> Forall P (lstrip l).
Proof.
  induction 1 as [| c l Hc Hl IH]; cbn; [constructor|].
  destruct (isspace c); [exact IH | constructor; assumption].
Qed.

Lemma strip_Forall (P : ascii -> Prop) (s : bytes) :
  Forall P (list_ascii_of_string s) ->
  Forall P (list_ascii_of_string (strip s)).
Proof.
  intros H. unfold strip, rstrip.
  rewrite list_ascii_of_string_of_list_ascii.
  apply Forall_rev. apply lstrip_Forall. apply Forall_rev.
  apply lstrip_Forall. exact H.
Qed.

Lemma replace_space_seven_bit (s : bytes) :
  Forall seven_bit (list_ascii_of_string s) ->
  Forall seven_bit (list_ascii_of_string (replace_space s)).
Proof.
  induction s as [| c s IH]; cbn; intros H; [constructor|].
  inversion H; subst. constructor; [|apply IH; assumption].
  destruct (Ascii.eqb c " "); [unfold seven_bit; cbn; lia | assumption].
Qed.

Lemma utf8_units_seven_bit (l : list N) :
  Forall (fun b => (b < 128)%N) l -> utf8_units l = Some l.
Proof.
  induction 1 as [| b l Hb Hl IH]; [reflexivity|].
  cbn [utf8_units]. apply N.ltb_lt in Hb. rewrite Hb, IH. reflexivity.
Qed.

Lemma uchar_of_N_of_ascii (c : ascii) : uchar_of_N (N_of_ascii c) = uchr c.
Proof.
  unfold uchar_of_N, uchr. pose proof (N_ascii_bounded c) as Hc.
  rewrite N.div_small, N.mod_small by exact Hc.
  rewrite ascii_N_embedding. reflexivity.
Qed.

(** A string of 7-bit ASCII decodes to itself. *)
Lemma decode_seven_bit (s : bytes) :
  Forall seven_bit (list_ascii_of_string s) -> decode s = Some (txt s).
Proof.
  intros H. unfold decode, txt.
  rewrite utf8_units_seven_bit.
  - cbn [option_map]. rewrite map_map. f_equal.
    apply map_ext. intros c. apply uchar_of_N_of_ascii.
  - apply Forall_map. exact H.
Qed.

(** The step of the scan for a channel whose sensor type decodes. *)
Lemma scan_data_decoded (interp : Interp) (net : network)
      (base inst cc : text) (count : nat) (dn : text)
      (w : world) (ty : bytes) (w2 : world) (u : text) :
  unicode_isdigit dn = true ->
  device_type net (new_device_id base count)
    (set_self w (with_devices (self w)
                   (dict_set (devices (self w)) (new_device_id base count)
                             (Build_device (new_data_dict inst cc dn) None))))
  = (Ret ty, w2) ->
  decode (replace_space (strip ty)) = Some u ->
  scan_data net base inst cc count dn w
  = (Ret (S count),
     set_self w2
       (with_devices (self w2)
          (dict_set (devices (self w2)) (new_device_id base count)
             (Build_device (new_data_dict inst cc dn)
                           (Some (base ++ txt "_" ++ u)))))).
Proof.
  intros Hdigit Hty Hdec.
  pose proof (@keeps_same_object _ (device_type net (new_device_id base count))
                (set_self w (with_devices (self w)
                               (dict_set (devices (self w))
                                  (new_device_id base count)
                                  (Build_device (new_data_dict inst cc dn)
                                                None))))) as K.
  rewrite Hty in K. cbn [snd] in K.
  assert (Hget : dict_get (devices (self w2)) (new_device_id base count)
                 = Some (Build_device (new_data_dict inst cc dn) None)).
  { rewrite K by (apply keeps_device_type; frame_tac).
    cbn [set_self self with_devices devices]. apply dict_get_set_same. }
  unfold new_device_id, new_data_dict in *.
  unfold scan_data. rewrite Hdigit. cbv zeta.
  unfold bind at 1, get_self at 1. cbv beta iota.
  unfold bind at 1, put_self at 1. cbv beta iota.
  unfold bind at 1. rewrite Hty. cbv beta iota. rewrite Hdec.
  unfold bind at 1, set_name, lookup_device.
  unfold bind at 1. unfold bind at 1, get_self at 1. cbv beta iota.
  rewrite Hget. unfold or_raise, ret at 1. cbv beta iota.
  unfold bind at 1, get_self at 1. cbv beta iota.
  unfold put_self, ret. cbv beta iota. reflexivity.
Qed.

(** X21.  A sensor type of 7-bit ASCII can always be decoded: in a
    scan its channel gets the name made of the base id, an underscore
    and the sensor type itself, stripped and with underscores for its
    spaces; the branch that prints and leaves the entry without a name
    is not taken. *)
Theorem ascii_type_named (interp : Interp) (net : network)
        (base inst cc : text) (count : nat) (dn : text)
        (w : world) (ty : bytes) (w2 : world) :
  let id := new_device_id base count in
  let dd := new_data_dict inst cc dn in
  unicode_isdigit dn = true ->
  device_type net id
    (set_self w (with_devices (self w)
                   (dict_set (devices (self w)) id (Build_device dd None))))
  = (Ret ty, w2) ->
  Forall seven_bit (list_ascii_of_string ty) ->
  exists w3,
    scan_data net base inst cc count dn w = (Ret (S count), w3) /\
    dict_get (devices (self w3)) id
    = Some (Build_device dd
              (Some (base ++ txt "_" ++ txt (replace_space (strip ty))))) /\
    stdout w3 = stdout w2.
Proof.
  intros id dd Hdigit Hty Hascii.
  assert (Hdec : decode (replace_space (strip ty))
                 = Some (txt (replace_space (strip ty)))).
  { apply decode_seven_bit. apply replace_space_seven_bit.
    apply strip_Forall. exact Hascii. }
  eexists. split; [|split].
  - apply (scan_data_decoded interp net base inst cc count dn w Hdigit Hty Hdec).
  - cbn [set_self self with_devices devices]. apply dict_get_set_same.
  - reflexivity.
Qed.

Lemma ascii_type_named_witness :
  exists w3,
    scan_data (interp:=ascii_interp) (always "Door Window ")
              (txt "7") (txt "0") (txt "48") 2%nat (txt "1") (constructed [])
    = (Ret 3%nat, w3) /\
    dict_get (devices (self w3)) (txt "7.2")
    = Some (Build_device (new_data_dict (txt "0") (txt "48") (txt "1"))
                         (Some (txt "7_Door_Window"))).
Proof.
  destruct (@ascii_type_named ascii_interp (always "Door Window ")
              (txt "7") (txt "0") (txt "48") 2%nat (txt "1") (constructed [])
              "Door Window "
              (snd (device_type (always "Door Window ") (txt "7.2")
                      (constructed
                         [(txt "7.2",
                           Build_device
                             (new_data_dict (txt "0") (txt "48") (txt "1"))
                             None)]))))
    as (w3 & H1 & H2 & _).
  - reflexivity.
  - vm_compute. reflexivity.
  - repeat constructor.
  - exists w3. split; [exact H1 | exact H2].
Defined.

Lemma In_keys_dict_get {V} (d : dict V) (k : text) :
  In k (keys d) -> exists v, dict_get d k = Some v.
Proof.
  induction d as [| [k0 v0] d IH]; cbn; [tauto|].
  intros [-> | H].
  - rewrite text_eqb_refl. eexists; reflexivity.
  - destruct (text_eqb k0 k); [eexists; reflexivity | apply IH; exact H].
Qed.

Lemma dict_get_In {V} (d : dict V) (k : text) (v : V) :
  dict_get d k = Some v -> In (k, v) d.
Proof.
  induction d as [| [k0 v0] d IH]; cbn; [discriminate|].
  destruct (text_eqb k0 k) eqn:E.
  - apply text_eqb_eq in E. intros H. injection H as ->. left. congruence.
  - intros H. right. apply IH. exact H.
Qed.

(** [get_data] on a registered id that is a number begins with the
    request to refresh the value. *)
Lemma get_data_starts (net : network) (device_id : text) (d : device)
      (x : float) (n : Z) (w : world) :
  dict_get (devices (self w)) device_id = Some d ->
  float_of_text device_id = Some x ->
  int_of_float x = Ret n ->
  exists l,
    sent (snd (get_data net device_id w))
    = sent w ++ get_request (self w) (refresh_command n (data d)) :: l.
Proof.
  intros Hd Hx Hn.
  destruct (make_request_sent net (refresh_command n (data d)) w)
    as (k1 & Hk1 & Hsent1 & Hself1 & _).
  destruct k1 as [| k1]; [lia|]. cbn [repeat] in Hsent1.
  assert (Hrun : get_data net device_id w
                 = bind (_make_request net (refresh_command n (data d)))
                        (fun _ =>
                           bind (_make_request net (value_command n (data d)))
                                (fun page =>
                                   bind (page_content page)
                                        (fun body =>
                                           lift (float_of_value
                                                   (if text_eqb (type (data d)) (txt "bool")
                                                    then PyInt (if String.eqb body "true"
                                                                then 1 else 0)
                                                    else PyStr body))))) w).
  { unfold get_data, lookup_device, device_number, refresh_command,
      value_command.
    unfold bind at 1. unfold bind at 1. unfold get_self, or_raise, ret.
    cbv beta iota. rewrite Hd. cbv beta iota zeta.
    unfold bind at 1. unfold bind at 1. rewrite Hx. cbv beta iota.
    unfold lift at 1. rewrite Hn. reflexivity. }
  rewrite Hrun. unfold bind at 1.
  destruct (_make_request net (refresh_command n (data d)) w)
    as [[p1 | e1] w1] eqn:E1; cbn [fst snd] in *.
  - destruct (make_request_sent net (value_command n (data d)) w1)
      as (k2 & Hk2 & Hsent2 & Hself2 & _).
    exists (repeat (get_request (self w) (refresh_command n (data d))) k1
              ++ repeat (get_request (self w1) (value_command n (data d))) k2).
    assert (Hw : sent (snd (bind (_make_request net (value_command n (data d)))
                     (fun page =>
                        bind (page_content page)
                             (fun body =>
                                lift (float_of_value
                                        (if text_eqb (type (data d)) (txt "bool")
                                         then PyInt (if String.eqb body "true"
                                                     then 1 else 0)
                                         else PyStr body)))) w1))
                 = sent (snd (_make_request net (value_command n (data d)) w1))).
    { unfold bind.
      destruct (_make_request net (value_command n (data d)) w1)
        as [[[p2 |] | e2] w2]; cbn [snd page_content]; reflexivity. }
    rewrite Hw, Hsent2, Hsent1, <- app_assoc. reflexivity.
  - exists (repeat (get_request (self w) (refresh_command n (data d))) k1).
    exact Hsent1.
Qed.

(** X22.  Every id of a registry that a scan has returned can be read:
    it is registered with the value type and the suffix of its command
    class, [int(float(id))] accepts it, and so [get_data] on it, with
    any server, gets as far as its first request, which asks to refresh
    the value of that device at the coordinates of the entry. *)
Theorem scanned_ids_readable (interp : Interp) (net : network)
        (w : world) (r : registry) (w' : world) (id : text) :
  update_devices net w = (Ret r, w') ->
  In id (keys r) ->
  exists d x n,
    dict_get (devices (self w')) id = Some d /\
    classified (data d) /\
    float_of_text id = Some x /\ int_of_float x = Ret n /\
    forall net', exists l,
      sent (snd (get_data net' id w'))
      = sent w' ++ get_request (self w') (refresh_command n (data d)) :: l.
Proof.
  intros H Hin.
  destruct (update_devices_returns net w H) as (Hr & tree & Hs & Hc & Hnum).
  destruct (In_keys_dict_get r id Hin) as (d & Hd).
  unfold numbered in Hnum. rewrite Forall_forall in Hnum.
  destruct (Hnum id Hin) as (x & n & Hx & Hn).
  exists d, x, n. rewrite <- Hr.
  split; [exact Hd|]. split; [|split; [exact Hx|split; [exact Hn|]]].
  - assert (Hall : Forall (fun kv => classified (snd kv)) (coordinates r)).
    { rewrite Hc. apply add_all_Forall; [apply discovered_classified | constructor]. }
    rewrite Forall_forall in Hall.
    apply (Hall (id, data d)). unfold coordinates.
    apply (in_map (fun kd => (fst kd, data (snd kd))) r (id, d)).
    apply dict_get_In. exact Hd.
  - intros net'. apply (@get_data_starts net' id d x n w').
    + rewrite <- Hr. exact Hd.
    + exact Hx.
    + exact Hn.
Qed.

Lemma scanned_ids_readable_witness :
  exists d x n,
    dict_get (devices (self (snd scan_three))) (txt "5.0") = Some d /\
    classified (data d) /\
    float_of_text (txt "5.0") = Some x /\ int_of_float x = Ret n /\
    forall net', exists l,
      sent (snd (get_data net' (txt "5.0") (snd scan_three)))
      = sent (snd scan_three)
          ++ get_request (self (snd scan_three)) (refresh_command n (data d))
          :: l.
Proof.
  refine (@scanned_ids_readable ascii_interp
            (tree_server tree_three (fun _ => Responds (page_of "Power")))
            (constructed []) (devices (self (snd scan_three)))
            (snd scan_three) (txt "5.0") _ _).
  - vm_compute. reflexivity.
  - right. left. reflexivity.
Defined.
